(** * The stock price dashboard (streamlit2/main.py): a shallow embedding

    The script is one linear program: it reads a CSV per company, normalises
    the column labels, parses and sorts the dates, filters the rows by a date
    range and hands the result to four views.  This file embeds the data
    handling of the script as executable functions and proves what the
    specification says about it.

    Conventions of the embedding:
    - a pandas Timestamp is an integer number of nanoseconds since the epoch,
      [None] standing for NaT; a [datetime.date] is an integer number of days;
    - a float64 number is given by its exact rational value, and every
      float64 operation returns the exact result rounded to the nearest
      float64, ties to the even mantissa (IEEE 754);
    - a Python exception is a value of [exn], carried by [result];
    - what the script shows on the page is a list of [event]s. *)

From Stdlib Require Import ZArith QArith Qabs Qround Qpower List String Ascii Bool Lia.
From Stdlib Require Qcanon.
From Stdlib Require Import Permutation Sorted DecimalString DecimalN Lqa.
Import ListNotations.

Set Implicit Arguments.

(* ------------------------------------------------------------------ *)
(** ** Python exceptions and fallible computations *)

Inductive exn : Type :=
| KeyError (key : string)
| ValueError (msg : string)
| TypeError (msg : string)
| IndexError
| FileNotFoundError (path : string)
| ParserError (path : string)
| StreamlitAPIException (msg : string)
| MediaFileStorageError (path : string).

Inductive result (A : Type) : Type :=
| Ok (a : A)
| Raise (e : exn).

Arguments Ok {A} a.
Arguments Raise {A} e.

Definition bind {A B : Type} (c : result A) (k : A -> result B) : result B :=
  match c with
  | Ok a => k a
  | Raise e => Raise e
  end.

Declare Scope py_scope.
Delimit Scope py_scope with py.
Notation "x <- c ;; k" := (bind c (fun x => k))
  (at level 61, c at next level, right associativity) : py_scope.

(* ------------------------------------------------------------------ *)
(** ** Python strings: [str.strip], [str.lower], [str.split]

    Labels are byte strings; the whitespace and case tables are the ASCII
    ones ([str.isspace] is true of 9..13 and 28..32 below 128). *)

Module PyStr.

Definition is_space (c : ascii) : bool :=
  let n := nat_of_ascii c in
  ((9 <=? n) && (n <=? 13) || (28 <=? n) && (n <=? 32))%nat.

Fixpoint lstrip_list (s : list ascii) : list ascii :=
  match s with
  | c :: s' => if is_space c then lstrip_list s' else s
  | [] => []
  end.

Definition strip_list (s : list ascii) : list ascii :=
  rev (lstrip_list (rev (lstrip_list s))).

Definition strip (s : string) : string :=
  string_of_list_ascii (strip_list (list_ascii_of_string s)).

Definition lower_char (c : ascii) : ascii :=
  let n := nat_of_ascii c in
  if ((65 <=? n) && (n <=? 90))%nat then ascii_of_nat (n + 32) else c.

Fixpoint lower (s : string) : string :=
  match s with
  | EmptyString => EmptyString
  | String c s' => String (lower_char c) (lower s')
  end.

(** [s.split(sep)] for a one-character separator: the pieces between the
    occurrences of [sep], empty pieces kept. *)
Fixpoint split_list (sep : ascii) (s : list ascii) (cur : list ascii)
  : list (list ascii) :=
  match s with
  | [] => [rev cur]
  | c :: s' =>
      if Ascii.eqb c sep then rev cur :: split_list sep s' []
      else split_list sep s' (c :: cur)
  end.

Definition split (sep : ascii) (s : string) : list string :=
  map string_of_list_ascii (split_list sep (list_ascii_of_string s) []).

(** [xs[i]] on a list of strings. *)
Definition item (xs : list string) (i : nat) : result string :=
  match nth_error xs i with
  | Some x => Ok x
  | None => Raise IndexError
  end.

(** [x in xs] and [xs.count(x)] on labels. *)
Definition mem (x : string) (xs : list string) : bool :=
  existsb (String.eqb x) xs.

Fixpoint count (x : string) (xs : list string) : nat :=
  match xs with
  | [] => 0
  | y :: ys => (if String.eqb x y then 1 else 0) + count x ys
  end.

Fixpoint index (x : string) (xs : list string) : option nat :=
  match xs with
  | [] => None
  | y :: ys =>
      if String.eqb x y then Some 0%nat
      else option_map S (index x ys)
  end.

End PyStr.

(* ------------------------------------------------------------------ *)
(** ** Dates and timestamps *)

Module Time.

Local Open Scope Z_scope.

(** Nanoseconds in a day: the resolution of [datetime64[ns]]. *)
Definition ns_per_day : Z := 86400000000000.

(** A Timestamp, or NaT. *)
Definition timestamp : Type := option Z.

(** [ts.date()]: the calendar day of a timestamp (floor division, so that
    instants before the epoch fall on the right day). *)
Definition date (t : Z) : Z := t / ns_per_day.

(** [pd.to_datetime(d)] for a [datetime.date]: midnight of that day. *)
Definition of_date (d : Z) : Z := d * ns_per_day.

(** Days from the civil date [y-m-d] to 1970-01-01 (proleptic Gregorian). *)
Definition days_from_civil (y m d : Z) : Z :=
  let y' := if m <=? 2 then y - 1 else y in
  let era := y' / 400 in
  let yoe := y' - era * 400 in
  let mp := (m + 9) mod 12 in
  let doy := (153 * mp + 2) / 5 + d - 1 in
  let doe := yoe * 365 + yoe / 4 - yoe / 100 + doy in
  era * 146097 + doe - 719468.

Definition is_leap (y : Z) : bool :=
  ((y mod 4 =? 0) && negb (y mod 100 =? 0)) || (y mod 400 =? 0).

Definition days_in_month (y m : Z) : Z :=
  if m =? 2 then (if is_leap y then 29 else 28)
  else if (m =? 4) || (m =? 6) || (m =? 9) || (m =? 11) then 30
  else 31.

(** The instant [y-m-d hh:mi:ss], when the fields are in range. *)
Definition civil (y m d hh mi ss : Z) : option Z :=
  if (1 <=? m) && (m <=? 12) && (1 <=? d) && (d <=? days_in_month y m)
     && (0 <=? hh) && (hh <? 24) && (0 <=? mi) && (mi <? 60)
     && (0 <=? ss) && (ss <? 60)
  then Some (of_date (days_from_civil y m d)
             + ((hh * 60 + mi) * 60 + ss) * 1000000000)
  else None.

End Time.

(* ------------------------------------------------------------------ *)
(** ** pandas: cells, frames, column access, boolean indexing *)

Module Pandas.

Import Time.

(** A cell of a parsed table: a number of a float64 column (given by the
    number written in the file; the column holds the float64 nearest to
    it), a number of an int64 column, a text, a missing value (NaN), or,
    once a column went through [pd.to_datetime], a timestamp (or NaT). *)
Inductive cell : Type :=
| CNum (q : Q)
| CInt (z : Z)
| CStr (s : string)
| CNaN
| CTime (t : timestamp).

Definition row : Type := list cell.

Record DataFrame : Type := mkFrame {
  columns : list string;
  rows : list row
}.

(** A field a short line of the file does not have reads as NaN. *)
Definition cell_at (i : nat) (r : row) : cell := nth i r CNaN.

(** [df.columns = [col.strip().lower() for col in df.columns]] *)
Definition normalize_label (col : string) : string :=
  PyStr.lower (PyStr.strip col).

Definition normalize_columns (df : DataFrame) : DataFrame :=
  {| columns := map normalize_label (columns df); rows := rows df |}.

(** The position of the column [df[label]] is read from.  A label that is
    absent is a KeyError; a label held by two columns selects a sub-frame,
    not a Series, which no use in the script accepts. *)
Definition column_index (df : DataFrame) (label : string) : result nat :=
  match PyStr.count label (columns df), PyStr.index label (columns df) with
  | 1%nat, Some i => Ok i
  | O, _ | _, None => Raise (KeyError label)
  | _, _ => Raise (ValueError "duplicate column label")
  end.

(** [df[label]] *)
Definition get_series (df : DataFrame) (label : string) : result (list cell) :=
  (i <- column_index df label ;;
   Ok (map (cell_at i) (rows df)))%py.

(** Writing one cell of a row (a short row is padded with NaN first). *)
Fixpoint set_cell (i : nat) (v : cell) (r : row) : row :=
  match i, r with
  | O, [] => [v]
  | O, _ :: r' => v :: r'
  | S k, [] => CNaN :: set_cell k v []
  | S k, c :: r' => c :: set_cell k v r'
  end.

(** [df[label] = values] on an existing column, position by position
    (a value that is not there reads as NaT). *)
Fixpoint assign (i : nat) (vals : list timestamp) (rs : list row) : list row :=
  match rs with
  | [] => []
  | r :: rs' =>
      set_cell i (CTime (hd None vals)) r :: assign i (tl vals) rs'
  end.

(** The timestamp in a cell of a datetime column. *)
Definition time_of (c : cell) : timestamp :=
  match c with
  | CTime t => t
  | _ => None
  end.

Definition date_at (i : nat) (r : row) : timestamp := time_of (cell_at i r).

Definition is_time (c : cell) : bool :=
  match c with
  | CTime _ => true
  | _ => false
  end.

(** [series >= ts] and [series <= ts] for a Timestamp [ts]: element by
    element, NaT compares false; a column that is not of datetime type
    cannot be compared with a Timestamp. *)
Definition cmp_series (cmp : Z -> Z -> bool) (s : list cell) (ts : Z)
  : result (list bool) :=
  if forallb is_time s
  then Ok (map (fun c => match time_of c with
                         | Some x => cmp x ts
                         | None => false
                         end) s)
  else Raise (TypeError "invalid comparison between dtypes").

Definition series_ge : list cell -> Z -> result (list bool) :=
  cmp_series Z.geb.

Definition series_le : list cell -> Z -> result (list bool) :=
  cmp_series Z.leb.

(** [a & b] on boolean Series of one frame. *)
Fixpoint mask_and (a b : list bool) : list bool :=
  match a, b with
  | x :: a', y :: b' => (x && y) :: mask_and a' b'
  | _, _ => []
  end.

(** [df[mask]]: a new frame with the rows whose mask is True. *)
Fixpoint boolean_index (rs : list row) (mask : list bool) : list row :=
  match rs, mask with
  | r :: rs', b :: mask' =>
      if b then r :: boolean_index rs' mask' else boolean_index rs' mask'
  | _, _ => []
  end.

(** [series.min()] and [series.max()] of a datetime column: NaT is skipped,
    and is the answer when nothing else is there. *)
Definition ts_min (a b : timestamp) : timestamp :=
  match a, b with
  | Some x, Some y => Some (Z.min x y)
  | Some x, None => Some x
  | None, _ => b
  end.

Definition ts_max (a b : timestamp) : timestamp :=
  match a, b with
  | Some x, Some y => Some (Z.max x y)
  | Some x, None => Some x
  | None, _ => b
  end.

Definition series_min (s : list cell) : timestamp :=
  fold_right (fun c acc => ts_min (time_of c) acc) None s.

Definition series_max (s : list cell) : timestamp :=
  fold_right (fun c acc => ts_max (time_of c) acc) None s.

(** The order [sort_values] puts a datetime column in: ascending, NaT last. *)
Definition ts_le (a b : timestamp) : Prop :=
  match a, b with
  | Some x, Some y => (x <= y)%Z
  | _, None => True
  | None, Some _ => False
  end.

Definition ts_leb (a b : timestamp) : bool :=
  match a, b with
  | Some x, Some y => (x <=? y)%Z
  | _, None => true
  | None, Some _ => false
  end.

(** A stable insertion sort on a key: one sort that meets the contract of
    [sort_values] (used to run the model on concrete tables). *)
Fixpoint insert_by (key : row -> timestamp) (r : row) (rs : list row)
  : list row :=
  match rs with
  | [] => [r]
  | r' :: rs' =>
      if ts_leb (key r) (key r') then r :: rs
      else r' :: insert_by key r rs'
  end.

Definition insertion_sort (key : row -> timestamp) (rs : list row)
  : list row :=
  fold_right (insert_by key) [] rs.

(** [df[(df["date"] >= pd.to_datetime(lo)) & (df["date"] <= pd.to_datetime(hi))]]
    for two [datetime.date] bounds (lines 63-64 and 96-97). *)
Definition filter_by_date (df : DataFrame) (date_range : Z * Z)
  : result DataFrame :=
  (s1 <- get_series df "date" ;;
   ge <- series_ge s1 (of_date (fst date_range)) ;;
   s2 <- get_series df "date" ;;
   le <- series_le s2 (of_date (snd date_range)) ;;
   Ok {| columns := columns df;
         rows := boolean_index (rows df) (mask_and ge le) |})%py.

(** The files of the data folder, by name relative to it. *)
Inductive file : Type :=
| Absent
| Blob
| Csv (table : DataFrame).

(** [pd.read_csv(path)] *)
Definition read_csv (fs : string -> file) (path : string) : result DataFrame :=
  match fs path with
  | Absent => Raise (FileNotFoundError path)
  | Blob => Raise (ParserError path)
  | Csv t => Ok t
  end.

(** [os.path.exists(path)] *)
Definition exists_ (fs : string -> file) (path : string) : bool :=
  match fs path with
  | Absent => false
  | _ => true
  end.

(** ["date" in df.columns and "close" in df.columns] (lines 41, 93). *)
Definition has_price_columns (df : DataFrame) : bool :=
  PyStr.mem "date" (columns df) && PyStr.mem "close" (columns df).

Section Library.

(** [pd.to_datetime] on a column: the timestamps of its cells (NaT for a
    missing one), or an exception when a cell cannot be read as a date.  How
    text is read as a date is pandas's business and left open here. *)
Variable to_datetime : list cell -> result (list timestamp).

(** The row order [sort_values] computes from a key.  pandas sorts with
    quicksort by default, so the order of rows with equal keys is left open;
    the results below need only that the rows are permuted and the keys end
    up in order. *)
Variable sort_rows : (row -> timestamp) -> list row -> list row.

(** [df[label] = pd.to_datetime(df[label])] (lines 42, 94, 110). *)
Definition parse_dates (df : DataFrame) (label : string) : result DataFrame :=
  (s <- get_series df label ;;
   ts <- to_datetime s ;;
   i <- column_index df label ;;
   Ok {| columns := columns df; rows := assign i ts (rows df) |})%py.

(** [df.sort_values(label)] on a datetime column. *)
Definition sort_values (df : DataFrame) (label : string) : result DataFrame :=
  (i <- column_index df label ;;
   Ok {| columns := columns df; rows := sort_rows (date_at i) (rows df) |})%py.

(** The loader (lines 35-43 for the selected company, 90-95 for a company
    compared with): read, normalise the labels, and when both columns are
    there parse the dates and sort.  [Ok None] is the case of a missing
    column. *)
Definition load_prices (fs : string -> file) (path : string)
  : result (option DataFrame) :=
  (df <- read_csv fs path ;;
   let df := normalize_columns df in
   if has_price_columns df then
     df <- parse_dates df "date" ;;
     df <- sort_values df "date" ;;
     Ok (Some df)
   else Ok None)%py.

End Library.

(** A [pd.to_datetime] for columns of ISO text, to run the model on
    concrete tables: text of the shapes [YYYY-MM-DD] and
    [YYYY-MM-DD HH:MM:SS] is read as that instant, a missing value as NaT,
    a timestamp as itself; other text is refused, and so is a number, which
    the tables used here do not hold in a date column. *)
Definition digit_of (c : ascii) : option Z :=
  let n := nat_of_ascii c in
  if ((48 <=? n) && (n <=? 57))%nat then Some (Z.of_nat (n - 48)) else None.

Fixpoint number_of (cs : list ascii) (acc : Z) : option Z :=
  match cs with
  | [] => Some acc
  | c :: cs' =>
      match digit_of c with
      | Some d => number_of cs' (10 * acc + d)%Z
      | None => None
      end
  end.

Definition field (cs : list ascii) (from len : nat) : option Z :=
  let piece := firstn len (skipn from cs) in
  if (List.length piece =? len)%nat then number_of piece 0%Z else None.

Definition sep_is (cs : list ascii) (at_ : nat) (c : ascii) : bool :=
  match nth_error cs at_ with
  | Some c' => Ascii.eqb c c'
  | None => false
  end.

Definition parse_iso (s : string) : option Z :=
  let cs := list_ascii_of_string s in
  match field cs 0 4, field cs 5 2, field cs 8 2 with
  | Some y, Some m, Some d =>
      if sep_is cs 4 "-" && sep_is cs 7 "-" then
        if (List.length cs =? 10)%nat then civil y m d 0 0 0
        else if (List.length cs =? 19)%nat && sep_is cs 10 " "
                && sep_is cs 13 ":" && sep_is cs 16 ":" then
          match field cs 11 2, field cs 14 2, field cs 17 2 with
          | Some hh, Some mi, Some ss => civil y m d hh mi ss
          | _, _, _ => None
          end
        else None
      else None
  | _, _, _ => None
  end.

Fixpoint iso_to_datetime (s : list cell) : result (list timestamp) :=
  match s with
  | [] => Ok []
  | c :: s' =>
      (t <- match c with
            | CStr x =>
                match parse_iso x with
                | Some t => Ok (Some t)
                | None => Raise (ValueError "unknown datetime string format")
                end
            | CNaN => Ok None
            | CTime t => Ok t
            | CNum _ | CInt _ =>
                Raise (ValueError "unknown datetime string format")
            end ;;
       ts <- iso_to_datetime s' ;;
       Ok (t :: ts))%py
  end.

End Pandas.

(* ------------------------------------------------------------------ *)
(** ** Frames as objects

    A Python variable holds a reference to an object in the interpreter's
    heap.  Some pandas operations build a new object ([df[label]],
    [series >= ts], [a & b], [df[mask]]), others write into the frame they
    are called on ([df.columns = ..] of line 38, [df[label] = ..] of line
    42). *)

Module Objects.

Import Pandas.

Inductive object : Type :=
| OFrame (d : DataFrame)
| OSeries (s : list cell)
| OMask (m : list bool).

Definition heap : Type := list object.

(** A new object, at a reference that was not in use. *)
Definition alloc (h : heap) (o : object) : heap * nat :=
  (h ++ [o], List.length h).

(** The object at [r] replaced. *)
Fixpoint store (h : heap) (r : nat) (o : object) : heap :=
  match h, r with
  | [], _ => []
  | _ :: h', O => o :: h'
  | x :: h', S r' => x :: store h' r' o
  end.

Definition frame_at (h : heap) (r : nat) : result DataFrame :=
  match nth_error h r with
  | Some (OFrame d) => Ok d
  | _ => Raise (TypeError "not a DataFrame")
  end.

Definition series_at (h : heap) (r : nat) : result (list cell) :=
  match nth_error h r with
  | Some (OSeries s) => Ok s
  | _ => Raise (TypeError "not a Series")
  end.

Definition mask_at (h : heap) (r : nat) : result (list bool) :=
  match nth_error h r with
  | Some (OMask m) => Ok m
  | _ => Raise (TypeError "not a boolean Series")
  end.

(** [df[label]]: a new Series. *)
Definition getitem (h : heap) (df : nat) (label : string)
  : result (heap * nat) :=
  (d <- frame_at h df ;;
   s <- get_series d label ;;
   Ok (alloc h (OSeries s)))%py.

(** [series >= ts] and [series <= ts]: a new boolean Series. *)
Definition compare (cmp : Z -> Z -> bool) (h : heap) (series : nat) (ts : Z)
  : result (heap * nat) :=
  (s <- series_at h series ;;
   m <- cmp_series cmp s ts ;;
   Ok (alloc h (OMask m)))%py.

(** [a & b]: a new boolean Series. *)
Definition and_ (h : heap) (a b : nat) : result (heap * nat) :=
  (x <- mask_at h a ;;
   y <- mask_at h b ;;
   Ok (alloc h (OMask (mask_and x y))))%py.

(** [df[mask]]: a new frame. *)
Definition getitem_mask (h : heap) (df mask : nat) : result (heap * nat) :=
  (d <- frame_at h df ;;
   m <- mask_at h mask ;;
   Ok (alloc h (OFrame {| columns := columns d;
                          rows := boolean_index (rows d) m |})))%py.

(** [df.columns = [col.strip().lower() for col in df.columns]] (line 38):
    the labels of the frame itself are replaced. *)
Definition set_columns (h : heap) (df : nat) : result heap :=
  (d <- frame_at h df ;;
   Ok (store h df (OFrame (normalize_columns d))))%py.

(** A heap [h'] holds every object of [h] where it was. *)
Definition extends (h h' : heap) : Prop :=
  forall k o, nth_error h k = Some o -> nth_error h' k = Some o.

(** [df_filtered = df[(df["date"] >= ..) & (df["date"] <= ..)]] (lines
    63-64), operation by operation in the order Python evaluates them, with
    [df] the reference held by the variable; the result is the new heap and
    the reference bound to [df_filtered]. *)
Definition exec_filter (h : heap) (df : nat) (date_range : Z * Z)
  : result (heap * nat) :=
  (a <- getitem h df "date" ;;
   ge <- compare Z.geb (fst a) (snd a) (Time.of_date (fst date_range)) ;;
   b <- getitem (fst ge) df "date" ;;
   le <- compare Z.leb (fst b) (snd b) (Time.of_date (snd date_range)) ;;
   m <- and_ (fst le) (snd ge) (snd le) ;;
   getitem_mask (fst m) df (snd m))%py.

End Objects.

(* ------------------------------------------------------------------ *)
(** ** Python number formatting: [f"{x:.4f}"] and [f"{x:,.2f}"] *)

Module PyFmt.

Local Open Scope Z_scope.

(** The nearest integer, a tie going to the even one. *)
Definition round_half_even (q : Q) : Z :=
  let f := Qfloor q in
  match Qcompare (q - inject_Z f) (1 # 2) with
  | Lt => f
  | Gt => f + 1
  | Eq => if Z.even f then f else f + 1
  end.

Definition digit_char (d : Z) : ascii := ascii_of_nat (48 + Z.to_nat d).

(** The last [d] decimal digits of [m], leading zeros kept. *)
Fixpoint frac_digits (d : nat) (m : Z) : list ascii :=
  match d with
  | O => []
  | S d' => frac_digits d' (m / 10) ++ [digit_char (m mod 10)]
  end.

(** The decimal digits of a natural number. *)
Definition int_digits (m : Z) : list ascii :=
  list_ascii_of_string
    (DecimalString.NilZero.string_of_uint (N.to_uint (Z.to_N m))).

(** A comma between groups of three digits, counted from the right;
    [ds] is the digit list reversed, [k] the digits left in the group. *)
Fixpoint group3_rev (ds : list ascii) (k : nat) : list ascii :=
  match ds with
  | [] => []
  | c :: ds' =>
      match k with
      | O => ","%char :: c :: group3_rev ds' 2
      | S k' => c :: group3_rev ds' k'
      end
  end.

Definition group3 (ds : list ascii) : list ascii :=
  rev (group3_rev (rev ds) 3).

(** [f"{q:.df}"], with thousands separators when [commas]. *)
Definition format_fixed (commas : bool) (d : nat) (q : Q) : string :=
  let n := Z.abs (round_half_even (q * inject_Z (10 ^ Z.of_nat d))) in
  let whole := int_digits (n / 10 ^ Z.of_nat d) in
  let sign := match Qcompare q 0 with Lt => ["-"%char] | _ => [] end in
  string_of_list_ascii
    (sign ++ (if commas then group3 whole else whole)
          ++ (if (d =? 0)%nat then [] else "."%char :: frac_digits d n)).

End PyFmt.

(* ------------------------------------------------------------------ *)
(** ** float64 arithmetic (IEEE 754 binary64)

    A finite float64 is given by its exact rational value.  An operation
    returns the exact result rounded to the nearest float64, ties to the
    even mantissa: 53 bits of mantissa, exponents down to -1074 (gradual
    underflow), infinity from 2^1024 on.  The sign of a zero is not
    kept. *)

Module Float64.

Import Pandas.

Local Open Scope Q_scope.

(** [2^e], for an exponent of either sign. *)
Definition pow2 (e : Z) : Q := 2 ^ e.

(** The exponent of the leading bit of a positive rational [n/d]: the [e]
    with [2^e <= n/d < 2^(e+1)]. *)
Definition ilog2 (n : Z) (d : positive) : Z :=
  let c := (Z.log2 n - Z.log2 (Zpos d))%Z in
  if Qle_bool (pow2 c) (n # d) then c else (c - 1)%Z.

Inductive t : Type :=
| Finite (q : Q)
| Inf (negative : bool)
| NaN.

(** The float64 nearest to a positive rational; [None] on overflow. *)
Definition round_pos (n : Z) (d : positive) : option Q :=
  let e := Z.max (ilog2 n d - 52) (-1074) in
  let m := PyFmt.round_half_even ((n # d) / pow2 e) in
  let v := inject_Z m * pow2 e in
  if Qle_bool (pow2 1024) v then None else Some (Qred v).

(** The float64 nearest to a rational. *)
Definition round (q : Q) : t :=
  let q := Qred q in
  match Qnum q with
  | Z0 => Finite 0
  | Zpos n => match round_pos (Zpos n) (Qden q) with
              | Some v => Finite v
              | None => Inf false
              end
  | Zneg n => match round_pos (Zpos n) (Qden q) with
              | Some v => Finite (- v)
              | None => Inf true
              end
  end.

(** [float(z)] for an integer. *)
Definition of_Z (z : Z) : t := round (inject_Z z).

Definition opp (x : t) : t :=
  match x with
  | Finite q => Finite (- q)
  | Inf s => Inf (negb s)
  | NaN => NaN
  end.

Definition abs (x : t) : t :=
  match x with
  | Finite q => Finite (Qabs q)
  | Inf _ => Inf false
  | NaN => NaN
  end.

Definition add (x y : t) : t :=
  match x, y with
  | Finite a, Finite b => round (a + b)
  | NaN, _ | _, NaN => NaN
  | Inf s, Inf s' => if Bool.eqb s s' then Inf s else NaN
  | Inf s, Finite _ | Finite _, Inf s => Inf s
  end.

Definition sub (x y : t) : t := add x (opp y).

Definition negative (q : Q) : bool :=
  match Qcompare q 0 with
  | Lt => true
  | _ => false
  end.

Definition div (x y : t) : t :=
  match x, y with
  | NaN, _ | _, NaN => NaN
  | Inf _, Inf _ => NaN
  | Inf s, Finite b => Inf (xorb s (negative b))
  | Finite _, Inf _ => Finite 0
  | Finite a, Finite b =>
      if Qeq_bool b 0
      then (if Qeq_bool a 0 then NaN else Inf (negative a))
      else round (a / b)
  end.

(** The float64 a numeric cell holds. *)
Definition of_cell (c : cell) : option t :=
  match c with
  | CNum q => Some (round q)
  | CInt z => Some (of_Z z)
  | _ => None
  end.



End Float64.

(* ------------------------------------------------------------------ *)
(** ** NumPy: sums

    [ndarray.sum] on a float64 array adds pairwise: fewer than 8 elements
    one after the other; up to 128 elements in eight running sums that
    take every eighth element, combined two by two, the elements left over
    added last; more than 128 elements as the sum of the sums of two
    halves, the first a multiple of eight long.  On an int64 array the sum
    wraps around. *)

Module Numpy.

Import Float64.

Definition add_all (acc : t) (l : list t) : t := fold_left add l acc.

(** [r[j] += a[i + j]] for the eight [j]. *)
Fixpoint add_lanes (r block : list t) : list t :=
  match r, block with
  | x :: r', y :: block' => add x y :: add_lanes r' block'
  | _, _ => r
  end.

Fixpoint add_blocks (k : nat) (r l : list t) : list t * list t :=
  match k with
  | O => (r, l)
  | S k' => add_blocks k' (add_lanes r (firstn 8 l)) (skipn 8 l)
  end.

Definition tree8 (r : list t) : t :=
  match r with
  | [r0; r1; r2; r3; r4; r5; r6; r7] =>
      add (add (add r0 r1) (add r2 r3)) (add (add r4 r5) (add r6 r7))
  | _ => NaN
  end.

Definition block_sum (l : list t) : t :=
  let k := (List.length l / 8 - 1)%nat in
  let rr := add_blocks k (firstn 8 l) (skipn 8 l) in
  add_all (tree8 (fst rr)) (snd rr).

Fixpoint pairwise (fuel : nat) (l : list t) : t :=
  let n := List.length l in
  if (n <? 8)%nat then add_all (Finite 0) l
  else if (n <=? 128)%nat then block_sum l
  else
    match fuel with
    | O => NaN
    | S fuel' =>
        let n2 := (n / 2 - (n / 2) mod 8)%nat in
        add (pairwise fuel' (firstn n2 l)) (pairwise fuel' (skipn n2 l))
    end.

(** [a.sum()] on float64: the reduction starts from zero. *)
Definition sum (l : list t) : t :=
  add (Finite 0) (pairwise (List.length l) l).

(** An integer read as an int64. *)
Definition wrap64 (z : Z) : Z := ((z + 2 ^ 63) mod 2 ^ 64 - 2 ^ 63)%Z.

(** [a.sum()] on int64. *)
Definition int_sum (l : list Z) : Z := wrap64 (fold_left Z.add l 0%Z).

End Numpy.

(* ------------------------------------------------------------------ *)
(** ** scikit-learn: [mean_absolute_error]

    The script imports the metric from scikit-learn; this is that
    function's behaviour on two one-dimensional inputs with uniform
    weights: the lengths are checked first, then each input must be a
    non-empty array of finite numbers, taken as float64; the result is
    [np.average(np.abs(y_pred - y_true))]: each difference in float64, their
    sum as NumPy adds, divided by their number. *)

Module Sklearn.

Import Pandas.

Definition length_mismatch : exn :=
  ValueError "Found input variables with inconsistent numbers of samples".

Fixpoint check_array (s : list cell) : option (list Q) :=
  match s with
  | [] => Some []
  | c :: s' =>
      match Float64.of_cell c with
      | Some (Float64.Finite q) => option_map (cons q) (check_array s')
      | _ => None
      end
  end.

Fixpoint abs_errors (y_true y_pred : list Q) : list Float64.t :=
  match y_true, y_pred with
  | t :: ts, p :: ps =>
      Float64.abs (Float64.sub (Float64.Finite p) (Float64.Finite t))
      :: abs_errors ts ps
  | _, _ => []
  end.

Definition average (l : list Float64.t) : Float64.t :=
  Float64.div (Numpy.sum l) (Float64.of_Z (Z.of_nat (List.length l))).

Definition mean_absolute_error (y_true y_pred : list cell)
  : result Float64.t :=
  if negb (List.length y_true =? List.length y_pred)%nat
  then Raise length_mismatch
  else
    match check_array y_true, check_array y_pred with
    | Some t, Some p =>
        match t with
        | [] => Raise (ValueError "Found array with 0 sample(s)")
        | _ :: _ => Ok (average (abs_errors t p))
        end
    | _, _ => Raise (ValueError "Input contains NaN, infinity or text")
    end.

End Sklearn.

(* ------------------------------------------------------------------ *)
(** ** Python: numbers in an f-string *)

Module PyNum.

(** A number a reduction returns: a NumPy int64 or float64. *)
Inductive number : Type :=
| NInt (z : Z)
| NFloat (x : Float64.t).

(** A fixed-point format takes an integer as a float. *)
Definition to_float (n : number) : Float64.t :=
  match n with
  | NInt z => Float64.of_Z z
  | NFloat x => x
  end.

(** [f"{x:.df}"] and [f"{x:,.df}"] of a float. *)
Definition format_float (commas : bool) (d : nat) (x : Float64.t) : string :=
  match x with
  | Float64.Finite q => PyFmt.format_fixed commas d q
  | Float64.Inf false => "inf"
  | Float64.Inf true => "-inf"
  | Float64.NaN => "nan"
  end.

Definition format_number (commas : bool) (d : nat) (n : number) : string :=
  format_float commas d (to_float n).

End PyNum.

(* ------------------------------------------------------------------ *)
(** ** plotly: figures as the script builds them

    A figure is what [px.line] or [px.bar] was given (the frame and the
    columns plotted), plus the traces added to it afterwards. *)

Module Plotly.

Import Pandas.

Inductive chart_kind : Type := LineChart | BarChart.

Record scatter : Type := mkScatter {
  sc_x : list cell;
  sc_y : list cell;
  sc_mode : string;
  sc_name : string
}.

Record figure : Type := mkFigure {
  fig_kind : chart_kind;
  fig_frame : DataFrame;
  fig_x : string;
  fig_y : string;
  fig_color : option string;
  fig_title : option string;
  fig_labels : list (string * string);
  fig_mode : option string;
  fig_scatters : list scatter
}.

(** [px.line(df, x=.., y=.., color=.., title=.., labels=..)] and [px.bar]:
    every column named must be a Series of the frame. *)
Definition px (kind : chart_kind) (df : DataFrame) (x y : string)
  (color title : option string) (labels : list (string * string))
  : result figure :=
  (_ <- get_series df x ;;
   _ <- get_series df y ;;
   _ <- match color with
        | Some c => get_series df c
        | None => Ok []
        end ;;
   Ok {| fig_kind := kind; fig_frame := df; fig_x := x; fig_y := y;
         fig_color := color; fig_title := title; fig_labels := labels;
         fig_mode := None; fig_scatters := [] |})%py.

(** [fig.add_scatter(x=.., y=.., mode=.., name=..)] *)
Definition add_scatter (fig : figure) (x y : list cell) (mode name : string)
  : figure :=
  {| fig_kind := fig_kind fig; fig_frame := fig_frame fig;
     fig_x := fig_x fig; fig_y := fig_y fig; fig_color := fig_color fig;
     fig_title := fig_title fig; fig_labels := fig_labels fig;
     fig_mode := fig_mode fig;
     fig_scatters := fig_scatters fig ++ [mkScatter x y mode name] |}.

(** [fig.update_traces(mode=..)] *)
Definition update_traces (fig : figure) (mode : string) : figure :=
  {| fig_kind := fig_kind fig; fig_frame := fig_frame fig;
     fig_x := fig_x fig; fig_y := fig_y fig; fig_color := fig_color fig;
     fig_title := fig_title fig; fig_labels := fig_labels fig;
     fig_mode := Some mode;
     fig_scatters := fig_scatters fig |}.

(** The values a figure plots along each axis: the two columns of its
    frame, then those of the added traces. *)
Definition column_or_nil (df : DataFrame) (label : string) : list cell :=
  match get_series df label with
  | Ok s => s
  | Raise _ => []
  end.

Definition plotted_x (fig : figure) : list cell :=
  column_or_nil (fig_frame fig) (fig_x fig)
  ++ List.concat (map sc_x (fig_scatters fig)).

Definition plotted_y (fig : figure) : list cell :=
  column_or_nil (fig_frame fig) (fig_y fig)
  ++ List.concat (map sc_y (fig_scatters fig)).

(** The extent of the data of a figure: the earliest and latest instant
    plotted along the date axis, the least and greatest number plotted
    along the price axis.  (How far beyond its data a chart draws its axes
    is plotly's business and depends on the kind of chart.) *)
Definition num_of (c : cell) : option Q :=
  match Float64.of_cell c with
  | Some (Float64.Finite q) => Some q
  | _ => None
  end.

Definition q_pick (pick : Q -> Q -> Q) (a b : option Q) : option Q :=
  match a, b with
  | Some x, Some y => Some (pick x y)
  | Some x, None => Some x
  | None, _ => b
  end.

Definition q_min (x y : Q) : Q := if Qle_bool x y then x else y.
Definition q_max (x y : Q) : Q := if Qle_bool x y then y else x.

Definition x_bounds (fig : figure) : Time.timestamp * Time.timestamp :=
  (series_min (plotted_x fig), series_max (plotted_x fig)).

Definition y_bounds (fig : figure) : option Q * option Q :=
  (fold_right (fun c acc => q_pick q_min (num_of c) acc) None (plotted_y fig),
   fold_right (fun c acc => q_pick q_max (num_of c) acc) None (plotted_y fig)).

End Plotly.

(* ------------------------------------------------------------------ *)
(** ** The script *)

Module Dashboard.

Import Pandas Plotly.

Local Open Scope string_scope.
Local Open Scope list_scope.

(** String concatenation ([a + b] on Python strings). *)
Local Infix "+++" := String.append (at level 60, right associativity).

(** Where on the page an element goes. *)
Inductive container : Type :=
| Main
| Sidebar
| HeaderCol (n : nat)
| Tab (n : nat)
| Expander (label : string).

(** The elements the script puts on the page. *)
Inductive element : Type :=
| Selectbox (label : string) (options : list string)
| Image (path : string) (width : nat)
| Markdown (text : string)
| Caption (text : string)
| Slider (label : string) (min_value max_value : Z) (value : Z * Z)
| Tabs (names : list string)
| Subheader (text : string)
| PlotlyChart (fig : figure)
| Multiselect (label : string) (options : list string)
| Dataframe (df : DataFrame)
| Info (text : string)
| Error (text : string)
| Warning (text : string)
| Write (text : string) (items : list string).

Definition event : Type := container * element.

(** A run of (a part of) the script: the elements shown so far, and either
    a value or the exception that stopped it. *)
Definition M (A : Type) : Type := list event * result A.

Definition ret {A : Type} (a : A) : M A := ([], Ok a).

Definition mbind {A B : Type} (c : M A) (k : A -> M B) : M B :=
  match snd c with
  | Ok a => let r := k a in (fst c ++ fst r, snd r)
  | Raise e => (fst c, Raise e)
  end.

Definition emit (c : container) (e : element) : M unit := ([(c, e)], Ok tt).

Definition lift {A : Type} (r : result A) : M A := ([], r).

Declare Scope ui_scope.
Delimit Scope ui_scope with ui.
Notation "x <- c ;; k" := (mbind c (fun x => k))
  (at level 61, c at next level, right associativity) : ui_scope.

(** The fixed tables of the script, in the order they are written. *)
Definition files : list (string * string) :=
  [ ("Apple (AAPL)", "df_AAPL.csv");
    ("Anheuser-Busch (ABNB)", "df_ABNB.csv");
    ("Google (GOOG)", "df_GOOG.csv");
    ("Amazon (AMZN)", "df_AMZN.csv");
    ("Boeing (BA)", "df_BA.csv");
    ("American Tower (AMT)", "df_AMT.csv") ].

Definition descriptions : list (string * string) :=
  [ ("Apple (AAPL)", "Apple Inc. is a global technology company known for the iPhone, Mac, and innovative software services.");
    ("Anheuser-Busch (ABNB)", "Airbnb, Inc. operates an online marketplace for lodging, primarily homestays for vacation rentals.");
    ("Google (GOOG)", "Google LLC is a leading tech company specializing in internet-related services, AI, and cloud computing.");
    ("Amazon (AMZN)", "Amazon.com, Inc. is a global e-commerce and cloud computing giant headquartered in Seattle.");
    ("Boeing (BA)", "The Boeing Company designs, manufactures, and sells airplanes, rotorcraft, rockets, and satellites worldwide.");
    ("American Tower (AMT)", "American Tower Corporation is a real estate investment trust that owns and operates wireless towers.") ].

Definition keys (d : list (string * string)) : list string := map fst d.

(** [d[k]] *)
Fixpoint dict_get (d : list (string * string)) (k : string) : result string :=
  match d with
  | [] => Raise (KeyError k)
  | (k', v) :: d' => if String.eqb k k' then Ok v else dict_get d' k
  end.

(** [files[selected_company].split('_')[1].split('.')[0]] (line 46). *)
Definition symbol_of (file_name : string) : result string :=
  (p <- PyStr.item (PyStr.split "_" file_name) 1 ;;
   PyStr.item (PyStr.split "." p) 0)%py.

(** [st.image(path, width=..)]: the file must be there. *)
Definition st_image (fs : string -> file) (c : container) (path : string)
  (width : nat) : M unit :=
  if exists_ fs path then emit c (Image path width)
  else lift (Raise (MediaFileStorageError path)).

(** [st.slider(label, min_value=lo, max_value=hi, value=(lo, hi))] on
    dates.  A bound that is NaT has no slider type: the look-up of its type
    raises KeyError.  The slider needs room to move: it raises unless
    [min_value] is before [max_value].  The value returned is the default
    [(lo, hi)] until the user moves the handles ([picked]). *)
Definition st_slider (label : string) (lo hi : option Z)
  (picked : option (Z * Z)) : M (Z * Z) :=
  match lo, hi with
  | Some lo, Some hi =>
      if (lo <? hi)%Z then
        let value := match picked with
                     | Some v => v
                     | None => (lo, hi)
                     end in
        (_ <- emit Main (Slider label lo hi value) ;; ret value)%ui
      else
        lift (Raise (StreamlitAPIException
                       "Slider `min_value` must be less than the `max_value`."))
  | _, _ => lift (Raise (KeyError "NaTType"))
  end.

(** [k for k in files.keys() if k != selected_company] (lines 84-85). *)
Definition compare_options (selected_company : string) : list string :=
  filter (fun k => negb (String.eqb k selected_company)) (keys files).

(** [df.melt(id_vars=id, value_vars=vars, var_name=.., value_name=..)]:
    one block of rows per value column, in the order of [vars]. *)
Fixpoint melt_rows (df : DataFrame) (ids : list cell) (vars : list string)
  : result (list row) :=
  match vars with
  | [] => Ok []
  | v :: vars' =>
      (s <- get_series df v ;;
       rest <- melt_rows df ids vars' ;;
       Ok (map (fun p => [fst p; CStr v; snd p]) (combine ids s) ++ rest))%py
  end.

Definition melt (df : DataFrame) (id : string) (vars : list string)
  (var_name value_name : string) : result DataFrame :=
  (ids <- get_series df id ;;
   rs <- melt_rows df ids vars ;;
   Ok {| columns := [id; var_name; value_name]; rows := rs |})%py.

(** The cells of an int64 column, and of a float64 column with its missing
    values replaced by zero. *)
Fixpoint ints_of (s : list cell) : option (list Z) :=
  match s with
  | [] => Some []
  | CInt z :: s' => option_map (cons z) (ints_of s')
  | _ :: _ => None
  end.

Fixpoint floats_of (s : list cell) : option (list Float64.t) :=
  match s with
  | [] => Some []
  | CNaN :: s' => option_map (cons (Float64.Finite 0)) (floats_of s')
  | c :: s' =>
      match Float64.of_cell c with
      | Some x => option_map (cons x) (floats_of s')
      | None => None
      end
  end.

Definition is_text (c : cell) : bool :=
  match c with
  | CStr _ => true
  | _ => false
  end.

(** [series.sum()], for the float format of line 146: an int64 column is
    added up in int64; a float64 column is added up in float64, a missing
    value counting for nothing; the texts of a column of texts are
    concatenated, which the format refuses; any other column cannot be
    added up. *)
Definition series_sum (s : list cell) : result PyNum.number :=
  match ints_of s with
  | Some zs => Ok (PyNum.NInt (Numpy.int_sum zs))
  | None =>
      match floats_of s with
      | Some xs => Ok (PyNum.NFloat (Numpy.sum xs))
      | None =>
          if forallb is_text s
          then Raise (ValueError "Unknown format code 'f' for object of type 'str'")
          else Raise (TypeError "unsupported operand type(s) for +")
      end
  end.

(** [f"forecast_{symbol}.csv"] (line 104). *)
Definition forecast_path (symbol : string) : string :=
  "forecast_" +++ symbol +++ ".csv".

Section Script.

Variable to_datetime : list cell -> result (list Time.timestamp).
Variable sort_rows : (row -> Time.timestamp) -> list row -> list row.

(** The data folder. *)
Variable fs : string -> file.

(** Lines 70-74. *)
Definition line_view (df_filtered : DataFrame) : M unit :=
  (_ <- emit (Tab 1) (Subheader "Interactive Line Chart") ;;
   fig <- lift (px LineChart df_filtered "date" "close" None
                   (Some "Closing Price Over Time") []) ;;
   emit (Tab 1) (PlotlyChart fig))%ui.

(** Lines 76-80. *)
Definition bar_view (df_filtered : DataFrame) : M unit :=
  (_ <- emit (Tab 2) (Subheader "Interactive Bar Chart") ;;
   fig <- lift (px BarChart df_filtered "date" "close" None
                   (Some "Closing Price Bar Chart") []) ;;
   emit (Tab 2) (PlotlyChart fig))%ui.

(** The body of the loop of lines 88-99 for one company. *)
Definition add_other (date_range : Z * Z) (fig : figure) (other : string)
  : result figure :=
  (name <- dict_get files other ;;
   loaded <- load_prices to_datetime sort_rows fs name ;;
   match loaded with
   | Some other_df =>
       filtered <- filter_by_date other_df date_range ;;
       x <- get_series filtered "date" ;;
       y <- get_series filtered "close" ;;
       Ok (add_scatter fig x y "lines" other)
   | None => Ok fig
   end)%py.

Fixpoint add_others (date_range : Z * Z) (fig : figure) (others : list string)
  : result figure :=
  match others with
  | [] => Ok fig
  | other :: others' =>
      (fig' <- add_other date_range fig other ;;
       add_others date_range fig' others')%py
  end.

(** Lines 82-100; [others] is what the multiselect returns. *)
Definition compare_view (selected_company : string) (date_range : Z * Z)
  (others : list string) (df_filtered : DataFrame) : M unit :=
  (_ <- emit (Tab 3) (Subheader "Compare with Other Companies") ;;
   _ <- emit (Tab 3) (Multiselect "Select companies to compare"
                        (compare_options selected_company)) ;;
   fig <- lift (px LineChart df_filtered "date" "close" None None
                   [("close", selected_company)]) ;;
   fig <- lift (add_others date_range fig others) ;;
   emit (Tab 3) (PlotlyChart fig))%ui.

Definition expected_cols : list string :=
  ["real_close"; "predicted_close"; "date"].

(** Lines 130-132: the metric and its display. *)
Definition report_mae (forecast_df : DataFrame) : M unit :=
  (real <- lift (get_series forecast_df "real_close") ;;
   predicted <- lift (get_series forecast_df "predicted_close") ;;
   mae <- lift (Sklearn.mean_absolute_error real predicted) ;;
   emit (Tab 4)
     (Info (" **Mean Absolute Error (MAE):** "
            +++ PyNum.format_float false 4 mae)))%ui.

(** Lines 102-141. *)
Definition forecast_view (symbol : string) : M unit :=
  (_ <- emit (Tab 4) (Subheader "Forecasted vs Real Prices (RNN Model)") ;;
   let forecast_path := forecast_path symbol in
   if exists_ fs forecast_path then
     forecast_df <- lift (read_csv fs forecast_path) ;;
     let forecast_df := normalize_columns forecast_df in
     forecast_df <- lift (parse_dates to_datetime forecast_df "date") ;;
     if forallb (fun c => PyStr.mem c (columns forecast_df)) expected_cols
     then
       forecast_long <- lift (melt forecast_df "date"
                                ["real_close"; "predicted_close"]
                                "Type" "Price") ;;
       fig <- lift (px LineChart forecast_long "date" "Price" (Some "Type")
                       (Some "Real vs Predicted Closing Prices")
                       [("date", "Date"); ("Price", "Price");
                        ("Type", "Legend")]) ;;
       let fig := update_traces fig "lines" in
       _ <- emit (Tab 4) (PlotlyChart fig) ;;
       _ <- emit (Tab 4) (Markdown "**Forecast Table:**") ;;
       _ <- emit (Tab 4) (Dataframe forecast_df) ;;
       _ <- report_mae forecast_df ;;
       emit (Tab 4)
         (Caption "Forecast generated by an RNN model trained on past 7-day windows of closing prices.")
     else
       _ <- emit (Tab 4)
              (Error " Forecast file is missing required columns: 'real_close' or 'predicted_close'.") ;;
       emit (Tab 4) (Write "Available columns:" (columns forecast_df))
   else emit (Tab 4) (Warning " Forecast file not found for this company."))%ui.

(** Lines 144-151. *)
Definition about_view (selected_company : string) (df_filtered : DataFrame)
  : M unit :=
  let box := Expander " About this Dashboard" in
  (close <- lift (get_series df_filtered "close") ;;
   total_close <- lift (series_sum close) ;;
   let formatted_total := "$" +++ PyNum.format_number true 2 total_close in
   short <- lift (PyStr.item (PyStr.split "(" selected_company) 0) ;;
   _ <- emit box (Markdown ("###  About " +++ PyStr.strip short)) ;;
   text <- lift (dict_get descriptions selected_company) ;;
   _ <- emit box (Write text []) ;;
   emit box (Info ("**Total closing value in selected period:** "
                   +++ formatted_total)))%ui.

Definition discussion : string :=
  "
        This dashboard follows **Edward Tufte’s principles** of effective data visualization:

        - **Show the data** clearly through line and bar charts with minimal clutter.
        - **Avoid distortion** by maintaining proportional scale and true representations.
        - **Present many numbers in a small space** with interactive tabs and filters.
        - **Encourage data comparison** across companies using multi-select features.
        - **Reveal data at several levels of detail**, from overviews to forecasted trends.
        - **Integrate text and graphics** by providing context and company info directly with visuals.
    ".

(** Lines 58-64: the slider and the filtered frame. *)
Definition select_range (df : DataFrame) (picked : option (Z * Z))
  : M (Z * Z * DataFrame) :=
  (dates <- lift (get_series df "date") ;;
   let min_date := option_map Time.date (series_min dates) in
   let max_date := option_map Time.date (series_max dates) in
   date_range <- st_slider "Select a date range" min_date max_date picked ;;
   df_filtered <- lift (filter_by_date df date_range) ;;
   ret (date_range, df_filtered))%ui.

(** Lines 47-56: logo and title. *)
Definition header (selected_company symbol : string) : M unit :=
  (let logo_path := "logos/" +++ symbol +++ ".png" in
   _ <- st_image fs (HeaderCol 1) logo_path 150 ;;
   _ <- emit (HeaderCol 2)
          (Markdown ("<h1 style='margin-bottom: 0;'>Stock Price Dashboard – "
                     +++ selected_company +++ "</h1>")) ;;
   emit (HeaderCol 2)
     (Caption "Interactive Analysis with Forecast and Comparison"))%ui.

(** Lines 66-164: the four tabs, the description panel and the closing
    text, from the range chosen and the filtered frame. *)
Definition views (selected_company symbol : string) (others : list string)
  (date_range : Z * Z) (df_filtered : DataFrame) : M unit :=
  (_ <- emit Main (Tabs ["📈 Line Chart"; "📊 Bar Chart"; "🔀 Compare";
                        "📉 Forecast"]) ;;
   _ <- line_view df_filtered ;;
   _ <- bar_view df_filtered ;;
   _ <- compare_view selected_company date_range others df_filtered ;;
   _ <- forecast_view symbol ;;
   _ <- about_view selected_company df_filtered ;;
   _ <- emit Main
          (Markdown "### 📚 Discussion – Tufts Principles in this Dashboard") ;;
   emit Main (Markdown discussion))%ui.

(** Lines 30-64: the company chosen in the side bar, its file loaded, the
    header, the slider and the filtered frame.  The value is the ticker
    symbol, the range and the filtered frame, or [None] when the file has
    no "date" or no "close" column (the [else] of line 166). *)
Definition prelude (selected_company : string) (picked : option (Z * Z))
  : M (option (string * (Z * Z) * DataFrame)) :=
  (_ <- emit Sidebar (Selectbox "📈 Select a company" (keys files)) ;;
   file_name <- lift (dict_get files selected_company) ;;
   df <- lift (read_csv fs file_name) ;;
   let df := normalize_columns df in
   if has_price_columns df then
     df <- lift (parse_dates to_datetime df "date") ;;
     df <- lift (sort_values sort_rows df "date") ;;
     symbol <- lift (symbol_of file_name) ;;
     _ <- header selected_company symbol ;;
     sel <- select_range df picked ;;
     ret (Some (symbol, fst sel, snd sel))
   else ret None)%ui.

(** The whole script, for one interaction: the company chosen in the side
    bar, the range set on the slider ([None] while it is untouched) and the
    companies ticked in the comparison selector. *)
Definition run (selected_company : string) (picked : option (Z * Z))
  (others : list string) : M unit :=
  (loaded <- prelude selected_company picked ;;
   match loaded with
   | Some (symbol, date_range, df_filtered) =>
       views selected_company symbol others date_range df_filtered
   | None => emit Main (Error " Date not found.")
   end)%ui.

(** What a run shows in one container. *)
Definition in_container (c : container) (e : event) : bool :=
  match fst e, c with
  | Main, Main | Sidebar, Sidebar => true
  | HeaderCol n, HeaderCol m | Tab n, Tab m => (n =? m)%nat
  | Expander a, Expander b => String.eqb a b
  | _, _ => false
  end.

Definition shown_in (c : container) (evs : list event) : list element :=
  map snd (filter (in_container c) evs).

Definition is_chart (e : element) : bool :=
  match e with
  | PlotlyChart _ => true
  | _ => false
  end.

(** Every element of [evs] goes to the container [c]. *)
Definition all_in (c : container) (evs : list event) : Prop :=
  Forall (fun ev => fst ev = c) evs.

End Script.

End Dashboard.

(* ------------------------------------------------------------------ *)
(** ** Concrete tables and data folders, for running the model *)

Module Samples.

Import Pandas Dashboard.

Local Open Scope string_scope.

Definition num (n : Z) : cell := CNum (inject_Z n).

(** A price file with padded, capitalised labels and rows out of order. *)
Definition aapl_csv : DataFrame :=
  {| columns := ["Date"; " Close "];
     rows := [ [CStr "2024-01-03"; num 185];
               [CStr "2024-01-02"; num 187];
               [CStr "2024-01-05"; num 181];
               [CStr "2024-01-04"; num 182] ] |}.

Definition goog_csv : DataFrame :=
  {| columns := ["date"; "open"; "close"];
     rows := [ [CStr "2024-01-02"; num 139; num 138];
               [CStr "2024-01-04"; num 138; num 137];
               [CStr "2024-01-08"; num 137; num 140] ] |}.

(** A price file without a closing price. *)
Definition amzn_csv : DataFrame :=
  {| columns := ["Date"; "Open"];
     rows := [ [CStr "2024-01-02"; num 151] ] |}.

(** The same day twice. *)
Definition twice_csv : DataFrame :=
  {| columns := ["date"; "close"];
     rows := [ [CStr "2024-01-03"; num 185];
               [CStr "2024-01-02"; num 187];
               [CStr "2024-01-03"; num 186] ] |}.

(** Quotes stamped with the time of day. *)
Definition intraday_csv : DataFrame :=
  {| columns := ["date"; "close"];
     rows := [ [CStr "2024-01-02 09:30:00"; num 187];
               [CStr "2024-01-03 16:00:00"; num 185] ] |}.

(** A line without a date. *)
Definition gap_csv : DataFrame :=
  {| columns := ["date"; "close"];
     rows := [ [CStr "2024-01-02"; num 187];
               [CNaN; num 186];
               [CStr "2024-01-03"; num 185] ] |}.

Definition forecast_csv : DataFrame :=
  {| columns := ["Date"; "Real_Close"; "Predicted_Close"];
     rows := [ [CStr "2024-01-02"; num 10; num 12];
               [CStr "2024-01-03"; num 20; num 18];
               [CStr "2024-01-04"; num 30; num 33] ] |}.

(** Forecast files that miss a column. *)
Definition forecast_no_predicted : DataFrame :=
  {| columns := ["date"; "real_close"];
     rows := [ [CStr "2024-01-02"; num 10];
               [CStr "2024-01-03"; num 20] ] |}.

Definition forecast_no_date : DataFrame :=
  {| columns := ["real_close"; "predicted_close"];
     rows := [ [num 10; num 12];
               [num 20; num 18] ] |}.

(** A data folder: Apple with its logo and forecast, Google, and an Amazon
    file without closing prices. *)
Definition folder_with (aapl forecast : DataFrame) (path : string) : file :=
  if String.eqb path "df_AAPL.csv" then Csv aapl
  else if String.eqb path "df_GOOG.csv" then Csv goog_csv
  else if String.eqb path "df_AMZN.csv" then Csv amzn_csv
  else if String.eqb path "forecast_AAPL.csv" then Csv forecast
  else if String.eqb path "logos/AAPL.png" then Blob
  else if String.eqb path "logos/GOOG.png" then Blob
  else Absent.

Definition folder : string -> file := folder_with aapl_csv forecast_csv.

Definition run_sample (fs : string -> file) (selected_company : string)
  (picked : option (Z * Z)) (others : list string) : M unit :=
  run iso_to_datetime insertion_sort fs selected_company picked others.

Definition load_sample (fs : string -> file) (path : string)
  : result (option DataFrame) :=
  load_prices iso_to_datetime insertion_sort fs path.

(** The day number of a civil date, and its midnight. *)
Definition day (y m d : Z) : Z := Time.days_from_civil y m d.

Definition midnight (y m d : Z) : cell :=
  CTime (Some (Time.of_date (day y m d))).

Definition instant (y m d hh mi ss : Z) : cell :=
  CTime (Time.civil y m d hh mi ss).

(** [intraday_csv] and [gap_csv] as the loader leaves them. *)
Definition intraday_loaded : DataFrame :=
  {| columns := ["date"; "close"];
     rows := [ [instant 2024 1 2 9 30 0; num 187];
               [instant 2024 1 3 16 0 0; num 185] ] |}.

Definition gap_loaded : DataFrame :=
  {| columns := ["date"; "close"];
     rows := [ [midnight 2024 1 2; num 187];
               [midnight 2024 1 3; num 185];
               [CTime None; num 186] ] |}.

(** [twice_csv] as the loader leaves it. *)
Definition twice_loaded : DataFrame :=
  {| columns := ["date"; "close"];
     rows := [ [midnight 2024 1 2; num 187];
               [midnight 2024 1 3; num 185];
               [midnight 2024 1 3; num 186] ] |}.

(** The comparison chart of Apple over its whole range, nothing ticked. *)
Definition aapl_compare_fig : Plotly.figure :=
  {| Plotly.fig_kind := Plotly.LineChart;
     Plotly.fig_frame :=
       {| columns := ["date"; "close"];
          rows := [ [midnight 2024 1 2; num 187];
                    [midnight 2024 1 3; num 185];
                    [midnight 2024 1 4; num 182];
                    [midnight 2024 1 5; num 181] ] |};
     Plotly.fig_x := "date";
     Plotly.fig_y := "close";
     Plotly.fig_color := None;
     Plotly.fig_title := None;
     Plotly.fig_labels := [("close", "Apple (AAPL)")];
     Plotly.fig_mode := None;
     Plotly.fig_scatters := [] |}.

(** The comparison chart of Apple over its whole range with Google and
    Amazon ticked: Google's quotes of 2 and 4 January, nothing for Amazon. *)
Definition aapl_goog_fig : Plotly.figure :=
  {| Plotly.fig_kind := Plotly.LineChart;
     Plotly.fig_frame :=
       {| columns := ["date"; "close"];
          rows := [ [midnight 2024 1 2; num 187];
                    [midnight 2024 1 3; num 185];
                    [midnight 2024 1 4; num 182];
                    [midnight 2024 1 5; num 181] ] |};
     Plotly.fig_x := "date";
     Plotly.fig_y := "close";
     Plotly.fig_color := None;
     Plotly.fig_title := None;
     Plotly.fig_labels := [("close", "Apple (AAPL)")];
     Plotly.fig_mode := None;
     Plotly.fig_scatters :=
       [ Plotly.mkScatter [midnight 2024 1 2; midnight 2024 1 4]
           [num 138; num 137] "lines" "Google (GOOG)" ] |}.

(** A forecast file with a prediction missing. *)
Definition forecast_gap_csv : DataFrame :=
  {| columns := ["date"; "real_close"; "predicted_close"];
     rows := [ [CStr "2024-01-02"; num 10; num 12];
               [CStr "2024-01-03"; num 20; CNaN] ] |}.

(** A forecast frame with its dates parsed. *)
Definition forecast_parsed : DataFrame :=
  {| columns := ["date"; "real_close"; "predicted_close"];
     rows := [ [midnight 2024 1 2; num 10; num 12];
               [midnight 2024 1 3; num 20; num 18] ] |}.

(** [aapl_csv] as the loader leaves it. *)
Definition aapl_loaded : DataFrame :=
  {| columns := ["date"; "close"];
     rows := [ [midnight 2024 1 2; num 187];
               [midnight 2024 1 3; num 185];
               [midnight 2024 1 4; num 182];
               [midnight 2024 1 5; num 181] ] |}.


End Samples.

(* ------------------------------------------------------------------ *)
(** ** The words of the specification *)

Module Spec.

Import Pandas.

(** [l1] is [l2] with some elements left out, the others in their order. *)
Inductive subseq {A : Type} : list A -> list A -> Prop :=
| subseq_nil : subseq [] []
| subseq_skip : forall x l1 l2, subseq l1 l2 -> subseq l1 (x :: l2)
| subseq_keep : forall x l1 l2, subseq l1 l2 -> subseq (x :: l1) (x :: l2).

(** The date of a row (column [i]) falls within [lo, hi], both days
    included: the calendar day of its instant is from [lo] to [hi]. *)
Definition on_days (i : nat) (lo hi : Z) (r : row) : bool :=
  match date_at i r with
  | Some t => (lo <=? Time.date t)%Z && (Time.date t <=? hi)%Z
  | None => false
  end.

(** The dates of a frame, column [i]. *)
Definition dates (i : nat) (df : DataFrame) : list Time.timestamp :=
  map (date_at i) (rows df).

(** The sum of [f 0], ..., [f (n - 1)]. *)
Fixpoint sum_upto (n : nat) (f : nat -> Q) : Q :=
  match n with
  | O => 0
  | S k => sum_upto k f + f k
  end.

(** Mean absolute error, as the specification writes it:
    (1/n) * the sum over [i] of |real_i - predicted_i|. *)
Definition mae (real predicted : list Q) : Q :=
  let n := List.length real in
  (1 / inject_Z (Z.of_nat n))
  * sum_upto n (fun i => Qabs (nth i real 0 - nth i predicted 0)).

(** The traces the comparison view overlays for the companies ticked, in
    their order: a company whose file loads is filtered over the range [r]
    and drawn as a line trace under its name; a company whose file has no
    "date" or no "close" column is left out. *)
Inductive overlays (load : string -> result (option DataFrame))
  (r : Z * Z) : list string -> list Plotly.scatter -> Prop :=
| overlays_nil : overlays load r [] []
| overlays_trace :
    forall other others name df filtered x y traces,
      Dashboard.dict_get Dashboard.files other = Ok name ->
      load name = Ok (Some df) ->
      filter_by_date df r = Ok filtered ->
      get_series filtered "date" = Ok x ->
      get_series filtered "close" = Ok y ->
      overlays load r others traces ->
      overlays load r (other :: others)
        (Plotly.mkScatter x y "lines" other :: traces)
| overlays_skip :
    forall other others name traces,
      Dashboard.dict_get Dashboard.files other = Ok name ->
      load name = Ok None ->
      overlays load r others traces ->
      overlays load r (other :: others) traces.

(** Two figures plot the same thing: the same kind of chart of the same
    two columns of the same frame, with the same added traces; title and
    axis labels are left out of the comparison. *)
Definition same_plot (f g : Plotly.figure) : Prop :=
  Plotly.fig_kind f = Plotly.fig_kind g /\
  Plotly.fig_frame f = Plotly.fig_frame g /\
  Plotly.fig_x f = Plotly.fig_x g /\
  Plotly.fig_y f = Plotly.fig_y g /\
  Plotly.fig_color f = Plotly.fig_color g /\
  Plotly.fig_mode f = Plotly.fig_mode g /\
  Plotly.fig_scatters f = Plotly.fig_scatters g.

(** Two computations end alike: both with a value, or both with the same
    exception. *)
Definition agree {A B : Type} (a : result A) (b : result B) : Prop :=
  match a, b with
  | Ok _, Ok _ => True
  | Raise e, Raise e' => e = e'
  | _, _ => False
  end.

Definition is_digit (c : ascii) : bool :=
  ((48 <=? nat_of_ascii c) && (nat_of_ascii c <=? 57))%nat.

End Spec.

(* ------------------------------------------------------------------ *)
(** ** Further notions used to state what the script does *)

Module Props.

Import Pandas.

(** The instant of a row (column [i]) is from midnight of the day [lo] to
    midnight of the day [hi]: what the two comparisons of the filter
    test. *)
Definition between_midnights (i : nat) (lo hi : Z) (r : row) : bool :=
  match date_at i r with
  | Some d => (Time.of_date lo <=? d)%Z && (d <=? Time.of_date hi)%Z
  | None => false
  end.

(** A text that does not begin with a white-space character. *)
Definition clean_head (l : list ascii) : Prop :=
  match l with
  | [] => True
  | c :: _ => PyStr.is_space c = false
  end.

(** A text with no white space at either end. *)
Definition trimmed (l : list ascii) : Prop :=
  clean_head l /\ clean_head (rev l).

Definition is_upper (c : ascii) : bool :=
  ((65 <=? nat_of_ascii c) && (nat_of_ascii c <=? 90))%nat.

(** [sep.join(pieces)] *)
Fixpoint join_list (sep : ascii) (pieces : list (list ascii)) : list ascii :=
  match pieces with
  | [] => []
  | [p] => p
  | p :: ps => p ++ sep :: join_list sep ps
  end.

(** The part of a text before the first [sep] (all of it when there is
    none). *)
Fixpoint take_until (sep : ascii) (s : list ascii) : list ascii :=
  match s with
  | [] => []
  | c :: s' => if Ascii.eqb c sep then [] else c :: take_until sep s'
  end.

(** The intersection of two ranges of days. *)
Definition meet (r1 r2 : Z * Z) : Z * Z :=
  (Z.max (fst r1) (fst r2), Z.min (snd r1) (snd r2)).

(** A cell holds an instant within the range of days [r], bounds read as
    midnights. *)
Definition cell_within (r : Z * Z) (c : cell) : Prop :=
  exists t, c = CTime (Some t) /\
            (Time.of_date (fst r) <= t <= Time.of_date (snd r))%Z.

(** The number a list of decimal digits writes. *)
Definition digits_value (ds : list ascii) : Z :=
  fold_left (fun acc c => 10 * acc + (Z.of_nat (nat_of_ascii c) - 48))%Z ds 0%Z.

Definition not_comma (c : ascii) : bool := negb (Ascii.eqb c ","%char).

(** The number a decimal numeral writes after the digits read so far. *)
Fixpoint uint_value (acc : Z) (d : Decimal.uint) : Z :=
  match d with
  | Decimal.Nil => acc
  | Decimal.D0 l => uint_value (10 * acc + 0) l
  | Decimal.D1 l => uint_value (10 * acc + 1) l
  | Decimal.D2 l => uint_value (10 * acc + 2) l
  | Decimal.D3 l => uint_value (10 * acc + 3) l
  | Decimal.D4 l => uint_value (10 * acc + 4) l
  | Decimal.D5 l => uint_value (10 * acc + 5) l
  | Decimal.D6 l => uint_value (10 * acc + 6) l
  | Decimal.D7 l => uint_value (10 * acc + 7) l
  | Decimal.D8 l => uint_value (10 * acc + 8) l
  | Decimal.D9 l => uint_value (10 * acc + 9) l
  end%Z.

(** The decimals of a text: what follows its first point. *)
Fixpoint after_point (s : list ascii) : list ascii :=
  match s with
  | [] => []
  | c :: s' => if Ascii.eqb c "."%char then s' else after_point s'
  end.

(** The number a text in fixed notation denotes: its digits read as one
    integer, divided by ten to the number of its decimals, negated after a
    minus sign. *)
Definition read_digits (txt : list ascii) : Q :=
  let v := inject_Z (digits_value (filter Spec.is_digit txt))
           / inject_Z (10 ^ Z.of_nat (List.length (after_point txt))) in
  match txt with
  | "-"%char :: _ => - v
  | _ => v
  end.

(** The same for a text with thousands separators, which are skipped. *)
Definition read_fixed (s : string) : Q :=
  read_digits (filter not_comma (list_ascii_of_string s)).

(** The number a numeric cell stands for. *)
Definition number_of (c : cell) : Q :=
  match c with
  | CNum q => q
  | CInt z => inject_Z z
  | _ => 0
  end.



(** The value of a finite float64. *)
Definition val (x : Float64.t) : Q :=
  match x with
  | Float64.Finite q => q
  | _ => 0
  end.

(** The exact sum of a list of floats, and the sum of their magnitudes. *)
Definition total (l : list Float64.t) : Q :=
  fold_right (fun x acc => val x + acc) 0 l.





End Props.

(* ================================================================== *)
(** * Facts *)

Unset Implicit Arguments.

Import Pandas.

(** ** Column access *)

Lemma column_index_columns :
  forall df df' label,
    columns df = columns df' ->
    column_index df label = column_index df' label.
Proof.
  intros df df' label H. unfold column_index. now rewrite H.
Qed.

Lemma column_index_Ok :
  forall df label i,
    column_index df label = Ok i ->
    PyStr.count label (columns df) = 1%nat /\
    PyStr.index label (columns df) = Some i.
Proof.
  intros df label i. unfold column_index.
  destruct (PyStr.count label (columns df)) as [|[|n]];
    destruct (PyStr.index label (columns df)); try discriminate.
  intros H. injection H as ->. now split.
Qed.

Lemma count_pos_index :
  forall label cols,
    (0 < PyStr.count label cols)%nat ->
    exists i, PyStr.index label cols = Some i.
Proof.
  intros label cols. induction cols as [|c cols IH]; simpl.
  - lia.
  - destruct (String.eqb label c).
    + intros _. now exists 0%nat.
    + intros H. destruct (IH H) as [i ->]. now exists (S i).
Qed.

Lemma mem_In :
  forall x xs, PyStr.mem x xs = true <-> In x xs.
Proof.
  intros x xs. unfold PyStr.mem. rewrite existsb_exists. split.
  - intros [y [Hy Heq]]. apply String.eqb_eq in Heq. now subst.
  - intros H. exists x. split; [assumption | apply String.eqb_refl].
Qed.

Lemma mem_count :
  forall x xs, PyStr.mem x xs = false <-> PyStr.count x xs = 0%nat.
Proof.
  intros x xs. induction xs as [|y ys IH]; simpl.
  - tauto.
  - destruct (String.eqb x y); simpl.
    + split; [discriminate | lia].
    + exact IH.
Qed.

(** ** Writing a column *)

Lemma cell_at_set_cell :
  forall i v r, cell_at i (set_cell i v r) = v.
Proof.
  unfold cell_at. induction i as [|i IH]; intros v [|c r]; simpl; auto.
Qed.

Lemma assign_time :
  forall i ts rs,
    Forall (fun r => is_time (cell_at i r) = true) (assign i ts rs).
Proof.
  intros i ts rs. revert ts.
  induction rs as [|r rs IH]; intros ts; simpl; constructor.
  - now rewrite cell_at_set_cell.
  - apply IH.
Qed.

Lemma assign_dates :
  forall i ts rs,
    List.length ts = List.length rs ->
    map (date_at i) (assign i ts rs) = ts.
Proof.
  intros i ts rs. revert ts.
  induction rs as [|r rs IH]; intros [|t ts] H; simpl in *;
    try discriminate; try reflexivity.
  unfold date_at at 1. rewrite cell_at_set_cell. simpl.
  f_equal. apply IH. lia.
Qed.

(** ** Masks and boolean indexing *)

Lemma mask_and_map :
  forall (A : Type) (p q : A -> bool) (l : list A),
    mask_and (map p l) (map q l) = map (fun x => p x && q x) l.
Proof.
  intros A p q l. induction l as [|x l IH]; simpl; [reflexivity|].
  now rewrite IH.
Qed.

Lemma boolean_index_map :
  forall (p : row -> bool) (rs : list row),
    boolean_index rs (map p rs) = filter p rs.
Proof.
  intros p rs. induction rs as [|r rs IH]; simpl; [reflexivity|].
  rewrite IH. reflexivity.
Qed.

Lemma filter_subseq :
  forall (A : Type) (p : A -> bool) (l : list A),
    Spec.subseq (filter p l) l.
Proof.
  intros A p l. induction l as [|x l IH]; simpl.
  - constructor.
  - destruct (p x); now constructor.
Qed.

Lemma forallb_time_col :
  forall i rs,
    Forall (fun r => is_time (cell_at i r) = true) rs ->
    forallb is_time (map (cell_at i) rs) = true.
Proof.
  intros i rs H. induction H as [|r rs Hr _ IH]; simpl; [reflexivity|].
  now rewrite Hr, IH.
Qed.

Lemma in_range_spec :
  forall i lo hi r,
    Props.between_midnights i lo hi r = true <->
    exists d, date_at i r = Some d /\
              (Time.of_date lo <= d <= Time.of_date hi)%Z.
Proof.
  intros i lo hi r. unfold Props.between_midnights.
  destruct (date_at i r) as [d|].
  - rewrite andb_true_iff, !Z.leb_le. split.
    + intros H. now exists d.
    + intros [d' [Hd H]]. injection Hd as <-. exact H.
  - split; [discriminate | intros [d [Hd _]]; discriminate].
Qed.

(** The range filter on a frame whose date column is of datetime type. *)
Lemma filter_by_date_rows :
  forall df i lo hi,
    column_index df "date" = Ok i ->
    Forall (fun r => is_time (cell_at i r) = true) (rows df) ->
    filter_by_date df (lo, hi) =
    Ok {| columns := columns df;
          rows := filter (Props.between_midnights i lo hi) (rows df) |}.
Proof.
  intros df i lo hi Hi Ht.
  unfold filter_by_date, get_series. rewrite Hi. simpl.
  unfold series_ge, series_le, cmp_series.
  rewrite (forallb_time_col i _ Ht). simpl.
  rewrite !map_map, mask_and_map, boolean_index_map.
  do 2 f_equal. apply filter_ext. intros r.
  unfold Props.between_midnights, date_at.
  destruct (time_of (cell_at i r)) as [d|]; [|reflexivity].
  now rewrite Z.geb_leb.
Qed.

(** ** The insertion sort meets the contract of [sort_values] *)

Lemma ts_leb_le : forall a b, ts_leb a b = true <-> ts_le a b.
Proof.
  intros [x|] [y|]; simpl; try tauto.
  - apply Z.leb_le.
  - split; [discriminate | tauto].
Qed.

Lemma ts_le_trans : forall a b c, ts_le a b -> ts_le b c -> ts_le a c.
Proof.
  intros [x|] [y|] [z|]; simpl; try tauto; lia.
Qed.

Lemma ts_le_total : forall a b, ts_le a b \/ ts_le b a.
Proof.
  intros [x|] [y|]; simpl; try tauto; lia.
Qed.

Lemma insert_by_perm :
  forall key r rs, Permutation (insert_by key r rs) (r :: rs).
Proof.
  intros key r rs. induction rs as [|r' rs IH]; simpl.
  - apply Permutation_refl.
  - destruct (ts_leb (key r) (key r')).
    + apply Permutation_refl.
    + eapply perm_trans; [apply perm_skip, IH | apply perm_swap].
Qed.

Lemma insertion_sort_perm :
  forall key rs, Permutation (insertion_sort key rs) rs.
Proof.
  intros key rs. induction rs as [|r rs IH]; simpl.
  - apply Permutation_refl.
  - eapply perm_trans; [apply insert_by_perm | now apply perm_skip].
Qed.

Lemma insert_by_sorted :
  forall key r rs,
    StronglySorted ts_le (map key rs) ->
    StronglySorted ts_le (map key (insert_by key r rs)).
Proof.
  intros key r rs. induction rs as [|r' rs IH]; simpl; intros H.
  - repeat constructor.
  - inversion H as [|? ? Hs Hall]; subst.
    destruct (ts_leb (key r) (key r')) eqn:E; simpl.
    + apply ts_leb_le in E. constructor; [assumption|].
      constructor; [assumption|].
      eapply Forall_impl; [|exact Hall].
      intros a Ha. eapply ts_le_trans; eassumption.
    + assert (Hlt : ts_le (key r') (key r)).
      { destruct (ts_le_total (key r) (key r')) as [Hc|Hc]; [|assumption].
        apply ts_leb_le in Hc. congruence. }
      constructor; [now apply IH|].
      apply Forall_forall. intros a Ha.
      apply in_map_iff in Ha. destruct Ha as [x [<- Hx]].
      apply (Permutation_in _ (insert_by_perm key r rs)) in Hx.
      destruct Hx as [<-|Hx]; [assumption|].
      rewrite Forall_forall in Hall. apply Hall. now apply in_map.
Qed.

Lemma insertion_sort_sorted :
  forall key rs, StronglySorted ts_le (map key (insertion_sort key rs)).
Proof.
  intros key rs. induction rs as [|r rs IH]; simpl.
  - constructor.
  - now apply insert_by_sorted.
Qed.

(** ** The loader *)

Section Loader.

Variable to_datetime : list cell -> result (list Time.timestamp).
Variable sort_rows : (row -> Time.timestamp) -> list row -> list row.

(** What [sort_values] is known to do: permute the rows, and leave the
    keys in order. *)
Hypothesis sort_rows_perm :
  forall key rs, Permutation (sort_rows key rs) rs.
Hypothesis sort_rows_sorted :
  forall key rs, StronglySorted ts_le (map key (sort_rows key rs)).

Lemma load_prices_Some :
  forall fs path df,
    load_prices to_datetime sort_rows fs path = Ok (Some df) <->
    exists tbl i ts,
      fs path = Csv tbl /\
      has_price_columns (normalize_columns tbl) = true /\
      column_index (normalize_columns tbl) "date" = Ok i /\
      to_datetime (map (cell_at i) (rows tbl)) = Ok ts /\
      df = {| columns := map normalize_label (columns tbl);
              rows := sort_rows (date_at i) (assign i ts (rows tbl)) |}.
Proof.
  intros fs path df. unfold load_prices, read_csv. split.
  - destruct (fs path) as [| |tbl]; simpl; try discriminate.
    destruct (has_price_columns (normalize_columns tbl)) eqn:Hc;
      [|discriminate].
    unfold parse_dates, get_series.
    destruct (column_index (normalize_columns tbl) "date") as [i|e] eqn:Hi;
      simpl; [|discriminate].
    destruct (to_datetime (map (cell_at i) (rows tbl))) as [ts|e] eqn:Ht;
      simpl; [|discriminate].
    unfold sort_values.
    rewrite (column_index_columns _ (normalize_columns tbl) "date")
      by reflexivity.
    rewrite Hi. simpl. intros H. injection H as <-.
    exists tbl, i, ts. repeat split; assumption.
  - intros [tbl [i [ts [Hf [Hc [Hi [Ht ->]]]]]]].
    rewrite Hf. simpl. rewrite Hc.
    unfold parse_dates, get_series. rewrite Hi. simpl. rewrite Ht. simpl.
    unfold sort_values.
    rewrite (column_index_columns _ (normalize_columns tbl) "date")
      by reflexivity.
    rewrite Hi. reflexivity.
Qed.

Lemma load_prices_None :
  forall fs path,
    load_prices to_datetime sort_rows fs path = Ok None <->
    exists tbl,
      fs path = Csv tbl /\
      has_price_columns (normalize_columns tbl) = false.
Proof.
  intros fs path. unfold load_prices, read_csv. split.
  - destruct (fs path) as [| |tbl]; simpl; try discriminate.
    destruct (has_price_columns (normalize_columns tbl)) eqn:Hc.
    + destruct (parse_dates to_datetime (normalize_columns tbl) "date");
        simpl; [|discriminate].
      destruct (sort_values sort_rows a "date"); simpl; discriminate.
    + intros _. now exists tbl.
  - intros [tbl [Hf Hc]]. rewrite Hf. simpl. now rewrite Hc.
Qed.

(** A loaded series has one date column, of datetime type. *)
Lemma loaded_date_column :
  forall fs path df,
    load_prices to_datetime sort_rows fs path = Ok (Some df) ->
    exists i,
      column_index df "date" = Ok i /\
      Forall (fun r => is_time (cell_at i r) = true) (rows df).
Proof.
  intros fs path df H. apply load_prices_Some in H.
  destruct H as [tbl [i [ts [_ [_ [Hi [_ ->]]]]]]].
  exists i. split.
  - rewrite <- Hi. now apply column_index_columns.
  - simpl. eapply Permutation_Forall.
    + apply Permutation_sym, sort_rows_perm.
    + apply assign_time.
Qed.

End Loader.

(** ** The range filter *)

Lemma extends_refl : forall h, Objects.extends h h.
Proof. intros h k o H. exact H. Qed.

Lemma extends_trans :
  forall h1 h2 h3, Objects.extends h1 h2 -> Objects.extends h2 h3 -> Objects.extends h1 h3.
Proof. intros h1 h2 h3 H12 H23 k o H. apply H23, H12, H. Qed.

Lemma extends_alloc : forall h o, Objects.extends h (h ++ [o]).
Proof.
  intros h o k x H. rewrite nth_error_app1; [assumption|].
  apply nth_error_Some. congruence.
Qed.

Lemma heap_alloc_new :
  forall (h : Objects.heap) o, nth_error (h ++ [o]) (List.length h) = Some o.
Proof.
  intros h o. rewrite nth_error_app2 by lia.
  now rewrite Nat.sub_diag.
Qed.

(** The operations that build an object leave the others alone. *)
Lemma getitem_Ok :
  forall h df d label s,
    nth_error h df = Some (Objects.OFrame d) ->
    get_series d label = Ok s ->
    Objects.getitem h df label
    = Ok (h ++ [Objects.OSeries s], List.length h).
Proof.
  intros h df d label s Hd Hs. unfold Objects.getitem, Objects.frame_at.
  rewrite Hd. cbn [bind]. rewrite Hs. reflexivity.
Qed.

Lemma compare_Ok :
  forall cmp h r s ts m,
    nth_error h r = Some (Objects.OSeries s) ->
    cmp_series cmp s ts = Ok m ->
    Objects.compare cmp h r ts
    = Ok (h ++ [Objects.OMask m], List.length h).
Proof.
  intros cmp h r s ts m Hr Hm. unfold Objects.compare, Objects.series_at.
  rewrite Hr. cbn [bind]. rewrite Hm. reflexivity.
Qed.

Lemma and_Ok :
  forall h a b x y,
    nth_error h a = Some (Objects.OMask x) ->
    nth_error h b = Some (Objects.OMask y) ->
    Objects.and_ h a b
    = Ok (h ++ [Objects.OMask (mask_and x y)], List.length h).
Proof.
  intros h a b x y Ha Hb. unfold Objects.and_, Objects.mask_at.
  rewrite Ha, Hb. reflexivity.
Qed.

Lemma getitem_mask_Ok :
  forall h df mask d m,
    nth_error h df = Some (Objects.OFrame d) ->
    nth_error h mask = Some (Objects.OMask m) ->
    Objects.getitem_mask h df mask
    = Ok (h ++ [Objects.OFrame {| columns := columns d;
                                  rows := boolean_index (rows d) m |}],
          List.length h).
Proof.
  intros h df mask d m Hd Hm.
  unfold Objects.getitem_mask, Objects.frame_at, Objects.mask_at.
  rewrite Hd, Hm. reflexivity.
Qed.

(** Lines 63-64 on the heap: six objects are built, the last one the
    filtered frame, and no object that was there is written. *)
Lemma exec_filter_Ok :
  forall h ref df r filtered,
    nth_error h ref = Some (Objects.OFrame df) ->
    filter_by_date df r = Ok filtered ->
    exists h',
      Objects.exec_filter h ref r = Ok (h', (List.length h + 5)%nat) /\
      List.length h' = (List.length h + 6)%nat /\
      nth_error h' (List.length h + 5) = Some (Objects.OFrame filtered) /\
      Objects.extends h h'.
Proof.
  intros h ref df r filtered Hh. unfold filter_by_date, series_ge, series_le.
  destruct (get_series df "date") as [s|e] eqn:Hs; [|discriminate].
  cbn [bind].
  destruct (cmp_series Z.geb s (Time.of_date (fst r))) as [ge|e] eqn:Hge;
    [|discriminate].
  cbn [bind].
  destruct (cmp_series Z.leb s (Time.of_date (snd r))) as [le|e] eqn:Hle;
    [|discriminate].
  cbn [bind]. intros H. injection H as <-.
  unfold Objects.exec_filter.
  rewrite (getitem_Ok h ref df "date" s Hh Hs). cbn [bind fst snd].
  set (h1 := h ++ [Objects.OSeries s]).
  assert (E1 : Objects.extends h h1) by apply extends_alloc.
  rewrite (compare_Ok Z.geb h1 (List.length h) s _ ge
             (heap_alloc_new h _) Hge).
  cbn [bind fst snd].
  set (h2 := h1 ++ [Objects.OMask ge]).
  assert (E2 : Objects.extends h1 h2) by apply extends_alloc.
  rewrite (getitem_Ok h2 ref df "date" s (E2 _ _ (E1 _ _ Hh)) Hs).
  cbn [bind fst snd].
  set (h3 := h2 ++ [Objects.OSeries s]).
  assert (E3 : Objects.extends h2 h3) by apply extends_alloc.
  rewrite (compare_Ok Z.leb h3 (List.length h2) s _ le
             (heap_alloc_new h2 _) Hle).
  cbn [bind fst snd].
  set (h4 := h3 ++ [Objects.OMask le]).
  assert (E4 : Objects.extends h3 h4) by apply extends_alloc.
  rewrite (and_Ok h4 (List.length h1) (List.length h3) ge le
             (E4 _ _ (E3 _ _ (heap_alloc_new h1 _)))
             (heap_alloc_new h3 _)).
  cbn [bind fst snd].
  set (h5 := h4 ++ [Objects.OMask (mask_and ge le)]).
  assert (E5 : Objects.extends h4 h5) by apply extends_alloc.
  rewrite (getitem_mask_Ok h5 ref (List.length h4) df (mask_and ge le)
             (E5 _ _ (E4 _ _ (E3 _ _ (E2 _ _ (E1 _ _ Hh)))))
             (heap_alloc_new h4 _)).
  assert (L5 : List.length h5 = (List.length h + 5)%nat).
  { unfold h5, h4, h3, h2, h1. rewrite !length_app. simpl. lia. }
  eexists. split; [rewrite L5; reflexivity|].
  split; [rewrite length_app, L5; simpl; lia|].
  split; [rewrite <- L5; apply heap_alloc_new|].
  intros k o Hk.
  apply extends_alloc, E5, E4, E3, E2, E1, Hk.
Qed.

(** Normalising the labels (line 38), in contrast, writes into the frame
    that was read from the file. *)
Example set_columns_writes :
  Objects.set_columns [Objects.OFrame Samples.aapl_csv] 0
  = Ok [Objects.OFrame (normalize_columns Samples.aapl_csv)] /\
  normalize_columns Samples.aapl_csv <> Samples.aapl_csv.
Proof.
  split; [reflexivity | discriminate].
Qed.

Lemma midnight_before : forall t, (Time.of_date (Time.date t) <= t)%Z.
Proof.
  intros t. unfold Time.of_date, Time.date.
  rewrite Z.mul_comm. apply Z.mul_div_le. reflexivity.
Qed.

Lemma midnight_exact :
  forall t, (t mod Time.ns_per_day = 0)%Z -> Time.of_date (Time.date t) = t.
Proof.
  intros t H. unfold Time.of_date, Time.date.
  pose proof (Z.div_mod t Time.ns_per_day) as E.
  rewrite H in E. rewrite Z.mul_comm. symmetry.
  rewrite Z.add_0_r in E. apply E. discriminate.
Qed.

(** A day bound against an instant: the lower one admits the whole day, the
    upper one its midnight only. *)
Lemma midnight_le_iff :
  forall lo t, (Time.of_date lo <= t <-> lo <= Time.date t)%Z.
Proof.
  intros lo t. unfold Time.of_date, Time.date, Time.ns_per_day.
  pose proof (Z.div_mod t 86400000000000 ltac:(discriminate)).
  pose proof (Z.mod_pos_bound t 86400000000000 eq_refl). lia.
Qed.

Lemma le_midnight_iff :
  forall hi t,
    (t <= Time.of_date hi <->
     Time.date t <= hi /\ (Time.date t = hi -> t = Time.of_date hi))%Z.
Proof.
  intros hi t. unfold Time.of_date, Time.date, Time.ns_per_day.
  pose proof (Z.div_mod t 86400000000000 ltac:(discriminate)).
  pose proof (Z.mod_pos_bound t 86400000000000 eq_refl). lia.
Qed.

Lemma between_midnights_on_days :
  forall i lo hi r,
    Props.between_midnights i lo hi r = true <->
    Spec.on_days i lo hi r = true /\
    (forall t, date_at i r = Some t ->
               Time.date t = hi -> t = Time.of_date hi).
Proof.
  intros i lo hi r. unfold Props.between_midnights, Spec.on_days.
  destruct (date_at i r) as [t|]; [|split; [discriminate | intros [H _]; discriminate]].
  rewrite !andb_true_iff, !Z.leb_le, midnight_le_iff, le_midnight_iff.
  split.
  - intros [H1 [H2 H3]]. split; [tauto|].
    intros t' Ht'. injection Ht' as <-. exact H3.
  - intros [[H1 H2] H3]. split; [exact H1|]. split; [exact H2|].
    now apply H3.
Qed.

(** C1, as amended.  For every series the loader produced and every pair
    of days [lo], [hi] (whether or not [lo <= hi]), the range filter
    succeeds and returns a frame with the same columns whose rows are
    exactly the rows of the series whose instant [d] is from midnight of
    [lo] to midnight of [hi], each as often as it occurs and in the order
    of the series.  In days: the rows kept are the rows whose date is from
    [lo] to [hi], less those of the day [hi] stamped after midnight; when
    every instant of the series is a midnight they are exactly the rows
    whose date is from [lo] to [hi], both included.  A row without a date
    is never kept.  On the heap, the statement of lines 63-64 builds new
    objects, the last of them the filtered frame, and leaves every object
    that was there, the series included, as it was. *)
Theorem range_filter_exact :
  forall (to_datetime : list cell -> result (list Time.timestamp))
         (sort_rows : (row -> Time.timestamp) -> list row -> list row)
         (fs : string -> file) (path : string) (df : DataFrame) (lo hi : Z),
    (forall key rs, Permutation (sort_rows key rs) rs) ->
    load_prices to_datetime sort_rows fs path = Ok (Some df) ->
    exists i filtered,
      column_index df "date" = Ok i /\
      filter_by_date df (lo, hi) = Ok filtered /\
      columns filtered = columns df /\
      rows filtered = filter (Props.between_midnights i lo hi) (rows df) /\
      Spec.subseq (rows filtered) (rows df) /\
      (forall r,
          In r (rows filtered) <->
          In r (rows df) /\
          exists d, date_at i r = Some d /\
                    (Time.of_date lo <= d <= Time.of_date hi)%Z) /\
      (forall r,
          In r (rows filtered) <->
          In r (rows df) /\
          Spec.on_days i lo hi r = true /\
          (forall t, date_at i r = Some t ->
                     Time.date t = hi -> t = Time.of_date hi)) /\
      (Forall (fun r => forall t, date_at i r = Some t ->
                                  (t mod Time.ns_per_day = 0)%Z) (rows df) ->
       rows filtered = filter (Spec.on_days i lo hi) (rows df)) /\
      (forall h ref,
          nth_error h ref = Some (Objects.OFrame df) ->
          exists h',
            Objects.exec_filter h ref (lo, hi)
            = Ok (h', (List.length h + 5)%nat) /\
            nth_error h' (List.length h + 5)
            = Some (Objects.OFrame filtered) /\
            nth_error h (List.length h + 5) = None /\
            forall k o,
              nth_error h k = Some o -> nth_error h' k = Some o).
Proof.
  intros to_datetime sort_rows fs path df lo hi Hperm Hload.
  destruct (loaded_date_column to_datetime sort_rows Hperm fs path df Hload)
    as [i [Hi Ht]].
  pose proof (filter_by_date_rows df i lo hi Hi Ht) as Hf.
  exists i. eexists. split; [exact Hi|]. split; [exact Hf|]. simpl.
  split; [reflexivity|]. split; [reflexivity|].
  split; [apply filter_subseq|]. split; [|split; [|split]].
  - intros r. rewrite filter_In, in_range_spec. tauto.
  - intros r. rewrite filter_In, between_midnights_on_days. tauto.
  - intros Hmid. apply filter_ext_in. intros r Hr.
    rewrite Forall_forall in Hmid. specialize (Hmid r Hr).
    destruct (Props.between_midnights i lo hi r) eqn:E.
    + apply between_midnights_on_days in E. symmetry. tauto.
    + destruct (Spec.on_days i lo hi r) eqn:E'; [|reflexivity].
      rewrite <- E. apply between_midnights_on_days.
      split; [exact E'|]. intros t Hd Hday.
      rewrite <- Hday. symmetry. apply midnight_exact. now apply Hmid.
  - intros h ref Hh.
    destruct (exec_filter_Ok h ref df (lo, hi) _ Hh Hf)
      as [h' [He [_ [Hn Hx]]]].
    exists h'. split; [exact He|]. split; [exact Hn|].
    split; [apply nth_error_None; lia | exact Hx].
Qed.

Lemma range_filter_exact_witness :
  exists i filtered,
    column_index Samples.aapl_loaded "date" = Ok i /\
    filter_by_date Samples.aapl_loaded
      (Samples.day 2024 1 3, Samples.day 2024 1 4) = Ok filtered /\
    columns filtered = columns Samples.aapl_loaded /\
    rows filtered
    = filter (Props.between_midnights i (Samples.day 2024 1 3)
                (Samples.day 2024 1 4))
        (rows Samples.aapl_loaded) /\
    Spec.subseq (rows filtered) (rows Samples.aapl_loaded) /\
    (forall r,
        In r (rows filtered) <->
        In r (rows Samples.aapl_loaded) /\
        exists d, date_at i r = Some d /\
                  (Time.of_date (Samples.day 2024 1 3) <= d
                   <= Time.of_date (Samples.day 2024 1 4))%Z) /\
    (forall r,
        In r (rows filtered) <->
        In r (rows Samples.aapl_loaded) /\
        Spec.on_days i (Samples.day 2024 1 3) (Samples.day 2024 1 4) r
        = true /\
        (forall t, date_at i r = Some t ->
                   Time.date t = Samples.day 2024 1 4 ->
                   t = Time.of_date (Samples.day 2024 1 4))) /\
    (Forall (fun r => forall t, date_at i r = Some t ->
                                (t mod Time.ns_per_day = 0)%Z)
       (rows Samples.aapl_loaded) ->
     rows filtered
     = filter (Spec.on_days i (Samples.day 2024 1 3) (Samples.day 2024 1 4))
         (rows Samples.aapl_loaded)) /\
    (forall h ref,
        nth_error h ref = Some (Objects.OFrame Samples.aapl_loaded) ->
        exists h',
          Objects.exec_filter h ref
            (Samples.day 2024 1 3, Samples.day 2024 1 4)
          = Ok (h', (List.length h + 5)%nat) /\
          nth_error h' (List.length h + 5)
          = Some (Objects.OFrame filtered) /\
          nth_error h (List.length h + 5) = None /\
          forall k o,
            nth_error h k = Some o -> nth_error h' k = Some o).
Proof.
  apply (range_filter_exact iso_to_datetime insertion_sort
           Samples.folder "df_AAPL.csv" Samples.aapl_loaded
           (Samples.day 2024 1 3) (Samples.day 2024 1 4)).
  - exact insertion_sort_perm.
  - vm_compute. reflexivity.
Defined.

(** C1 fails as stated, on a series the loader produces.  Quotes stamped
    09:30 on 2 January and 16:00 on 3 January, filtered by the range
    (2 January, 3 January): both rows have a date within the range, both
    days included, and the filter keeps the first only: the end bound is
    read as midnight of 3 January, and 16:00 is after it. *)
Lemma range_filter_drops_end_day :
  Samples.load_sample
    (Samples.folder_with Samples.intraday_csv Samples.forecast_csv)
    "df_AAPL.csv" = Ok (Some Samples.intraday_loaded) /\
  filter (Spec.on_days 0 (Samples.day 2024 1 2) (Samples.day 2024 1 3))
    (rows Samples.intraday_loaded)
  = [ [Samples.instant 2024 1 2 9 30 0; Samples.num 187];
      [Samples.instant 2024 1 3 16 0 0; Samples.num 185] ] /\
  filter_by_date Samples.intraday_loaded
    (Samples.day 2024 1 2, Samples.day 2024 1 3)
  = Ok {| columns := ["date"; "close"]%string;
          rows := [ [Samples.instant 2024 1 2 9 30 0; Samples.num 187] ] |} /\
  ~ (forall filtered,
        filter_by_date Samples.intraday_loaded
          (Samples.day 2024 1 2, Samples.day 2024 1 3) = Ok filtered ->
        forall r,
          In r (rows filtered) <->
          In r (rows Samples.intraday_loaded) /\
          Spec.on_days 0 (Samples.day 2024 1 2) (Samples.day 2024 1 3) r
          = true).
Proof.
  split; [vm_compute; reflexivity|].
  split; [vm_compute; reflexivity|].
  split; [vm_compute; reflexivity|].
  intros H.
  specialize (H _ eq_refl
                [Samples.instant 2024 1 3 16 0 0; Samples.num 185]).
  destruct H as [_ H].
  assert (Hin : In [Samples.instant 2024 1 3 16 0 0; Samples.num 185]
                  (rows Samples.intraday_loaded) /\
                Spec.on_days 0 (Samples.day 2024 1 2) (Samples.day 2024 1 3)
                  [Samples.instant 2024 1 3 16 0 0; Samples.num 185] = true).
  { split; [right; left; reflexivity | vm_compute; reflexivity]. }
  specialize (H Hin). vm_compute in H.
  destruct H as [H|[]]. discriminate H.
Qed.

(** The filter of the witness keeps the two rows of 3 and 4 January. *)
Example range_filter_sample :
  filter_by_date Samples.aapl_loaded
    (Samples.day 2024 1 3, Samples.day 2024 1 4)
  = Ok {| columns := ["date"; "close"]%string;
          rows := [ [Samples.midnight 2024 1 3; Samples.num 185];
                    [Samples.midnight 2024 1 4; Samples.num 182] ] |}.
Proof. vm_compute. reflexivity. Qed.

(** ** The default range of the slider *)

Lemma series_min_dated :
  forall i rs,
    Forall (fun r => exists d, date_at i r = Some d) rs ->
    match series_min (map (cell_at i) rs) with
    | Some m =>
        Forall (fun r => forall d, date_at i r = Some d -> (m <= d)%Z) rs
    | None => rs = []
    end.
Proof.
  intros i rs H. induction H as [|r rs [d Hd] _ IH]; simpl; [reflexivity|].
  fold (date_at i r). rewrite Hd.
  destruct (series_min (map (cell_at i) rs)) as [m|]; simpl.
  - constructor.
    + intros d' Hd'. rewrite Hd in Hd'. injection Hd' as <-. lia.
    + eapply Forall_impl; [|exact IH]. simpl.
      intros a Ha d' Hd'. specialize (Ha d' Hd'). lia.
  - subst rs. constructor; [|constructor].
    intros d' Hd'. rewrite Hd in Hd'. injection Hd' as <-. lia.
Qed.

Lemma series_max_dated :
  forall i rs,
    Forall (fun r => exists d, date_at i r = Some d) rs ->
    match series_max (map (cell_at i) rs) with
    | Some m =>
        Forall (fun r => forall d, date_at i r = Some d -> (d <= m)%Z) rs
    | None => rs = []
    end.
Proof.
  intros i rs H. induction H as [|r rs [d Hd] _ IH]; simpl; [reflexivity|].
  fold (date_at i r). rewrite Hd.
  destruct (series_max (map (cell_at i) rs)) as [m|]; simpl.
  - constructor.
    + intros d' Hd'. rewrite Hd in Hd'. injection Hd' as <-. lia.
    + eapply Forall_impl; [|exact IH]. simpl.
      intros a Ha d' Hd'. specialize (Ha d' Hd'). lia.
  - subst rs. constructor; [|constructor].
    intros d' Hd'. rewrite Hd in Hd'. injection Hd' as <-. lia.
Qed.

Lemma filter_all :
  forall (A : Type) (p : A -> bool) (l : list A),
    Forall (fun x => p x = true) l -> filter p l = l.
Proof.
  intros A p l H. induction H as [|x l Hx _ IH]; simpl; [reflexivity|].
  now rewrite Hx, IH.
Qed.

(** The default range of the slider keeps every row, when every row has a
    date and the latest one is a midnight. *)
Lemma full_span_rows :
  forall i rs lo hi,
    Forall (fun r => exists d, date_at i r = Some d) rs ->
    series_min (map (cell_at i) rs) = Some lo ->
    series_max (map (cell_at i) rs) = Some hi ->
    (hi mod Time.ns_per_day = 0)%Z ->
    filter (Props.between_midnights i (Time.date lo) (Time.date hi)) rs = rs.
Proof.
  intros i rs lo hi Hd Hlo Hhi Hmid.
  apply filter_all.
  pose proof (series_min_dated i rs Hd) as Hmin. rewrite Hlo in Hmin.
  pose proof (series_max_dated i rs Hd) as Hmax. rewrite Hhi in Hmax.
  rewrite Forall_forall in *. intros r Hr.
  destruct (Hd r Hr) as [d Hdr].
  apply in_range_spec. exists d. split; [assumption|].
  specialize (Hmin r Hr d Hdr). specialize (Hmax r Hr d Hdr).
  rewrite (midnight_exact hi Hmid).
  pose proof (midnight_before lo). lia.
Qed.

Import Dashboard.

Lemma frame_eta :
  forall df, {| columns := columns df; rows := rows df |} = df.
Proof. now intros []. Qed.

(** C2, as amended.  For every series (loaded or not) with one date
    column and at least one row, in which every row has a date and the
    latest instant is a midnight (as when the file holds plain calendar
    days), filtering by the range from the day of the earliest to the day
    of the latest instant returns the series itself: same columns, same
    rows, same order.  In the script that range is the default of the
    slider, which takes it when the two days differ: the untouched slider
    then returns that range and the filtered frame is the series.  When
    all the rows are of one day the slider raises and nothing is
    filtered. *)
Theorem full_span_identity :
  forall (df : DataFrame) (i : nat),
    column_index df "date" = Ok i ->
    rows df <> [] ->
    Forall (fun r => exists d, date_at i r = Some d) (rows df) ->
    (forall hi, series_max (map (cell_at i) (rows df)) = Some hi ->
                (hi mod Time.ns_per_day = 0)%Z) ->
    exists lo hi,
      series_min (map (cell_at i) (rows df)) = Some lo /\
      series_max (map (cell_at i) (rows df)) = Some hi /\
      (Time.date lo <= Time.date hi)%Z /\
      filter_by_date df (Time.date lo, Time.date hi) = Ok df /\
      ((Time.date lo < Time.date hi)%Z ->
       select_range df None
       = ([(Main, Slider "Select a date range" (Time.date lo) (Time.date hi)
                    (Time.date lo, Time.date hi))],
          Ok ((Time.date lo, Time.date hi), df))) /\
      (Time.date lo = Time.date hi ->
       exists msg,
         select_range df None = ([], Raise (StreamlitAPIException msg))).
Proof.
  intros df i Hi Hne Hd Hmid.
  pose proof (series_min_dated i (rows df) Hd) as Hmin.
  pose proof (series_max_dated i (rows df) Hd) as Hmax.
  destruct (series_min (map (cell_at i) (rows df))) as [lo|] eqn:Elo;
    [|contradiction].
  destruct (series_max (map (cell_at i) (rows df))) as [hi|] eqn:Ehi;
    [|contradiction].
  exists lo, hi. split; [reflexivity|]. split; [reflexivity|].
  assert (Hle : (Time.date lo <= Time.date hi)%Z).
  { destruct (rows df) as [|r rs]; [contradiction|].
    inversion Hd as [|? ? [d Hr] _]; subst.
    inversion Hmin as [|? ? H1 _]; subst.
    inversion Hmax as [|? ? H2 _]; subst.
    specialize (H1 d Hr). specialize (H2 d Hr).
    unfold Time.date. apply Z.div_le_mono; [reflexivity | lia]. }
  split; [exact Hle|].
  assert (Ht : Forall (fun r => is_time (cell_at i r) = true) (rows df)).
  { eapply Forall_impl; [|exact Hd]. simpl. intros r [d Hr].
    unfold date_at in Hr. now destruct (cell_at i r). }
  assert (Hf : filter_by_date df (Time.date lo, Time.date hi) = Ok df).
  { rewrite (filter_by_date_rows df i _ _ Hi Ht).
    rewrite (full_span_rows i (rows df) lo hi Hd Elo Ehi (Hmid hi eq_refl)).
    now rewrite frame_eta. }
  split; [exact Hf|].
  split.
  - intros Hlt. apply Z.ltb_lt in Hlt.
    unfold select_range, get_series. rewrite Hi. simpl.
    unfold mbind at 1. simpl. rewrite Elo, Ehi. simpl.
    unfold st_slider. rewrite Hlt.
    unfold mbind. simpl. rewrite Hf. reflexivity.
  - intros Heq.
    assert (Hlt : (Time.date lo <? Time.date hi)%Z = false)
      by (apply Z.ltb_ge; lia).
    eexists.
    unfold select_range, get_series. rewrite Hi. simpl.
    unfold mbind at 1. simpl. rewrite Elo, Ehi. simpl.
    unfold st_slider. rewrite Hlt. reflexivity.
Qed.

Lemma full_span_identity_witness :
  exists lo hi,
    series_min (map (cell_at 0) (rows Samples.aapl_loaded)) = Some lo /\
    series_max (map (cell_at 0) (rows Samples.aapl_loaded)) = Some hi /\
    filter_by_date Samples.aapl_loaded (Time.date lo, Time.date hi)
    = Ok Samples.aapl_loaded /\
    select_range Samples.aapl_loaded None
    = ([(Main, Slider "Select a date range" (Time.date lo) (Time.date hi)
                 (Time.date lo, Time.date hi))],
       Ok ((Time.date lo, Time.date hi), Samples.aapl_loaded)).
Proof.
  destruct (full_span_identity Samples.aapl_loaded 0) as
    [lo [hi [Hlo [Hhi [_ [Hf [Hs _]]]]]]].
  - reflexivity.
  - discriminate.
  - repeat constructor; eexists; reflexivity.
  - intros hi H. vm_compute in H. injection H as <-. reflexivity.
  - exists lo, hi. split; [exact Hlo|]. split; [exact Hhi|].
    split; [exact Hf|]. apply Hs.
    vm_compute in Hlo. injection Hlo as <-.
    vm_compute in Hhi. injection Hhi as <-.
    reflexivity.
Defined.

(** A series of one day: the filter by its full span keeps it whole, but
    the slider of the script refuses a range of one day. *)
Example one_day_series :
  filter_by_date
    {| columns := ["date"; "close"]%string;
       rows := [ [Samples.midnight 2024 1 2; Samples.num 187] ] |}
    (Samples.day 2024 1 2, Samples.day 2024 1 2)
  = Ok {| columns := ["date"; "close"]%string;
          rows := [ [Samples.midnight 2024 1 2; Samples.num 187] ] |} /\
  select_range
    {| columns := ["date"; "close"]%string;
       rows := [ [Samples.midnight 2024 1 2; Samples.num 187] ] |} None
  = ([], Raise (StreamlitAPIException
                  "Slider `min_value` must be less than the `max_value`.")).
Proof.
  split; vm_compute; reflexivity.
Qed.

(** C2 fails as stated, on two series the loader produces.  Quotes stamped
    09:30 on 2 January and 16:00 on 3 January: the slider's default range
    is (2 January, 3 January), its upper bound is read as midnight of
    3 January, and the second row is filtered out.  A file with one line
    whose date is missing: the loader keeps the line (NaT, sorted last) and
    the default range drops it. *)
Lemma full_span_drops_rows :
  (Samples.load_sample
     (Samples.folder_with Samples.intraday_csv Samples.forecast_csv)
     "df_AAPL.csv" = Ok (Some Samples.intraday_loaded) /\
   select_range Samples.intraday_loaded None
   = ([(Main, Slider "Select a date range"
                (Samples.day 2024 1 2) (Samples.day 2024 1 3)
                (Samples.day 2024 1 2, Samples.day 2024 1 3))],
      Ok ((Samples.day 2024 1 2, Samples.day 2024 1 3),
          {| columns := ["date"; "close"]%string;
             rows := [ [Samples.instant 2024 1 2 9 30 0; Samples.num 187] ]
          |})) /\
   List.length (rows Samples.intraday_loaded) = 2%nat)
  /\
  (Samples.load_sample
     (Samples.folder_with Samples.gap_csv Samples.forecast_csv)
     "df_AAPL.csv" = Ok (Some Samples.gap_loaded) /\
   select_range Samples.gap_loaded None
   = ([(Main, Slider "Select a date range"
                (Samples.day 2024 1 2) (Samples.day 2024 1 3)
                (Samples.day 2024 1 2, Samples.day 2024 1 3))],
      Ok ((Samples.day 2024 1 2, Samples.day 2024 1 3),
          {| columns := ["date"; "close"]%string;
             rows := [ [Samples.midnight 2024 1 2; Samples.num 187];
                       [Samples.midnight 2024 1 3; Samples.num 185] ]
          |})) /\
   List.length (rows Samples.gap_loaded) = 3%nat).
Proof.
  repeat split; vm_compute; reflexivity.
Qed.

Lemma filter_keeps_length :
  forall (A : Type) (p : A -> bool) (l : list A),
    (List.length (filter p l) <= List.length l)%nat.
Proof.
  intros A p l. induction l as [|x l IH]; simpl; [lia|].
  destruct (p x); simpl; lia.
Qed.

Lemma filter_all_inv :
  forall (A : Type) (p : A -> bool) (l : list A),
    filter p l = l -> Forall (fun x => p x = true) l.
Proof.
  intros A p l. induction l as [|x l IH]; simpl; intros H; [constructor|].
  destruct (p x) eqn:E.
  - injection H as H. constructor; [assumption | now apply IH].
  - pose proof (filter_keeps_length A p l) as Hl.
    rewrite H in Hl. simpl in Hl. lia.
Qed.

Lemma series_max_attained :
  forall i rs hi,
    series_max (map (cell_at i) rs) = Some hi ->
    exists r, In r rs /\ date_at i r = Some hi.
Proof.
  intros i rs. induction rs as [|r rs IH]; simpl; intros hi H.
  - discriminate.
  - fold (date_at i r) in H.
    destruct (date_at i r) as [d|] eqn:Ed;
      destruct (series_max (map (cell_at i) rs)) as [m|] eqn:Em;
      simpl in H.
    + injection H as <-.
      destruct (Z.max_spec d m) as [[_ ->]|[_ ->]].
      * destruct (IH m eq_refl) as [r' [Hin Hr']].
        exists r'. split; [now right | assumption].
      * exists r. split; [now left | assumption].
    + injection H as <-. exists r. split; [now left | assumption].
    + destruct (IH hi H) as [r' [Hin Hr']].
      exists r'. split; [now right | assumption].
    + discriminate.
Qed.

(** X4.  The two conditions of C2 are needed: on a series with a date
    column of datetime type, when filtering up to the day of the latest
    instant returns the series itself, every row has a date and the latest
    instant is a midnight. *)
Lemma full_span_identity_only_if :
  forall (df : DataFrame) (i : nat) (lo hi : Z),
    column_index df "date" = Ok i ->
    Forall (fun r => is_time (cell_at i r) = true) (rows df) ->
    series_max (map (cell_at i) (rows df)) = Some hi ->
    filter_by_date df (Time.date lo, Time.date hi) = Ok df ->
    Forall (fun r => exists d, date_at i r = Some d) (rows df) /\
    (hi mod Time.ns_per_day = 0)%Z.
Proof.
  intros df i lo hi Hi Ht Hhi Hf.
  rewrite (filter_by_date_rows df i _ _ Hi Ht) in Hf.
  injection Hf as Hf.
  assert (Hall : Forall (fun r => Props.between_midnights i (Time.date lo)
                                    (Time.date hi) r = true) (rows df)).
  { apply filter_all_inv. destruct df as [cs rs]. simpl in *.
    injection Hf as Hf. exact Hf. }
  split.
  - eapply Forall_impl; [|exact Hall]. simpl. intros r Hr.
    apply in_range_spec in Hr. destruct Hr as [d [Hd _]]. now exists d.
  - destruct (series_max_attained i (rows df) hi Hhi) as [r [Hin Hr]].
    rewrite Forall_forall in Hall. specialize (Hall r Hin).
    apply in_range_spec in Hall. destruct Hall as [d [Hd [_ Hle]]].
    rewrite Hr in Hd. injection Hd as <-.
    pose proof (midnight_before hi) as Hb.
    assert (E : hi = Time.of_date (Time.date hi)) by lia.
    rewrite E. unfold Time.of_date. apply Z_mod_mult.
Qed.

Lemma full_span_identity_only_if_witness :
  Forall (fun r => exists d, date_at 0 r = Some d)
    (rows Samples.aapl_loaded) /\
  (Time.of_date (Samples.day 2024 1 5) mod Time.ns_per_day = 0)%Z.
Proof.
  apply (full_span_identity_only_if Samples.aapl_loaded 0
           (Time.of_date (Samples.day 2024 1 2))
           (Time.of_date (Samples.day 2024 1 5))).
  - reflexivity.
  - repeat constructor.
  - vm_compute. reflexivity.
  - vm_compute. reflexivity.
Defined.

(** ** The loader sorts, and keeps every line *)

Lemma has_price_columns_In :
  forall df,
    has_price_columns df = true <->
    In "date"%string (columns df) /\ In "close"%string (columns df).
Proof.
  intros df. unfold has_price_columns.
  now rewrite andb_true_iff, !mem_In.
Qed.

(** C3, as amended.  For every file whose labels, trimmed and lowercased,
    hold "date" exactly once (so that [df["date"]] is a column) and hold
    "close", and whose date column [pd.to_datetime] accepts, the loader
    produces a series with the normalised labels whose rows are the lines
    of the file, dates parsed, reordered so that the dates are
    monotonically non-decreasing, rows without a date last.  Dates are not
    made unique: when the conversion keeps the length of the column, the
    dates of the series are those of the file, each as often as there. *)
Theorem loader_sorts_by_date :
  forall (to_datetime : list cell -> result (list Time.timestamp))
         (sort_rows : (row -> Time.timestamp) -> list row -> list row)
         (fs : string -> file) (path : string) (tbl : DataFrame)
         (i : nat) (ts : list Time.timestamp),
    (forall key rs, Permutation (sort_rows key rs) rs) ->
    (forall key rs, StronglySorted ts_le (map key (sort_rows key rs))) ->
    fs path = Csv tbl ->
    column_index (normalize_columns tbl) "date" = Ok i ->
    In "close"%string (map normalize_label (columns tbl)) ->
    to_datetime (map (cell_at i) (rows tbl)) = Ok ts ->
    exists df,
      load_prices to_datetime sort_rows fs path = Ok (Some df) /\
      columns df = map normalize_label (columns tbl) /\
      column_index df "date" = Ok i /\
      Permutation (rows df) (assign i ts (rows tbl)) /\
      StronglySorted ts_le (Spec.dates i df) /\
      (List.length ts = List.length (rows tbl) ->
       Permutation (Spec.dates i df) ts).
Proof.
  intros to_datetime sort_rows fs path tbl i ts Hperm Hsorted
         Hf Hi Hclose Ht.
  eexists. split.
  - apply load_prices_Some. exists tbl, i, ts.
    repeat split; try assumption.
    apply has_price_columns_In. simpl. split; [|assumption].
    apply column_index_Ok in Hi. destruct Hi as [Hc _]. simpl in Hc.
    apply mem_In.
    destruct (PyStr.mem "date" (map normalize_label (columns tbl))) eqn:E;
      [reflexivity|].
    apply mem_count in E. congruence.
  - simpl. split; [reflexivity|]. split.
    { rewrite <- Hi. now apply column_index_columns. }
    split; [apply Hperm|]. split; [apply Hsorted|].
    intros Hlen. unfold Spec.dates. simpl.
    rewrite <- (assign_dates i ts (rows tbl) Hlen) at 2.
    apply Permutation_map, Hperm.
Qed.

Lemma loader_sorts_by_date_witness :
  exists df,
    Samples.load_sample Samples.folder "df_AAPL.csv" = Ok (Some df) /\
    columns df = map normalize_label (columns Samples.aapl_csv) /\
    column_index df "date" = Ok 0%nat /\
    Permutation (rows df)
      (assign 0
         [Some (Time.of_date (Samples.day 2024 1 3));
          Some (Time.of_date (Samples.day 2024 1 2));
          Some (Time.of_date (Samples.day 2024 1 5));
          Some (Time.of_date (Samples.day 2024 1 4))]
         (rows Samples.aapl_csv)) /\
    StronglySorted ts_le (Spec.dates 0 df) /\
    (List.length
       [Some (Time.of_date (Samples.day 2024 1 3));
        Some (Time.of_date (Samples.day 2024 1 2));
        Some (Time.of_date (Samples.day 2024 1 5));
        Some (Time.of_date (Samples.day 2024 1 4))]
     = List.length (rows Samples.aapl_csv) ->
     Permutation (Spec.dates 0 df)
       [Some (Time.of_date (Samples.day 2024 1 3));
        Some (Time.of_date (Samples.day 2024 1 2));
        Some (Time.of_date (Samples.day 2024 1 5));
        Some (Time.of_date (Samples.day 2024 1 4))]).
Proof.
  apply (loader_sorts_by_date iso_to_datetime insertion_sort
           Samples.folder "df_AAPL.csv" Samples.aapl_csv 0).
  - exact insertion_sort_perm.
  - exact insertion_sort_sorted.
  - reflexivity.
  - reflexivity.
  - simpl. right. left. reflexivity.
  - vm_compute. reflexivity.
Defined.

(** C3 fails as stated: a file with the labels "date" and "close" in which
    3 January occurs twice is loaded with 3 January twice; nothing in the
    loader removes a line. *)
Lemma loader_keeps_duplicate_dates :
  In "date"%string (map normalize_label (columns Samples.twice_csv)) /\
  In "close"%string (map normalize_label (columns Samples.twice_csv)) /\
  Samples.load_sample
    (Samples.folder_with Samples.twice_csv Samples.forecast_csv)
    "df_AAPL.csv" = Ok (Some Samples.twice_loaded) /\
  Spec.dates 0 Samples.twice_loaded
  = [Some (Time.of_date (Samples.day 2024 1 2));
     Some (Time.of_date (Samples.day 2024 1 3));
     Some (Time.of_date (Samples.day 2024 1 3))] /\
  ~ NoDup (Spec.dates 0 Samples.twice_loaded).
Proof.
  split; [simpl; tauto|]. split; [simpl; tauto|].
  split; [vm_compute; reflexivity|]. split; [reflexivity|].
  intros H. inversion H as [|? ? _ H']; subst.
  inversion H' as [|? ? Hin _]; subst.
  apply Hin. left. reflexivity.
Qed.

(** ** Sums from 0 to n - 1 *)


(** ** The display of a number with four decimals *)

Lemma frac_digits_length :
  forall d m, List.length (PyFmt.frac_digits d m) = d.
Proof.
  induction d as [|d IH]; intros m; simpl; [reflexivity|].
  rewrite length_app, IH. simpl. lia.
Qed.

Lemma digit_char_digit :
  forall m, Spec.is_digit (PyFmt.digit_char (m mod 10)) = true.
Proof.
  intros m. unfold Spec.is_digit, PyFmt.digit_char.
  pose proof (Z.mod_pos_bound m 10 eq_refl) as Hb.
  rewrite nat_ascii_embedding by lia.
  apply andb_true_iff. split; apply Nat.leb_le; lia.
Qed.

Lemma frac_digits_digits :
  forall d m, Forall (fun c => Spec.is_digit c = true) (PyFmt.frac_digits d m).
Proof.
  induction d as [|d IH]; intros m; simpl; [constructor|].
  apply Forall_app. split; [apply IH|].
  constructor; [apply digit_char_digit | constructor].
Qed.


(** ** float64 arithmetic: when it is exact *)

Section FloatFacts.

Import Float64 Props.



Lemma pow2_lt : forall a b, (a < b)%Z -> pow2 a < pow2 b.
Proof. intros a b H. apply Qpower_lt_compat_l; [exact H | reflexivity]. Qed.


















Section Exact.

Variable k : Z.
Hypothesis k_lo : (-1074 <= k)%Z.
Hypothesis k_hi : (k <= 971)%Z.



















End Exact.
















End FloatFacts.

(** ** The length guard of the metric *)

Lemma get_series_length :
  forall df label s,
    get_series df label = Ok s -> List.length s = List.length (rows df).
Proof.
  intros df label s. unfold get_series.
  destruct (column_index df label); simpl; [|discriminate].
  intros H. injection H as <-. apply length_map.
Qed.

Lemma get_series_Raise :
  forall df label e,
    get_series df label = Raise e ->
    e = KeyError label \/ e = ValueError "duplicate column label".
Proof.
  intros df label e. unfold get_series, column_index.
  destruct (PyStr.count label (columns df)) as [|[|n]];
    destruct (PyStr.index label (columns df)); simpl;
    intros H; try discriminate; injection H as <-; tauto.
Qed.

Lemma mean_absolute_error_equal_length :
  forall a b,
    List.length a = List.length b ->
    Sklearn.mean_absolute_error a b <> Raise Sklearn.length_mismatch.
Proof.
  intros a b H. unfold Sklearn.mean_absolute_error.
  rewrite H, Nat.eqb_refl. simpl.
  destruct (Sklearn.check_array a) as [[|x t]|];
    destruct (Sklearn.check_array b); discriminate.
Qed.

(** C9.  The metric ends in the length-mismatch error whenever its two
    inputs differ in length.  On the call path of the script the two inputs
    are the columns "real_close" and "predicted_close" of one frame: they
    have the length of the frame, the metric does not end in that error on
    them, and the statements that compute and show the metric never end in
    it, whatever the frame. *)
Theorem metric_length_guard :
  (forall a b,
      List.length a <> List.length b ->
      Sklearn.mean_absolute_error a b = Raise Sklearn.length_mismatch) /\
  (forall df real predicted,
      get_series df "real_close" = Ok real ->
      get_series df "predicted_close" = Ok predicted ->
      List.length real = List.length predicted /\
      Sklearn.mean_absolute_error real predicted
      <> Raise Sklearn.length_mismatch) /\
  (forall df, snd (report_mae df) <> Raise Sklearn.length_mismatch).
Proof.
  split; [|split].
  - intros a b H. unfold Sklearn.mean_absolute_error.
    apply Nat.eqb_neq in H. now rewrite H.
  - intros df real predicted Hr Hp.
    assert (Hlen : List.length real = List.length predicted).
    { rewrite (get_series_length _ _ _ Hr), (get_series_length _ _ _ Hp).
      reflexivity. }
    split; [exact Hlen | now apply mean_absolute_error_equal_length].
  - intros df. unfold report_mae, mbind, lift. simpl.
    destruct (get_series df "real_close") as [real|e] eqn:Hr; simpl.
    2:{ destruct (get_series_Raise _ _ _ Hr) as [-> | ->]; discriminate. }
    destruct (get_series df "predicted_close") as [predicted|e] eqn:Hp; simpl.
    2:{ destruct (get_series_Raise _ _ _ Hp) as [-> | ->]; discriminate. }
    destruct (Sklearn.mean_absolute_error real predicted) as [m|e] eqn:Hm;
      simpl; [discriminate|].
    intros He. injection He as ->.
    revert Hm. apply mean_absolute_error_equal_length.
    rewrite (get_series_length _ _ _ Hr), (get_series_length _ _ _ Hp).
    reflexivity.
Qed.

Lemma metric_length_guard_witness :
  Sklearn.mean_absolute_error [Samples.num 10; Samples.num 20] [Samples.num 12]
  = Raise Sklearn.length_mismatch.
Proof.
  apply (proj1 metric_length_guard). simpl. lia.
Defined.

(** ** Runs of the script *)

(** One step of a run: the binds of the two monads are unfolded, the
    functions of the libraries and of the script are not. *)
Ltac ui_step := cbn [fst snd app mbind lift emit ret bind].

Lemma fst_mbind :
  forall (A B : Type) (c : M A) (k : A -> M B),
    fst (mbind c k)
    = fst c ++ match snd c with
               | Ok a => fst (k a)
               | Raise _ => []
               end.
Proof.
  intros A B [evs [a|e]] k; unfold mbind; simpl;
    [reflexivity | now rewrite app_nil_r].
Qed.

Lemma snd_mbind :
  forall (A B : Type) (c : M A) (k : A -> M B),
    snd (mbind c k)
    = match snd c with
      | Ok a => snd (k a)
      | Raise e => Raise e
      end.
Proof.
  intros A B [evs [a|e]] k; reflexivity.
Qed.

Lemma shown_in_app :
  forall c l1 l2,
    shown_in c (l1 ++ l2) = shown_in c l1 ++ shown_in c l2.
Proof.
  intros c l1 l2. unfold shown_in. now rewrite filter_app, map_app.
Qed.

Lemma has_price_columns_false :
  forall tbl,
    ~ In "date"%string (map normalize_label (columns tbl)) \/
    ~ In "close"%string (map normalize_label (columns tbl)) ->
    has_price_columns (normalize_columns tbl) = false.
Proof.
  intros tbl H.
  destruct (has_price_columns (normalize_columns tbl)) eqn:E;
    [|reflexivity].
  apply has_price_columns_In in E. simpl in E. tauto.
Qed.

(** The loader answers [None] exactly on a table whose normalised labels
    lack "date" or lack "close". *)
Lemma load_prices_skips :
  forall (to_datetime : list cell -> result (list Time.timestamp))
         (sort_rows : (row -> Time.timestamp) -> list row -> list row)
         (fs : string -> file) (path : string),
    load_prices to_datetime sort_rows fs path = Ok None <->
    exists tbl,
      fs path = Csv tbl /\
      (~ In "date"%string (map normalize_label (columns tbl)) \/
       ~ In "close"%string (map normalize_label (columns tbl))).
Proof.
  intros to_datetime sort_rows fs path. rewrite load_prices_None.
  split; intros [tbl [Hf Hc]]; exists tbl; (split; [exact Hf|]).
  - unfold has_price_columns in Hc. apply andb_false_iff in Hc.
    destruct Hc as [Hc|Hc]; [left | right]; intros HIn;
      apply mem_In in HIn; simpl in Hc; congruence.
  - now apply has_price_columns_false.
Qed.

(** C6.  For every company of the selector whose file is a table that,
    once its labels are trimmed and lowercased, has no "date" label or no
    "close" label, the run shows the selector and the error " Date not
    found." and nothing else (no header, no slider, no tab, no chart), and
    ends without an exception, whatever the range and the companies
    compared with. *)
Theorem missing_price_column_blocks :
  forall (to_datetime : list cell -> result (list Time.timestamp))
         (sort_rows : (row -> Time.timestamp) -> list row -> list row)
         (fs : string -> file) (selected_company : string)
         (picked : option (Z * Z)) (others : list string)
         (file_name : string) (tbl : DataFrame),
    dict_get files selected_company = Ok file_name ->
    fs file_name = Csv tbl ->
    ~ In "date"%string (map normalize_label (columns tbl)) \/
    ~ In "close"%string (map normalize_label (columns tbl)) ->
    run to_datetime sort_rows fs selected_company picked others
    = ([(Sidebar, Selectbox "📈 Select a company" (keys files));
        (Main, Error " Date not found.")],
       Ok tt) /\
    filter (fun ev => is_chart (snd ev))
      (fst (run to_datetime sort_rows fs selected_company picked others))
    = [].
Proof.
  intros to_datetime sort_rows fs selected_company picked others
         file_name tbl Hfile Hfs Hcols.
  assert (E : run to_datetime sort_rows fs selected_company picked others
              = ([(Sidebar, Selectbox "📈 Select a company" (keys files));
                  (Main, Error " Date not found.")], Ok tt)).
  { unfold run, prelude, read_csv. ui_step.
    rewrite Hfile. ui_step. rewrite Hfs. ui_step.
    rewrite (has_price_columns_false tbl Hcols). reflexivity. }
  split; [exact E|]. rewrite E. reflexivity.
Qed.

Lemma missing_price_column_blocks_witness :
  Samples.run_sample Samples.folder "Amazon (AMZN)" None ["Google (GOOG)"%string]
  = ([(Sidebar, Selectbox "📈 Select a company" (keys files));
      (Main, Error " Date not found.")],
     Ok tt) /\
  filter (fun ev => is_chart (snd ev))
    (fst (Samples.run_sample Samples.folder "Amazon (AMZN)" None
            ["Google (GOOG)"%string]))
  = [].
Proof.
  apply (missing_price_column_blocks iso_to_datetime insertion_sort
           Samples.folder "Amazon (AMZN)" None ["Google (GOOG)"%string]
           "df_AMZN.csv" Samples.amzn_csv).
  - reflexivity.
  - reflexivity.
  - right. vm_compute. intros [H|[H|[]]]; discriminate.
Defined.

(** ** The forecast view *)

Lemma column_index_absent :
  forall df label,
    ~ In label (columns df) ->
    column_index df label = Raise (KeyError label).
Proof.
  intros df label H. unfold column_index.
  assert (E : PyStr.count label (columns df) = 0%nat).
  { apply mem_count.
    destruct (PyStr.mem label (columns df)) eqn:M; [|reflexivity].
    apply mem_In in M. contradiction. }
  now rewrite E.
Qed.

(** X2.  A forecast file without a "date" label: the view shows its
    heading and stops at line 110 with KeyError('date'), before the columns
    are checked. *)
Lemma forecast_without_date :
  forall (to_datetime : list cell -> result (list Time.timestamp))
         (fs : string -> file) (symbol : string) (tbl : DataFrame),
    fs (forecast_path symbol) = Csv tbl ->
    ~ In "date"%string (map normalize_label (columns tbl)) ->
    forecast_view to_datetime fs symbol
    = ([(Tab 4, Subheader "Forecasted vs Real Prices (RNN Model)")],
       Raise (KeyError "date")).
Proof.
  intros to_datetime fs symbol tbl Hfs Hdate.
  unfold forecast_view, exists_, read_csv.
  ui_step. rewrite Hfs. ui_step.
  unfold parse_dates, get_series.
  rewrite (column_index_absent (normalize_columns tbl) "date" Hdate).
  reflexivity.
Qed.

(** X1.  A forecast file with a date column that parses, but without
    "real_close" or without "predicted_close": the view shows its heading,
    the error and the labels found, no chart and no metric, and ends
    normally. *)
Lemma forecast_without_value_column :
  forall (to_datetime : list cell -> result (list Time.timestamp))
         (fs : string -> file) (symbol : string) (tbl : DataFrame)
         (i : nat) (ts : list Time.timestamp),
    fs (forecast_path symbol) = Csv tbl ->
    column_index (normalize_columns tbl) "date" = Ok i ->
    to_datetime (map (cell_at i) (rows tbl)) = Ok ts ->
    ~ In "real_close"%string (map normalize_label (columns tbl)) \/
    ~ In "predicted_close"%string (map normalize_label (columns tbl)) ->
    forecast_view to_datetime fs symbol
    = ([(Tab 4, Subheader "Forecasted vs Real Prices (RNN Model)");
        (Tab 4, Error " Forecast file is missing required columns: 'real_close' or 'predicted_close'.");
        (Tab 4, Write "Available columns:"
                  (map normalize_label (columns tbl)))],
       Ok tt).
Proof.
  intros to_datetime fs symbol tbl i ts Hfs Hi Ht Hmiss.
  unfold forecast_view, exists_, read_csv.
  ui_step. rewrite Hfs. ui_step.
  unfold parse_dates, get_series. rewrite Hi. ui_step.
  change (rows (normalize_columns tbl)) with (rows tbl).
  rewrite Ht. ui_step.
  match goal with
  | |- context [forallb ?f expected_cols] =>
      assert (E : forallb f expected_cols = false)
  end.
  { unfold expected_cols. cbn [forallb columns].
    change (columns (normalize_columns tbl))
      with (map normalize_label (columns tbl)).
    destruct Hmiss as [H|H].
    - destruct (PyStr.mem "real_close" (map normalize_label (columns tbl)))
        eqn:M; [|reflexivity].
      apply mem_In in M. contradiction.
    - destruct (PyStr.mem "predicted_close"
                  (map normalize_label (columns tbl))) eqn:M;
        [|now rewrite andb_false_r].
      apply mem_In in M. contradiction. }
  rewrite E. reflexivity.
Qed.

Lemma forecast_without_date_witness :
  forecast_view iso_to_datetime
    (Samples.folder_with Samples.aapl_csv Samples.forecast_no_date) "AAPL"
  = ([(Tab 4, Subheader "Forecasted vs Real Prices (RNN Model)")],
     Raise (KeyError "date")).
Proof.
  apply (forecast_without_date iso_to_datetime
           (Samples.folder_with Samples.aapl_csv Samples.forecast_no_date)
           "AAPL" Samples.forecast_no_date).
  - reflexivity.
  - vm_compute. intros [H|[H|[]]]; discriminate.
Defined.

Lemma forecast_without_value_column_witness :
  forecast_view iso_to_datetime
    (Samples.folder_with Samples.aapl_csv Samples.forecast_no_predicted)
    "AAPL"
  = ([(Tab 4, Subheader "Forecasted vs Real Prices (RNN Model)");
      (Tab 4, Error " Forecast file is missing required columns: 'real_close' or 'predicted_close'.");
      (Tab 4, Write "Available columns:"
                (map normalize_label
                   (columns Samples.forecast_no_predicted)))],
     Ok tt).
Proof.
  apply (forecast_without_value_column iso_to_datetime
           (Samples.folder_with Samples.aapl_csv
              Samples.forecast_no_predicted)
           "AAPL" Samples.forecast_no_predicted 0
           [Some (Time.of_date (Samples.day 2024 1 2));
            Some (Time.of_date (Samples.day 2024 1 3))]).
  - reflexivity.
  - reflexivity.
  - vm_compute. reflexivity.
  - right. vm_compute. intros [H|[H|[]]]; discriminate.
Defined.

(** X3.  No forecast file: the heading and a warning, no chart, and the
    view ends normally. *)
Lemma forecast_file_absent :
  forall (to_datetime : list cell -> result (list Time.timestamp))
         (fs : string -> file) (symbol : string),
    fs (forecast_path symbol) = Absent ->
    forecast_view to_datetime fs symbol
    = ([(Tab 4, Subheader "Forecasted vs Real Prices (RNN Model)");
        (Tab 4, Warning " Forecast file not found for this company.")],
       Ok tt).
Proof.
  intros to_datetime fs symbol Hfs.
  unfold forecast_view, exists_. ui_step. rewrite Hfs. reflexivity.
Qed.

Lemma forecast_file_absent_witness :
  forecast_view iso_to_datetime Samples.folder "GOOG"
  = ([(Tab 4, Subheader "Forecasted vs Real Prices (RNN Model)");
      (Tab 4, Warning " Forecast file not found for this company.")],
     Ok tt).
Proof.
  apply (forecast_file_absent iso_to_datetime Samples.folder "GOOG").
  reflexivity.
Defined.

(** C5, at a forecast file with the labels "real_close" and
    "predicted_close" and no "date": the run shows the heading of the
    forecast tab and stops there with KeyError('date'); no error state and
    no list of labels is shown, and nothing after the forecast view is. *)
Theorem forecast_without_date_stops :
  snd (Samples.run_sample
         (Samples.folder_with Samples.aapl_csv Samples.forecast_no_date)
         "Apple (AAPL)" None [])
  = Raise (KeyError "date") /\
  shown_in (Tab 4)
    (fst (Samples.run_sample
            (Samples.folder_with Samples.aapl_csv Samples.forecast_no_date)
            "Apple (AAPL)" None []))
  = [Subheader "Forecasted vs Real Prices (RNN Model)"] /\
  shown_in (Expander " About this Dashboard")
    (fst (Samples.run_sample
            (Samples.folder_with Samples.aapl_csv Samples.forecast_no_date)
            "Apple (AAPL)" None []))
  = [].
Proof.
  repeat split; vm_compute; reflexivity.
Qed.

(** The same run with a forecast file that lacks "predicted_close" only:
    the error state, the labels found, no chart, no metric, and the rest of
    the page is rendered. *)
Example forecast_without_predicted_sample :
  snd (Samples.run_sample
         (Samples.folder_with Samples.aapl_csv Samples.forecast_no_predicted)
         "Apple (AAPL)" None [])
  = Ok tt /\
  shown_in (Tab 4)
    (fst (Samples.run_sample
            (Samples.folder_with Samples.aapl_csv
               Samples.forecast_no_predicted)
            "Apple (AAPL)" None []))
  = [Subheader "Forecasted vs Real Prices (RNN Model)";
     Error " Forecast file is missing required columns: 'real_close' or 'predicted_close'.";
     Write "Available columns:" ["date"; "real_close"]%string].
Proof.
  repeat split; vm_compute; reflexivity.
Qed.

(** ** What depends on the range, and what does not *)

Lemma agree_bind :
  forall (A B A' B' : Type) (a : result A) (b : result A')
         (k : A -> result B) (k' : A' -> result B'),
    Spec.agree a b ->
    (forall x y, a = Ok x -> b = Ok y -> Spec.agree (k x) (k' y)) ->
    Spec.agree (bind a k) (bind b k').
Proof.
  intros A B A' B' [x|e] [y|e'] k k' H Hk; simpl in *;
    try contradiction; auto.
Qed.

Lemma get_series_agree :
  forall d1 d2 label,
    columns d1 = columns d2 ->
    Spec.agree (get_series d1 label) (get_series d2 label).
Proof.
  intros d1 d2 label H. unfold get_series.
  rewrite (column_index_columns d1 d2 label H).
  destruct (column_index d2 label); simpl; auto.
Qed.

Lemma filter_by_date_columns :
  forall df r d, filter_by_date df r = Ok d -> columns d = columns df.
Proof.
  intros df r d. unfold filter_by_date.
  destruct (get_series df "date"); simpl; [|discriminate].
  destruct (series_ge a (Time.of_date (fst r))); simpl; [|discriminate].
  destruct (series_le a (Time.of_date (snd r))); simpl; [|discriminate].
  intros H. injection H as <-. reflexivity.
Qed.

Lemma cmp_series_agree :
  forall cmp cmp' s t t',
    Spec.agree (cmp_series cmp s t) (cmp_series cmp' s t').
Proof.
  intros cmp cmp' s t t'. unfold cmp_series.
  destruct (forallb is_time s); simpl; auto.
Qed.

Lemma filter_by_date_agree :
  forall df r1 r2,
    Spec.agree (filter_by_date df r1) (filter_by_date df r2).
Proof.
  intros df r1 r2. unfold filter_by_date, series_ge, series_le.
  destruct (get_series df "date") as [s|e]; simpl; [|reflexivity].
  pose proof (cmp_series_agree Z.geb Z.geb s (Time.of_date (fst r1))
                (Time.of_date (fst r2))) as Hge.
  pose proof (cmp_series_agree Z.leb Z.leb s (Time.of_date (snd r1))
                (Time.of_date (snd r2))) as Hle.
  destruct (cmp_series Z.geb s (Time.of_date (fst r1)));
    destruct (cmp_series Z.geb s (Time.of_date (fst r2)));
    simpl in *; try contradiction; auto.
  destruct (cmp_series Z.leb s (Time.of_date (snd r1)));
    destruct (cmp_series Z.leb s (Time.of_date (snd r2)));
    simpl in *; try contradiction; auto.
Qed.

Lemma px_agree :
  forall kind d1 d2 x y color title labels,
    columns d1 = columns d2 ->
    Spec.agree (Plotly.px kind d1 x y color title labels)
               (Plotly.px kind d2 x y color title labels).
Proof.
  intros kind d1 d2 x y color title labels H. unfold Plotly.px.
  apply agree_bind; [now apply get_series_agree|]. intros _ _ _ _.
  apply agree_bind; [now apply get_series_agree|]. intros _ _ _ _.
  apply agree_bind.
  - destruct color; [now apply get_series_agree | exact I].
  - intros; exact I.
Qed.

(** Breaking a run into its cases. *)
Ltac break_match :=
  match goal with
  | |- context [match ?x with _ => _ end] => destruct x eqn:?
  end.

(** The outcome of a run, its binds unfolded as far as they go. *)
Ltac snd_norm :=
  repeat (progress (rewrite ?snd_mbind; cbn [snd emit lift ret])).

Ltac ui_cases :=
  repeat first
    [ rewrite fst_mbind
    | rewrite snd_mbind
    | progress cbn [fst snd lift emit ret app]
    | break_match ].

Lemma in_container_iff :
  forall c ev, in_container c ev = true <-> fst ev = c.
Proof.
  intros c [c' e]. unfold in_container. simpl.
  destruct c' as [| |n|n|a]; destruct c as [| |m|m|b];
    try (split; [discriminate | intros H; discriminate H]);
    try (split; reflexivity).
  - rewrite Nat.eqb_eq. split; [intros -> | intros H; injection H]; auto.
  - rewrite Nat.eqb_eq. split; [intros -> | intros H; injection H]; auto.
  - rewrite String.eqb_eq. split; [intros -> | intros H; injection H]; auto.
Qed.

Lemma shown_in_elsewhere :
  forall c c' evs, all_in c evs -> c <> c' -> shown_in c' evs = [].
Proof.
  intros c c' evs H Hne. unfold shown_in.
  induction H as [|ev evs Hev _ IH]; simpl; [reflexivity|].
  destruct (in_container c' ev) eqn:E; [|exact IH].
  apply in_container_iff in E. congruence.
Qed.

Lemma shown_in_same :
  forall c evs, all_in c evs -> shown_in c evs = map snd evs.
Proof.
  intros c evs H. unfold shown_in.
  induction H as [|ev evs Hev _ IH]; simpl; [reflexivity|].
  destruct (in_container c ev) eqn:E.
  - simpl. now rewrite IH.
  - apply in_container_iff in Hev. congruence.
Qed.

Ltac all_in_cases :=
  ui_cases; repeat constructor.

Section Views.

Variable to_datetime : list cell -> result (list Time.timestamp).
Variable sort_rows : (row -> Time.timestamp) -> list row -> list row.
Variable fs : string -> file.

Lemma line_view_in : forall d, all_in (Tab 1) (fst (line_view d)).
Proof. intros d. unfold line_view. all_in_cases. Qed.

Lemma bar_view_in : forall d, all_in (Tab 2) (fst (bar_view d)).
Proof. intros d. unfold bar_view. all_in_cases. Qed.

Lemma compare_view_in :
  forall sel r others d,
    all_in (Tab 3)
      (fst (compare_view to_datetime sort_rows fs sel r others d)).
Proof. intros sel r others d. unfold compare_view. all_in_cases. Qed.

Lemma report_mae_in : forall d, all_in (Tab 4) (fst (report_mae d)).
Proof. intros d. unfold report_mae. all_in_cases. Qed.

Lemma forecast_view_in :
  forall symbol, all_in (Tab 4) (fst (forecast_view to_datetime fs symbol)).
Proof.
  intros symbol. unfold forecast_view. ui_cases;
    repeat first
      [ apply Forall_nil
      | apply Forall_cons; [reflexivity|]
      | apply Forall_app; split
      | apply report_mae_in ].
Qed.

Lemma about_view_in :
  forall sel d,
    all_in (Expander " About this Dashboard") (fst (about_view sel d)).
Proof. intros sel d. unfold about_view. all_in_cases. Qed.

End Views.

Section Shown.

Variable to_datetime : list cell -> result (list Time.timestamp).
Variable sort_rows : (row -> Time.timestamp) -> list row -> list row.
Variable fs : string -> file.

(** What the views show in a container, view by view. *)
Lemma views_shown :
  forall c sel symbol others r d,
    shown_in c (fst (views to_datetime sort_rows fs sel symbol others r d))
    = shown_in c
        [(Main, Tabs ["📈 Line Chart"; "📊 Bar Chart"; "🔀 Compare";
                      "📉 Forecast"]%string)]
      ++ shown_in c (fst (line_view d))
      ++ match snd (line_view d) with
         | Raise _ => []
         | Ok _ =>
      shown_in c (fst (bar_view d))
      ++ match snd (bar_view d) with
         | Raise _ => []
         | Ok _ =>
      shown_in c (fst (compare_view to_datetime sort_rows fs sel r others d))
      ++ match snd (compare_view to_datetime sort_rows fs sel r others d) with
         | Raise _ => []
         | Ok _ =>
      shown_in c (fst (forecast_view to_datetime fs symbol))
      ++ match snd (forecast_view to_datetime fs symbol) with
         | Raise _ => []
         | Ok _ =>
      shown_in c (fst (about_view sel d))
      ++ match snd (about_view sel d) with
         | Raise _ => []
         | Ok _ =>
      shown_in c
        [(Main, Markdown "### 📚 Discussion – Tufts Principles in this Dashboard");
         (Main, Markdown discussion)]
         end end end end end.
Proof.
  intros c sel symbol others r d. unfold views.
  rewrite fst_mbind. cbn [fst snd emit]. rewrite shown_in_app. f_equal.
  rewrite fst_mbind, shown_in_app. f_equal.
  destruct (snd (line_view d)) as [[]|e]; [|reflexivity].
  rewrite fst_mbind, shown_in_app. f_equal.
  destruct (snd (bar_view d)) as [[]|e]; [|reflexivity].
  rewrite fst_mbind, shown_in_app. f_equal.
  destruct (snd (compare_view to_datetime sort_rows fs sel r others d))
    as [[]|e]; [|reflexivity].
  rewrite fst_mbind, shown_in_app. f_equal.
  destruct (snd (forecast_view to_datetime fs symbol)) as [[]|e];
    [|reflexivity].
  rewrite fst_mbind, shown_in_app. f_equal.
  destruct (snd (about_view sel d)) as [[]|e]; reflexivity.
Qed.

Lemma views_line_tab :
  forall sel symbol others r d,
    shown_in (Tab 1)
      (fst (views to_datetime sort_rows fs sel symbol others r d))
    = map snd (fst (line_view d)).
Proof.
  intros sel symbol others r d. rewrite views_shown.
  rewrite (shown_in_same (Tab 1) _ (line_view_in d)).
  rewrite (shown_in_elsewhere (Tab 2) (Tab 1) _ (bar_view_in d))
    by discriminate.
  rewrite (shown_in_elsewhere (Tab 3) (Tab 1) _
             (compare_view_in to_datetime sort_rows fs sel r others d))
    by discriminate.
  rewrite (shown_in_elsewhere (Tab 4) (Tab 1) _
             (forecast_view_in to_datetime fs symbol)) by discriminate.
  rewrite (shown_in_elsewhere (Expander " About this Dashboard") (Tab 1) _
             (about_view_in sel d)) by discriminate.
  change (shown_in (Tab 1) [(Main, Tabs _)]) with (@nil element).
  cbn [app].
  repeat break_match; cbn [app]; now rewrite ?app_nil_r.
Qed.

Lemma views_compare_tab :
  forall sel symbol others r d,
    shown_in (Tab 3)
      (fst (views to_datetime sort_rows fs sel symbol others r d))
    = match snd (line_view d), snd (bar_view d) with
      | Ok _, Ok _ =>
          map snd
            (fst (compare_view to_datetime sort_rows fs sel r others d))
      | _, _ => []
      end.
Proof.
  intros sel symbol others r d. rewrite views_shown.
  rewrite (shown_in_elsewhere (Tab 1) (Tab 3) _ (line_view_in d))
    by discriminate.
  rewrite (shown_in_elsewhere (Tab 2) (Tab 3) _ (bar_view_in d))
    by discriminate.
  rewrite (shown_in_same (Tab 3) _
             (compare_view_in to_datetime sort_rows fs sel r others d)).
  rewrite (shown_in_elsewhere (Tab 4) (Tab 3) _
             (forecast_view_in to_datetime fs symbol)) by discriminate.
  rewrite (shown_in_elsewhere (Expander " About this Dashboard") (Tab 3) _
             (about_view_in sel d)) by discriminate.
  change (shown_in (Tab 3) [(Main, Tabs _)]) with (@nil element).
  cbn [app].
  repeat break_match; cbn [app]; now rewrite ?app_nil_r.
Qed.

End Shown.

Section Ranges.

Variable to_datetime : list cell -> result (list Time.timestamp).
Variable sort_rows : (row -> Time.timestamp) -> list row -> list row.
Variable fs : string -> file.

Lemma line_view_agree :
  forall d1 d2,
    columns d1 = columns d2 ->
    Spec.agree (snd (line_view d1)) (snd (line_view d2)).
Proof.
  intros d1 d2 H. unfold line_view. snd_norm.
  pose proof (px_agree Plotly.LineChart d1 d2 "date" "close" None
                (Some "Closing Price Over Time"%string) [] H) as Hpx.
  destruct (Plotly.px Plotly.LineChart d1 _ _ _ _ _);
    destruct (Plotly.px Plotly.LineChart d2 _ _ _ _ _);
    simpl in *; auto.
Qed.

Lemma bar_view_agree :
  forall d1 d2,
    columns d1 = columns d2 ->
    Spec.agree (snd (bar_view d1)) (snd (bar_view d2)).
Proof.
  intros d1 d2 H. unfold bar_view. snd_norm.
  pose proof (px_agree Plotly.BarChart d1 d2 "date" "close" None
                (Some "Closing Price Bar Chart"%string) [] H) as Hpx.
  destruct (Plotly.px Plotly.BarChart d1 _ _ _ _ _);
    destruct (Plotly.px Plotly.BarChart d2 _ _ _ _ _);
    simpl in *; auto.
Qed.

Lemma add_other_agree :
  forall r1 r2 f1 f2 other,
    Spec.agree (add_other to_datetime sort_rows fs r1 f1 other)
               (add_other to_datetime sort_rows fs r2 f2 other).
Proof.
  intros r1 r2 f1 f2 other. unfold add_other.
  destruct (dict_get files other) as [name|e]; simpl; [|reflexivity].
  destruct (load_prices to_datetime sort_rows fs name) as [[odf|]|e];
    simpl; try reflexivity; try exact I.
  pose proof (filter_by_date_agree odf r1 r2) as Hf.
  destruct (filter_by_date odf r1) as [g1|e1] eqn:E1;
    destruct (filter_by_date odf r2) as [g2|e2] eqn:E2;
    simpl in *; try contradiction; auto.
  assert (Hc : columns g1 = columns g2).
  { rewrite (filter_by_date_columns odf r1 g1 E1).
    now rewrite (filter_by_date_columns odf r2 g2 E2). }
  apply agree_bind; [now apply get_series_agree|]. intros x1 x2 _ _.
  apply agree_bind; [now apply get_series_agree|]. intros; exact I.
Qed.

Lemma add_others_agree :
  forall others r1 r2 f1 f2,
    Spec.agree (add_others to_datetime sort_rows fs r1 f1 others)
               (add_others to_datetime sort_rows fs r2 f2 others).
Proof.
  induction others as [|other others IH]; intros r1 r2 f1 f2; simpl.
  - exact I.
  - apply agree_bind; [apply add_other_agree|].
    intros; apply IH.
Qed.

Lemma compare_view_agree :
  forall sel r1 r2 others d1 d2,
    columns d1 = columns d2 ->
    Spec.agree
      (snd (compare_view to_datetime sort_rows fs sel r1 others d1))
      (snd (compare_view to_datetime sort_rows fs sel r2 others d2)).
Proof.
  intros sel r1 r2 others d1 d2 H. unfold compare_view. snd_norm.
  pose proof (px_agree Plotly.LineChart d1 d2 "date" "close" None None
                [("close"%string, sel)] H) as Hpx.
  destruct (Plotly.px Plotly.LineChart d1 _ _ _ _ _) as [g1|e1];
    destruct (Plotly.px Plotly.LineChart d2 _ _ _ _ _) as [g2|e2];
    simpl in Hpx; try contradiction; [|exact Hpx].
  snd_norm.
  pose proof (add_others_agree others r1 r2 g1 g2) as Ha.
  destruct (add_others to_datetime sort_rows fs r1 g1 others);
    destruct (add_others to_datetime sort_rows fs r2 g2 others);
    simpl in *; auto.
Qed.

(** What the views show in the forecast tab: the forecast view of the
    symbol, provided the three tabs before it ended normally. *)
Lemma views_forecast_tab :
  forall sel symbol others r d,
    shown_in (Tab 4)
      (fst (views to_datetime sort_rows fs sel symbol others r d))
    = match snd (line_view d), snd (bar_view d),
            snd (compare_view to_datetime sort_rows fs sel r others d) with
      | Ok _, Ok _, Ok _ =>
          map snd (fst (forecast_view to_datetime fs symbol))
      | _, _, _ => []
      end.
Proof.
  intros sel symbol others r d. rewrite views_shown.
  rewrite (shown_in_elsewhere (Tab 1) (Tab 4) _ (line_view_in d))
    by discriminate.
  rewrite (shown_in_elsewhere (Tab 2) (Tab 4) _ (bar_view_in d))
    by discriminate.
  rewrite (shown_in_elsewhere (Tab 3) (Tab 4) _
             (compare_view_in to_datetime sort_rows fs sel r others d))
    by discriminate.
  rewrite (shown_in_same (Tab 4) _ (forecast_view_in to_datetime fs symbol)).
  rewrite (shown_in_elsewhere (Expander " About this Dashboard") (Tab 4) _
             (about_view_in sel d)) by discriminate.
  change (shown_in (Tab 4) [(Main, Tabs _)]) with (@nil element).
  cbn [app].
  repeat break_match; cbn [app]; now rewrite ?app_nil_r.
Qed.

End Ranges.

Section Prelude.

Variable to_datetime : list cell -> result (list Time.timestamp).
Variable sort_rows : (row -> Time.timestamp) -> list row -> list row.
Variable fs : string -> file.

(** Nothing of the prelude goes to a tab. *)
Lemma prelude_no_tab :
  forall sel picked n,
    shown_in (Tab n) (fst (prelude to_datetime sort_rows fs sel picked)) = [].
Proof.
  intros sel picked n.
  unfold prelude, header, st_image, select_range, st_slider.
  ui_cases; reflexivity.
Qed.

Lemma run_tab :
  forall sel picked others n,
    shown_in (Tab n) (fst (run to_datetime sort_rows fs sel picked others))
    = match snd (prelude to_datetime sort_rows fs sel picked) with
      | Ok (Some (symbol, r, d)) =>
          shown_in (Tab n)
            (fst (views to_datetime sort_rows fs sel symbol others r d))
      | _ => []
      end.
Proof.
  intros sel picked others n. unfold run.
  rewrite fst_mbind, shown_in_app, prelude_no_tab. cbn [app].
  destruct (snd (prelude to_datetime sort_rows fs sel picked))
    as [[[[symbol r] d]|]|e]; reflexivity.
Qed.

(** The slider and the filter end alike for every range, and a filtered
    frame has the columns of the series. *)
Lemma select_range_agree :
  forall df p1 p2,
    match snd (select_range df p1), snd (select_range df p2) with
    | Ok (_, d1), Ok (_, d2) =>
        columns d1 = columns df /\ columns d2 = columns df
    | Raise e1, Raise e2 => e1 = e2
    | _, _ => False
    end.
Proof.
  intros df p1 p2. unfold select_range, st_slider. snd_norm.
  destruct (get_series df "date") as [s|e]; [|reflexivity].
  destruct (option_map Time.date (series_min s)) as [lo|];
    [|snd_norm; reflexivity].
  destruct (option_map Time.date (series_max s)) as [hi|];
    [|snd_norm; reflexivity].
  destruct (lo <? hi)%Z; [|snd_norm; reflexivity].
  snd_norm.
  set (r1 := match p1 with Some v => v | None => (lo, hi) end).
  set (r2 := match p2 with Some v => v | None => (lo, hi) end).
  pose proof (filter_by_date_agree df r1 r2) as Hf.
  destruct (filter_by_date df r1) as [g1|e1] eqn:E1;
    destruct (filter_by_date df r2) as [g2|e2] eqn:E2;
    simpl in Hf; try contradiction; [|exact Hf].
  split; eapply filter_by_date_columns; eassumption.
Qed.

Lemma prelude_agree :
  forall sel p1 p2,
    match snd (prelude to_datetime sort_rows fs sel p1),
          snd (prelude to_datetime sort_rows fs sel p2) with
    | Ok (Some (s1, _, d1)), Ok (Some (s2, _, d2)) =>
        s1 = s2 /\ columns d1 = columns d2
    | Ok None, Ok None => True
    | Raise e1, Raise e2 => e1 = e2
    | _, _ => False
    end.
Proof.
  intros sel p1 p2. unfold prelude. snd_norm.
  destruct (dict_get files sel) as [name|e]; [|reflexivity]. snd_norm.
  destruct (read_csv fs name) as [tbl|e]; [|reflexivity]. snd_norm.
  destruct (has_price_columns (normalize_columns tbl)); [|exact I].
  snd_norm.
  destruct (parse_dates to_datetime (normalize_columns tbl) "date")
    as [df|e]; [|reflexivity]. snd_norm.
  destruct (sort_values sort_rows df "date") as [df'|e]; [|reflexivity].
  snd_norm.
  destruct (symbol_of name) as [symbol|e]; [|reflexivity]. snd_norm.
  destruct (snd (header fs sel symbol)) as [[]|e]; [|reflexivity].
  snd_norm.
  pose proof (select_range_agree df' p1 p2) as Hs.
  destruct (snd (select_range df' p1)) as [[r1 d1]|e1];
    destruct (snd (select_range df' p2)) as [[r2 d2]|e2];
    try contradiction; [|exact Hs].
  cbn [fst snd]. split; [reflexivity|].
  destruct Hs as [H1 H2]. congruence.
Qed.

End Prelude.

Lemma prelude_symbol :
  forall to_datetime sort_rows fs sel picked symbol r d,
    snd (prelude to_datetime sort_rows fs sel picked)
    = Ok (Some (symbol, r, d)) ->
    exists name,
      dict_get files sel = Ok name /\ symbol_of name = Ok symbol.
Proof.
  intros to_datetime sort_rows fs sel picked symbol r d.
  unfold prelude. snd_norm.
  destruct (dict_get files sel) as [name|e]; [|discriminate]. snd_norm.
  destruct (read_csv fs name) as [tbl|e]; [|discriminate]. snd_norm.
  destruct (has_price_columns (normalize_columns tbl)); [|discriminate].
  snd_norm.
  destruct (parse_dates to_datetime (normalize_columns tbl) "date")
    as [df|e]; [|discriminate]. snd_norm.
  destruct (sort_values sort_rows df "date") as [df'|e]; [|discriminate].
  snd_norm.
  destruct (symbol_of name) as [symbol'|e] eqn:Hsym; [|discriminate].
  snd_norm.
  destruct (snd (header fs sel symbol')) as [[]|e]; [|discriminate].
  snd_norm.
  destruct (snd (select_range df' picked)) as [[r' d']|e]; [|discriminate].
  cbn [fst snd]. intros H. injection H as -> _ _.
  exists name. split; [reflexivity | exact Hsym].
Qed.

(** C10.  For every data folder, company and comparison selection, and
    every two settings [p1], [p2] of the slider, the run shows the same
    elements in the forecast tab: the chart, the table and the metric, or
    the warning, or the error.  They are either none (the run stopped before
    the forecast view, for both settings alike) or the elements of the
    forecast view of the company's ticker symbol, a function of the data
    folder and the symbol that is given neither the range nor the filtered
    frame. *)
Theorem forecast_view_ignores_range :
  forall (to_datetime : list cell -> result (list Time.timestamp))
         (sort_rows : (row -> Time.timestamp) -> list row -> list row)
         (fs : string -> file) (selected_company : string)
         (others : list string) (p1 p2 : option (Z * Z)),
    shown_in (Tab 4)
      (fst (run to_datetime sort_rows fs selected_company p1 others))
    = shown_in (Tab 4)
        (fst (run to_datetime sort_rows fs selected_company p2 others)) /\
    (shown_in (Tab 4)
       (fst (run to_datetime sort_rows fs selected_company p1 others)) = []
     \/
     exists name symbol,
       dict_get files selected_company = Ok name /\
       symbol_of name = Ok symbol /\
       shown_in (Tab 4)
         (fst (run to_datetime sort_rows fs selected_company p1 others))
       = map snd (fst (forecast_view to_datetime fs symbol))).
Proof.
  intros to_datetime sort_rows fs sel others p1 p2.
  rewrite !run_tab.
  pose proof (prelude_agree to_datetime sort_rows fs sel p1 p2) as Hp.
  pose proof (prelude_symbol to_datetime sort_rows fs sel p1) as Hs.
  destruct (snd (prelude to_datetime sort_rows fs sel p1))
    as [[[[s1 r1] d1]|]|e1];
    destruct (snd (prelude to_datetime sort_rows fs sel p2))
      as [[[[s2 r2] d2]|]|e2];
    try contradiction; try (split; [reflexivity | left; reflexivity]).
  destruct Hp as [<- Hc].
  rewrite !views_forecast_tab.
  pose proof (line_view_agree d1 d2 Hc) as Hl.
  pose proof (bar_view_agree d1 d2 Hc) as Hb.
  pose proof (compare_view_agree to_datetime sort_rows fs sel r1 r2 others
                d1 d2 Hc) as Hcmp.
  destruct (Hs s1 r1 d1 eq_refl) as [name [Hn Hsym]].
  destruct (snd (line_view d1)) as [[]|]; destruct (snd (line_view d2))
    as [[]|]; simpl in Hl; try contradiction;
    try (split; [reflexivity | left; reflexivity]).
  destruct (snd (bar_view d1)) as [[]|]; destruct (snd (bar_view d2))
    as [[]|]; simpl in Hb; try contradiction;
    try (split; [reflexivity | left; reflexivity]).
  destruct (snd (compare_view to_datetime sort_rows fs sel r1 others d1))
    as [[]|];
    destruct (snd (compare_view to_datetime sort_rows fs sel r2 others d2))
      as [[]|]; simpl in Hcmp; try contradiction;
    try (split; [reflexivity | left; reflexivity]).
  split; [reflexivity|]. right. exists name, s1. repeat split; assumption.
Qed.

(** Two settings of the slider on the sample folder: the forecast tab shows
    the same six elements, while the line chart changes. *)
Example forecast_tab_sample :
  shown_in (Tab 4)
    (fst (Samples.run_sample Samples.folder "Apple (AAPL)" None []))
  = shown_in (Tab 4)
      (fst (Samples.run_sample Samples.folder "Apple (AAPL)"
              (Some (Samples.day 2024 1 3, Samples.day 2024 1 4)) [])) /\
  List.length
    (shown_in (Tab 4)
       (fst (Samples.run_sample Samples.folder "Apple (AAPL)" None [])))
  = 6%nat /\
  shown_in (Tab 1)
    (fst (Samples.run_sample Samples.folder "Apple (AAPL)" None []))
  <> shown_in (Tab 1)
       (fst (Samples.run_sample Samples.folder "Apple (AAPL)"
               (Some (Samples.day 2024 1 3, Samples.day 2024 1 4)) [])).
Proof.
  split; [vm_compute; reflexivity|]. split; [vm_compute; reflexivity|].
  vm_compute. intros H. discriminate H.
Qed.


(** ** The comparison view *)

Lemma px_Ok :
  forall kind d x y color title labels fig,
    Plotly.px kind d x y color title labels = Ok fig ->
    fig = {| Plotly.fig_kind := kind; Plotly.fig_frame := d;
             Plotly.fig_x := x; Plotly.fig_y := y;
             Plotly.fig_color := color; Plotly.fig_title := title;
             Plotly.fig_labels := labels; Plotly.fig_mode := None;
             Plotly.fig_scatters := [] |}.
Proof.
  intros kind d x y color title labels fig. unfold Plotly.px.
  destruct (get_series d x); simpl; [|discriminate].
  destruct (get_series d y); simpl; [|discriminate].
  destruct color as [c|]; simpl.
  - destruct (get_series d c); simpl; [|discriminate].
    intros H. now injection H as <-.
  - intros H. now injection H as <-.
Qed.

Lemma same_plot_plotted :
  forall f g,
    Spec.same_plot f g ->
    Plotly.plotted_x f = Plotly.plotted_x g /\
    Plotly.plotted_y f = Plotly.plotted_y g /\
    Plotly.x_bounds f = Plotly.x_bounds g /\
    Plotly.y_bounds f = Plotly.y_bounds g.
Proof.
  intros f g (Hk & Hf & Hx & Hy & Hc & Hm & Hs).
  assert (Px : Plotly.plotted_x f = Plotly.plotted_x g).
  { unfold Plotly.plotted_x. now rewrite Hf, Hx, Hs. }
  assert (Py : Plotly.plotted_y f = Plotly.plotted_y g).
  { unfold Plotly.plotted_y. now rewrite Hf, Hy, Hs. }
  unfold Plotly.x_bounds, Plotly.y_bounds. rewrite Px, Py. auto.
Qed.

Section CompareShown.

Variable to_datetime : list cell -> result (list Time.timestamp).
Variable sort_rows : (row -> Time.timestamp) -> list row -> list row.
Variable fs : string -> file.

Lemma compare_view_shown :
  forall sel r others d,
    map snd (fst (compare_view to_datetime sort_rows fs sel r others d))
    = [Subheader "Compare with Other Companies";
       Multiselect "Select companies to compare" (compare_options sel)]
      ++ match Plotly.px Plotly.LineChart d "date" "close" None None
                 [("close"%string, sel)] with
         | Ok fig =>
             match add_others to_datetime sort_rows fs r fig others with
             | Ok fig' => [PlotlyChart fig']
             | Raise _ => []
             end
         | Raise _ => []
         end.
Proof.
  intros sel r others d. unfold compare_view. ui_cases; reflexivity.
Qed.

End CompareShown.

(** The two views on one filtered frame, nothing ticked: both show a chart
    and the charts plot the same thing, or both stop with the same
    exception before any chart. *)
Lemma comparison_alone_views :
  forall (to_datetime : list cell -> result (list Time.timestamp))
         (sort_rows : (row -> Time.timestamp) -> list row -> list row)
         (fs : string -> file) (sel : string) (r : Z * Z) (d : DataFrame),
    (exists fig1 fig3,
        line_view d
        = ([(Tab 1, Subheader "Interactive Line Chart");
            (Tab 1, PlotlyChart fig1)], Ok tt) /\
        compare_view to_datetime sort_rows fs sel r [] d
        = ([(Tab 3, Subheader "Compare with Other Companies");
            (Tab 3, Multiselect "Select companies to compare"
                      (compare_options sel));
            (Tab 3, PlotlyChart fig3)], Ok tt) /\
        Spec.same_plot fig1 fig3 /\
        fig3 = {| Plotly.fig_kind := Plotly.LineChart;
                  Plotly.fig_frame := d;
                  Plotly.fig_x := "date";
                  Plotly.fig_y := "close";
                  Plotly.fig_color := None;
                  Plotly.fig_title := None;
                  Plotly.fig_labels := [("close"%string, sel)];
                  Plotly.fig_mode := None;
                  Plotly.fig_scatters := [] |})
    \/
    (exists e,
        line_view d
        = ([(Tab 1, Subheader "Interactive Line Chart")], Raise e) /\
        compare_view to_datetime sort_rows fs sel r [] d
        = ([(Tab 3, Subheader "Compare with Other Companies");
            (Tab 3, Multiselect "Select companies to compare"
                      (compare_options sel))], Raise e)).
Proof.
  intros to_datetime sort_rows fs sel r d.
  unfold line_view, compare_view, Plotly.px.
  destruct (get_series d "date") as [x|e]; cbn [bind].
  - destruct (get_series d "close") as [y|e]; cbn [bind].
    + left. eexists. eexists. ui_step. cbn [add_others]. ui_step.
      split; [reflexivity|]. split; [reflexivity|].
      split; [repeat split | reflexivity].
    + right. exists e. ui_step. split; reflexivity.
  - right. exists e. ui_step. split; reflexivity.
Qed.

(** C7.  For every data folder, company and setting of the slider, when no
    company is ticked in the comparison selector: on every filtered frame
    the line view and the comparison view either both show a chart, and the
    two charts plot the same thing (a line chart of the columns "date" and
    "close" of that frame with no added trace), or both stop with the same
    exception; and in a run, a chart shown in the comparison tab comes with
    a chart in the line tab that plots the same thing, hence with the same
    plotted values and the same bounds on both axes.  (The two figures
    differ in their title and in the label of the price axis, which the
    comparison leaves out.) *)
Theorem comparison_alone_plots_line_data :
  (forall (to_datetime : list cell -> result (list Time.timestamp))
          (sort_rows : (row -> Time.timestamp) -> list row -> list row)
          (fs : string -> file) (selected_company : string) (r : Z * Z)
          (d : DataFrame),
      (exists fig1 fig3,
          line_view d
          = ([(Tab 1, Subheader "Interactive Line Chart");
              (Tab 1, PlotlyChart fig1)], Ok tt) /\
          compare_view to_datetime sort_rows fs selected_company r [] d
          = ([(Tab 3, Subheader "Compare with Other Companies");
              (Tab 3, Multiselect "Select companies to compare"
                        (compare_options selected_company));
              (Tab 3, PlotlyChart fig3)], Ok tt) /\
          Spec.same_plot fig1 fig3 /\
          Plotly.x_bounds fig1 = Plotly.x_bounds fig3 /\
          Plotly.y_bounds fig1 = Plotly.y_bounds fig3)
      \/
      (exists e,
          line_view d
          = ([(Tab 1, Subheader "Interactive Line Chart")], Raise e) /\
          compare_view to_datetime sort_rows fs selected_company r [] d
          = ([(Tab 3, Subheader "Compare with Other Companies");
              (Tab 3, Multiselect "Select companies to compare"
                        (compare_options selected_company))], Raise e))) /\
  (forall (to_datetime : list cell -> result (list Time.timestamp))
          (sort_rows : (row -> Time.timestamp) -> list row -> list row)
          (fs : string -> file) (selected_company : string)
          (picked : option (Z * Z)) (fig3 : Plotly.figure),
      In (PlotlyChart fig3)
         (shown_in (Tab 3)
            (fst (run to_datetime sort_rows fs selected_company picked
                    []))) ->
      exists fig1,
        In (PlotlyChart fig1)
           (shown_in (Tab 1)
              (fst (run to_datetime sort_rows fs selected_company picked
                      [])))
        /\ Spec.same_plot fig1 fig3
        /\ Plotly.fig_kind fig3 = Plotly.LineChart
        /\ Plotly.fig_x fig3 = "date"%string
        /\ Plotly.fig_y fig3 = "close"%string
        /\ Plotly.fig_scatters fig3 = []
        /\ Plotly.plotted_x fig1 = Plotly.plotted_x fig3
        /\ Plotly.plotted_y fig1 = Plotly.plotted_y fig3
        /\ Plotly.x_bounds fig1 = Plotly.x_bounds fig3
        /\ Plotly.y_bounds fig1 = Plotly.y_bounds fig3).
Proof.
  split.
  { intros to_datetime sort_rows fs sel r d.
    destruct (comparison_alone_views to_datetime sort_rows fs sel r d)
      as [(fig1 & fig3 & Hl & Hc & Hs & _) | (e & Hl & Hc)].
    - left. exists fig1, fig3.
      destruct (same_plot_plotted fig1 fig3 Hs) as (_ & _ & Hx & Hy).
      repeat split; try assumption; apply Hs.
    - right. exists e. split; assumption. }
  intros to_datetime sort_rows fs sel picked fig3.
  rewrite !run_tab.
  destruct (snd (prelude to_datetime sort_rows fs sel picked))
    as [[[[symbol r] d]|]|e]; try (intros []).
  rewrite views_compare_tab, views_line_tab.
  destruct (comparison_alone_views to_datetime sort_rows fs sel r d)
    as [(fig1 & g3 & Hl & Hc & Hs & Hg) | (e & Hl & Hc)].
  - rewrite Hl, Hc. cbn [fst snd map].
    destruct (snd (bar_view d)) as [[]|]; [|intros []].
    intros [H|[H|[H|[]]]]; try discriminate H.
    injection H as <-.
    exists fig1. split; [right; left; reflexivity|].
    split; [exact Hs|].
    destruct (same_plot_plotted fig1 g3 Hs) as (Px & Py & Bx & By).
    rewrite Hg at 1 2 3 4. cbn [Plotly.fig_kind Plotly.fig_x Plotly.fig_y
                                Plotly.fig_scatters].
    repeat split; assumption.
  - rewrite Hl. cbn [snd]. intros [].
Qed.

Lemma comparison_alone_plots_line_data_witness :
  exists fig1,
    In (PlotlyChart fig1)
       (shown_in (Tab 1)
          (fst (Samples.run_sample Samples.folder "Apple (AAPL)" None [])))
    /\ Spec.same_plot fig1 Samples.aapl_compare_fig
    /\ Plotly.fig_kind Samples.aapl_compare_fig = Plotly.LineChart
    /\ Plotly.fig_x Samples.aapl_compare_fig = "date"%string
    /\ Plotly.fig_y Samples.aapl_compare_fig = "close"%string
    /\ Plotly.fig_scatters Samples.aapl_compare_fig = []
    /\ Plotly.plotted_x fig1 = Plotly.plotted_x Samples.aapl_compare_fig
    /\ Plotly.plotted_y fig1 = Plotly.plotted_y Samples.aapl_compare_fig
    /\ Plotly.x_bounds fig1 = Plotly.x_bounds Samples.aapl_compare_fig
    /\ Plotly.y_bounds fig1 = Plotly.y_bounds Samples.aapl_compare_fig.
Proof.
  apply (proj2 comparison_alone_plots_line_data
           iso_to_datetime insertion_sort
           Samples.folder "Apple (AAPL)"%string None
           Samples.aapl_compare_fig).
  vm_compute. right. right. left. reflexivity.
Defined.

(** ** The overlay of the companies compared with *)

Lemma compare_options_spec :
  forall sel k,
    In k (compare_options sel) <-> In k (keys files) /\ k <> sel.
Proof.
  intros sel k. unfold compare_options. rewrite filter_In.
  rewrite negb_true_iff, String.eqb_neq. tauto.
Qed.

Section Overlay.

Variable to_datetime : list cell -> result (list Time.timestamp).
Variable sort_rows : (row -> Time.timestamp) -> list row -> list row.
Variable fs : string -> file.

Lemma add_other_overlay :
  forall r fig other fig',
    add_other to_datetime sort_rows fs r fig other = Ok fig' ->
    (exists name df filtered x y,
        dict_get files other = Ok name /\
        load_prices to_datetime sort_rows fs name = Ok (Some df) /\
        filter_by_date df r = Ok filtered /\
        get_series filtered "date" = Ok x /\
        get_series filtered "close" = Ok y /\
        fig' = Plotly.add_scatter fig x y "lines" other)
    \/
    (exists name,
        dict_get files other = Ok name /\
        load_prices to_datetime sort_rows fs name = Ok None /\
        fig' = fig).
Proof.
  intros r fig other fig'. unfold add_other.
  destruct (dict_get files other) as [name|e] eqn:Hn; simpl;
    [|discriminate].
  destruct (load_prices to_datetime sort_rows fs name) as [[df|]|e] eqn:Hl;
    simpl; try discriminate.
  - destruct (filter_by_date df r) as [filtered|e] eqn:Hf; simpl;
      [|discriminate].
    destruct (get_series filtered "date") as [x|e] eqn:Hx; simpl;
      [|discriminate].
    destruct (get_series filtered "close") as [y|e] eqn:Hy; simpl;
      [|discriminate].
    intros H. injection H as <-. left.
    exists name, df, filtered, x, y.
    repeat split; first [assumption | reflexivity].
  - intros H. injection H as <-. right. exists name.
    repeat split; first [assumption | reflexivity].
Qed.

Lemma add_others_overlays :
  forall others r fig fig',
    add_others to_datetime sort_rows fs r fig others = Ok fig' ->
    exists traces,
      Spec.overlays (load_prices to_datetime sort_rows fs) r others traces /\
      fig' = {| Plotly.fig_kind := Plotly.fig_kind fig;
                Plotly.fig_frame := Plotly.fig_frame fig;
                Plotly.fig_x := Plotly.fig_x fig;
                Plotly.fig_y := Plotly.fig_y fig;
                Plotly.fig_color := Plotly.fig_color fig;
                Plotly.fig_title := Plotly.fig_title fig;
                Plotly.fig_labels := Plotly.fig_labels fig;
                Plotly.fig_mode := Plotly.fig_mode fig;
                Plotly.fig_scatters := Plotly.fig_scatters fig ++ traces |}.
Proof.
  induction others as [|other others IH]; intros r fig fig'; simpl.
  - intros H. injection H as <-. exists []. split; [constructor|].
    rewrite app_nil_r. now destruct fig.
  - destruct (add_other to_datetime sort_rows fs r fig other)
      as [fig1|e] eqn:E1; simpl; [|discriminate].
    intros H. destruct (IH r fig1 fig' H) as [traces [Ho ->]].
    destruct (add_other_overlay r fig other fig1 E1)
      as [(name & df & filtered & x & y & Hn & Hl & Hf & Hx & Hy & ->)
         |(name & Hn & Hl & ->)].
    + exists (Plotly.mkScatter x y "lines" other :: traces). split.
      * econstructor; eassumption.
      * simpl. now rewrite <- app_assoc.
    + exists traces. split; [|reflexivity].
      econstructor; eassumption.
Qed.

Lemma add_others_complete :
  forall others r traces,
    Spec.overlays (load_prices to_datetime sort_rows fs) r others traces ->
    forall fig,
      add_others to_datetime sort_rows fs r fig others
      = Ok {| Plotly.fig_kind := Plotly.fig_kind fig;
              Plotly.fig_frame := Plotly.fig_frame fig;
              Plotly.fig_x := Plotly.fig_x fig;
              Plotly.fig_y := Plotly.fig_y fig;
              Plotly.fig_color := Plotly.fig_color fig;
              Plotly.fig_title := Plotly.fig_title fig;
              Plotly.fig_labels := Plotly.fig_labels fig;
              Plotly.fig_mode := Plotly.fig_mode fig;
              Plotly.fig_scatters := Plotly.fig_scatters fig ++ traces |}.
Proof.
  intros others r traces H.
  induction H as [|other others name df filtered x y traces
                    Hn Hl Hf Hx Hy _ IH
                  |other others name traces Hn Hl _ IH]; intros fig.
  - simpl. rewrite app_nil_r. now destruct fig.
  - cbn [add_others]. unfold add_other at 1.
    rewrite Hn. cbn [bind]. rewrite Hl. cbn [bind].
    rewrite Hf. cbn [bind]. rewrite Hx. cbn [bind]. rewrite Hy. cbn [bind].
    rewrite IH. simpl. now rewrite <- app_assoc.
  - cbn [add_others]. unfold add_other at 1.
    rewrite Hn. cbn [bind]. rewrite Hl. cbn [bind]. apply IH.
Qed.

(** The prelude filters the series of the company chosen by the range it
    returns. *)
Lemma prelude_filtered :
  forall sel picked symbol r d,
    snd (prelude to_datetime sort_rows fs sel picked)
    = Ok (Some (symbol, r, d)) ->
    exists name df,
      dict_get files sel = Ok name /\
      load_prices to_datetime sort_rows fs name = Ok (Some df) /\
      filter_by_date df r = Ok d.
Proof.
  intros sel picked symbol r d. unfold prelude. snd_norm.
  destruct (dict_get files sel) as [name|e]; [|discriminate]. snd_norm.
  destruct (read_csv fs name) as [tbl|e] eqn:Hr; [|discriminate]. snd_norm.
  destruct (has_price_columns (normalize_columns tbl)) eqn:Hh;
    [|discriminate].
  snd_norm.
  destruct (parse_dates to_datetime (normalize_columns tbl) "date")
    as [df|e] eqn:Hp; [|discriminate]. snd_norm.
  destruct (sort_values sort_rows df "date") as [df'|e] eqn:Hs;
    [|discriminate].
  snd_norm.
  destruct (symbol_of name) as [symbol'|e]; [|discriminate]. snd_norm.
  destruct (snd (header fs sel symbol')) as [[]|e]; [|discriminate].
  snd_norm.
  unfold select_range, st_slider. snd_norm.
  destruct (get_series df' "date") as [s|e]; [|discriminate].
  destruct (option_map Time.date (series_min s)) as [lo|];
    [|snd_norm; discriminate].
  destruct (option_map Time.date (series_max s)) as [hi|];
    [|snd_norm; discriminate].
  destruct (lo <? hi)%Z; [|snd_norm; discriminate].
  snd_norm.
  match goal with
  | |- context [filter_by_date df' ?v] =>
      destruct (filter_by_date df' v) as [g|e] eqn:Ef; [|discriminate]
  end.
  cbn [fst snd]. intros H. injection H as _ <- <-.
  exists name, df'. split; [reflexivity|]. split; [|exact Ef].
  unfold load_prices. rewrite Hr. cbn [bind]. rewrite Hh, Hp. cbn [bind].
  rewrite Hs. reflexivity.
Qed.

End Overlay.

(** C8.  The comparison selector offers the companies of the table other
    than the one chosen, so never the one chosen.  When the comparison tab
    shows its chart, the chart is drawn on the series of the company chosen
    filtered by the range [r] of the slider, and its added traces are, for
    the companies ticked and in their order: for a company whose file has
    the "date" and "close" columns, the file loaded by the loader
    (normalised, dates parsed, sorted), filtered by the same range [r], as a
    line trace under the company's name; for a company whose file lacks one
    of the two columns (the loader's answer is [None] exactly then),
    nothing.  The tab then shows its heading, the selector and the chart,
    and no error or warning.  Conversely, the
    view does show that chart and ends normally whenever the two columns of
    the filtered frame can be plotted and every company ticked either loads
    and filters or lacks one of the two columns. *)
Theorem comparison_overlays_companies :
  (forall sel k,
      In k (compare_options sel) <-> In k (keys files) /\ k <> sel) /\
  (forall sel, ~ In sel (compare_options sel)) /\
  (forall (to_datetime : list cell -> result (list Time.timestamp))
          (sort_rows : (row -> Time.timestamp) -> list row -> list row)
          (fs : string -> file) (path : string),
      load_prices to_datetime sort_rows fs path = Ok None <->
      exists tbl,
        fs path = Csv tbl /\
        (~ In "date"%string (map normalize_label (columns tbl)) \/
         ~ In "close"%string (map normalize_label (columns tbl)))) /\
  (forall (to_datetime : list cell -> result (list Time.timestamp))
          (sort_rows : (row -> Time.timestamp) -> list row -> list row)
          (fs : string -> file) (selected_company : string)
          (picked : option (Z * Z)) (others : list string)
          (fig : Plotly.figure),
      In (PlotlyChart fig)
         (shown_in (Tab 3)
            (fst (run to_datetime sort_rows fs selected_company picked
                    others))) ->
      exists name df r traces,
        dict_get files selected_company = Ok name /\
        load_prices to_datetime sort_rows fs name = Ok (Some df) /\
        filter_by_date df r = Ok (Plotly.fig_frame fig) /\
        Spec.overlays (load_prices to_datetime sort_rows fs) r others
          traces /\
        Plotly.fig_scatters fig = traces /\
        shown_in (Tab 3)
          (fst (run to_datetime sort_rows fs selected_company picked others))
        = [Subheader "Compare with Other Companies";
           Multiselect "Select companies to compare"
             (compare_options selected_company);
           PlotlyChart fig]) /\
  (forall (to_datetime : list cell -> result (list Time.timestamp))
          (sort_rows : (row -> Time.timestamp) -> list row -> list row)
          (fs : string -> file) (selected_company : string)
          (r : Z * Z) (others : list string) (d : DataFrame)
          (g : Plotly.figure) (traces : list Plotly.scatter),
      Plotly.px Plotly.LineChart d "date" "close" None None
        [("close"%string, selected_company)] = Ok g ->
      Spec.overlays (load_prices to_datetime sort_rows fs) r others traces ->
      compare_view to_datetime sort_rows fs selected_company r others d
      = ([(Tab 3, Subheader "Compare with Other Companies");
          (Tab 3, Multiselect "Select companies to compare"
                    (compare_options selected_company));
          (Tab 3, PlotlyChart
                    {| Plotly.fig_kind := Plotly.LineChart;
                       Plotly.fig_frame := d;
                       Plotly.fig_x := "date";
                       Plotly.fig_y := "close";
                       Plotly.fig_color := None;
                       Plotly.fig_title := None;
                       Plotly.fig_labels :=
                         [("close"%string, selected_company)];
                       Plotly.fig_mode := None;
                       Plotly.fig_scatters := traces |})],
         Ok tt)).
Proof.
  split; [exact compare_options_spec|]. split.
  { intros sel H. apply compare_options_spec in H. now destruct H. }
  split; [exact load_prices_skips|].
  split.
  2:{ intros to_datetime sort_rows fs sel r others d g traces Hpx Ho.
      unfold compare_view. ui_step. rewrite Hpx. ui_step.
      rewrite (add_others_complete to_datetime sort_rows fs others r traces
                 Ho g).
      apply px_Ok in Hpx. subst g. reflexivity. }
  intros to_datetime sort_rows fs sel picked others fig.
  rewrite run_tab.
  destruct (snd (prelude to_datetime sort_rows fs sel picked))
    as [[[[symbol r] d]|]|e] eqn:Hp; try (intros []).
  rewrite views_compare_tab.
  destruct (snd (line_view d)) as [[]|]; [|intros []].
  destruct (snd (bar_view d)) as [[]|]; [|intros []].
  rewrite compare_view_shown.
  destruct (Plotly.px Plotly.LineChart d "date" "close" None None
              [("close"%string, sel)]) as [g|e] eqn:Epx.
  2:{ intros [H|[H|[]]]; discriminate H. }
  destruct (add_others to_datetime sort_rows fs r g others)
    as [g'|e] eqn:Ea.
  2:{ intros [H|[H|[]]]; discriminate H. }
  intros [H|[H|[H|[]]]]; try discriminate H.
  injection H as <-.
  destruct (prelude_filtered to_datetime sort_rows fs sel picked symbol r d
              Hp) as [name [df [Hn [Hl Hf]]]].
  destruct (add_others_overlays to_datetime sort_rows fs others r g g' Ea)
    as [traces [Ho Hg']].
  apply px_Ok in Epx. subst g. simpl in Hg'. subst g'. simpl.
  exists name, df, r, traces. repeat split; assumption.
Qed.

Lemma comparison_overlays_companies_witness :
  exists name df r traces,
    dict_get files "Apple (AAPL)" = Ok name /\
    Samples.load_sample Samples.folder name = Ok (Some df) /\
    filter_by_date df r = Ok (Plotly.fig_frame Samples.aapl_goog_fig) /\
    Spec.overlays (Samples.load_sample Samples.folder) r
      ["Google (GOOG)"; "Amazon (AMZN)"]%string traces /\
    Plotly.fig_scatters Samples.aapl_goog_fig = traces /\
    shown_in (Tab 3)
      (fst (Samples.run_sample Samples.folder "Apple (AAPL)" None
              ["Google (GOOG)"; "Amazon (AMZN)"]%string))
    = [Subheader "Compare with Other Companies";
       Multiselect "Select companies to compare"
         (compare_options "Apple (AAPL)");
       PlotlyChart Samples.aapl_goog_fig].
Proof.
  apply (proj1 (proj2 (proj2 (proj2 comparison_overlays_companies)))
           iso_to_datetime insertion_sort Samples.folder
           "Apple (AAPL)"%string None
           ["Google (GOOG)"; "Amazon (AMZN)"]%string Samples.aapl_goog_fig).
  vm_compute. right. right. left. reflexivity.
Defined.

(** On the sample folder with nothing ticked, the chart of the comparison
    tab and the chart of the line tab are two figures of the same frame:
    the first has no title and labels the price axis with the company, the
    second is titled and keeps the column name. *)
Example comparison_alone_sample :
  shown_in (Tab 3)
    (fst (Samples.run_sample Samples.folder "Apple (AAPL)" None []))
  = [Subheader "Compare with Other Companies";
     Multiselect "Select companies to compare"
       ["Anheuser-Busch (ABNB)"; "Google (GOOG)"; "Amazon (AMZN)";
        "Boeing (BA)"; "American Tower (AMT)"]%string;
     PlotlyChart Samples.aapl_compare_fig] /\
  shown_in (Tab 1)
    (fst (Samples.run_sample Samples.folder "Apple (AAPL)" None []))
  = [Subheader "Interactive Line Chart";
     PlotlyChart
       {| Plotly.fig_kind := Plotly.LineChart;
          Plotly.fig_frame := Plotly.fig_frame Samples.aapl_compare_fig;
          Plotly.fig_x := "date";
          Plotly.fig_y := "close";
          Plotly.fig_color := None;
          Plotly.fig_title := Some "Closing Price Over Time"%string;
          Plotly.fig_labels := [];
          Plotly.fig_mode := None;
          Plotly.fig_scatters := [] |}].
Proof.
  split; vm_compute; reflexivity.
Qed.

(* ================================================================== *)
(** * Further facts *)

(** ** Label normalisation (line 38) *)

Lemma lstrip_fixed :
  forall l,
    match l with
    | [] => True
    | c :: _ => PyStr.is_space c = false
    end ->
    PyStr.lstrip_list l = l.
Proof.
  intros [|c l] H; simpl; [reflexivity|]. now rewrite H.
Qed.

Lemma lstrip_head :
  forall l,
    match PyStr.lstrip_list l with
    | [] => True
    | c :: _ => PyStr.is_space c = false
    end.
Proof.
  induction l as [|c l IH]; simpl; [exact I|].
  destruct (PyStr.is_space c) eqn:E; [exact IH | exact E].
Qed.

Lemma lstrip_idem :
  forall l, PyStr.lstrip_list (PyStr.lstrip_list l) = PyStr.lstrip_list l.
Proof.
  intros l. apply lstrip_fixed, lstrip_head.
Qed.

Lemma lstrip_app_keep :
  forall l c,
    PyStr.is_space c = false ->
    PyStr.lstrip_list (l ++ [c]) = PyStr.lstrip_list l ++ [c].
Proof.
  induction l as [|x l IH]; intros c Hc; simpl.
  - now rewrite Hc.
  - destruct (PyStr.is_space x); [now apply IH | reflexivity].
Qed.

Lemma lstrip_spaces :
  forall ws l,
    forallb PyStr.is_space ws = true ->
    PyStr.lstrip_list (ws ++ l) = PyStr.lstrip_list l.
Proof.
  induction ws as [|w ws IH]; intros l H; simpl in *; [reflexivity|].
  apply andb_true_iff in H. destruct H as [Hw Hws].
  rewrite Hw. now apply IH.
Qed.

(** Stripping the tail leaves the head of a text alone. *)
Lemma rstrip_head :
  forall c l,
    PyStr.is_space c = false ->
    exists u, rev (PyStr.lstrip_list (rev (c :: l))) = c :: u.
Proof.
  intros c l Hc. simpl rev.
  rewrite (lstrip_app_keep (rev l) c Hc), rev_app_distr. simpl.
  now eexists.
Qed.

Lemma strip_list_trimmed :
  forall l, Props.trimmed (PyStr.strip_list l).
Proof.
  intros l. unfold Props.trimmed, Props.clean_head, PyStr.strip_list.
  pose proof (lstrip_head l) as Hh.
  destruct (PyStr.lstrip_list l) as [|c a] eqn:Ea.
  - simpl. split; exact I.
  - destruct (rstrip_head c a Hh) as [u Hu]. split.
    + rewrite Hu. exact Hh.
    + rewrite rev_involutive. apply lstrip_head.
Qed.

Lemma strip_list_fixed :
  forall l, Props.trimmed l -> PyStr.strip_list l = l.
Proof.
  intros l [H1 H2]. unfold PyStr.strip_list.
  now rewrite (lstrip_fixed l H1), (lstrip_fixed (rev l) H2), rev_involutive.
Qed.

(** Stripping removes white space and nothing else. *)
Lemma lstrip_split :
  forall l,
    exists ws,
      forallb PyStr.is_space ws = true /\ l = ws ++ PyStr.lstrip_list l.
Proof.
  induction l as [|c l [ws [Hws Hl]]]; [exists []; split; reflexivity|].
  simpl. destruct (PyStr.is_space c) eqn:E.
  - exists (c :: ws). simpl. rewrite E, Hws. split; [reflexivity|].
    now rewrite <- Hl.
  - exists []. split; reflexivity.
Qed.

Lemma forallb_rev_true :
  forall (A : Type) (f : A -> bool) l,
    forallb f l = true -> forallb f (rev l) = true.
Proof.
  intros A f l H. apply forallb_forall. intros x Hx.
  apply in_rev in Hx. rewrite forallb_forall in H. now apply H.
Qed.

Lemma strip_split :
  forall l,
    exists ws1 ws2,
      forallb PyStr.is_space ws1 = true /\
      forallb PyStr.is_space ws2 = true /\
      l = ws1 ++ PyStr.strip_list l ++ ws2.
Proof.
  intros l. unfold PyStr.strip_list.
  destruct (lstrip_split l) as [ws1 [H1 E1]].
  destruct (lstrip_split (rev (PyStr.lstrip_list l))) as [ws2 [H2 E2]].
  exists ws1, (rev ws2). split; [exact H1|].
  split; [now apply forallb_rev_true|].
  rewrite <- rev_app_distr, <- E2, rev_involutive. exact E1.
Qed.

Lemma lower_char_idem :
  forall c, PyStr.lower_char (PyStr.lower_char c) = PyStr.lower_char c.
Proof.
  intros [[] [] [] [] [] [] [] []]; reflexivity.
Qed.

Lemma lower_char_space :
  forall c, PyStr.is_space (PyStr.lower_char c) = PyStr.is_space c.
Proof.
  intros [[] [] [] [] [] [] [] []]; reflexivity.
Qed.

Lemma lower_char_not_upper :
  forall c, Props.is_upper (PyStr.lower_char c) = false.
Proof.
  intros [[] [] [] [] [] [] [] []]; reflexivity.
Qed.

Lemma lower_list :
  forall s,
    list_ascii_of_string (PyStr.lower s)
    = map PyStr.lower_char (list_ascii_of_string s).
Proof.
  induction s as [|c s IH]; simpl; [reflexivity|]. now rewrite IH.
Qed.

Lemma lstrip_map_lower :
  forall l,
    PyStr.lstrip_list (map PyStr.lower_char l)
    = map PyStr.lower_char (PyStr.lstrip_list l).
Proof.
  induction l as [|c l IH]; simpl; [reflexivity|].
  rewrite lower_char_space. destruct (PyStr.is_space c); [exact IH|].
  reflexivity.
Qed.

Lemma strip_map_lower :
  forall l,
    PyStr.strip_list (map PyStr.lower_char l)
    = map PyStr.lower_char (PyStr.strip_list l).
Proof.
  intros l. unfold PyStr.strip_list.
  now rewrite lstrip_map_lower, <- map_rev, lstrip_map_lower, map_rev.
Qed.

(** The characters of a normalised label. *)
Lemma normalize_label_list :
  forall s,
    list_ascii_of_string (normalize_label s)
    = map PyStr.lower_char (PyStr.strip_list (list_ascii_of_string s)).
Proof.
  intros s. unfold normalize_label, PyStr.strip.
  now rewrite lower_list, list_ascii_of_string_of_list_ascii.
Qed.

Lemma list_ascii_inj :
  forall s t, list_ascii_of_string s = list_ascii_of_string t -> s = t.
Proof.
  intros s t H.
  rewrite <- (string_of_list_ascii_of_string s),
          <- (string_of_list_ascii_of_string t).
  now rewrite H.
Qed.

(** X5.  Normalising a label removes the white space at its two ends,
    and nothing else, and puts its letters in lower case: a label of ASCII
    characters is some white space, a core that neither begins nor ends
    with a white-space character, and some white space, and its normal
    form is the core with each character lower-cased.  For every label the
    normal form neither begins nor ends with a white-space character and
    holds no upper-case ASCII letter, and normalising it again changes
    nothing. *)
Theorem normalize_label_canonical :
  forall s,
    (Forall (fun c => (nat_of_ascii c < 128)%nat) (list_ascii_of_string s) ->
     exists ws1 core ws2,
       list_ascii_of_string s = ws1 ++ core ++ ws2 /\
       forallb PyStr.is_space ws1 = true /\
       forallb PyStr.is_space ws2 = true /\
       Props.trimmed core /\
       list_ascii_of_string (normalize_label s)
       = map PyStr.lower_char core) /\
    Props.trimmed (list_ascii_of_string (normalize_label s)) /\
    Forall (fun c => Props.is_upper c = false)
      (list_ascii_of_string (normalize_label s)) /\
    normalize_label (normalize_label s) = normalize_label s.
Proof.
  intros s. rewrite normalize_label_list.
  set (l := list_ascii_of_string s).
  destruct (strip_list_trimmed l) as [T1 T2].
  split; [|split; [|split]].
  - intros _. destruct (strip_split l) as [ws1 [ws2 [H1 [H2 E]]]].
    exists ws1, (PyStr.strip_list l), ws2.
    split; [exact E|]. split; [exact H1|]. split; [exact H2|].
    split; [apply strip_list_trimmed | reflexivity].
  - unfold Props.trimmed, Props.clean_head. split.
    + destruct (PyStr.strip_list l) as [|c a]; [exact I|].
      simpl. now rewrite lower_char_space.
    + rewrite <- map_rev.
      destruct (rev (PyStr.strip_list l)) as [|c a]; [exact I|].
      simpl. now rewrite lower_char_space.
  - apply Forall_forall. intros c Hc. apply in_map_iff in Hc.
    destruct Hc as [x [<- _]]. apply lower_char_not_upper.
  - apply list_ascii_inj. rewrite !normalize_label_list. fold l.
    rewrite strip_map_lower, (strip_list_fixed _ (strip_list_trimmed l)).
    rewrite map_map. apply map_ext. intros c. apply lower_char_idem.
Qed.

Lemma normalize_label_canonical_witness :
  exists ws1 core ws2,
    list_ascii_of_string " Close " = ws1 ++ core ++ ws2 /\
    forallb PyStr.is_space ws1 = true /\
    forallb PyStr.is_space ws2 = true /\
    Props.trimmed core /\
    list_ascii_of_string (normalize_label " Close ")
    = map PyStr.lower_char core.
Proof.
  apply (proj1 (normalize_label_canonical " Close ")).
  simpl.
  repeat (apply Forall_cons; [apply Nat.ltb_lt; reflexivity|]).
  apply Forall_nil.
Defined.

(** X6.  White space around a label does not matter: a label padded with
    any white space on either side normalises as the label itself. *)
Theorem normalize_label_padding :
  forall (ws1 ws2 : list ascii) (s : string),
    forallb PyStr.is_space ws1 = true ->
    forallb PyStr.is_space ws2 = true ->
    normalize_label
      (string_of_list_ascii (ws1 ++ list_ascii_of_string s ++ ws2))
    = normalize_label s.
Proof.
  intros ws1 ws2 s H1 H2. apply list_ascii_inj.
  rewrite !normalize_label_list, list_ascii_of_string_of_list_ascii.
  f_equal. set (l := list_ascii_of_string s).
  unfold PyStr.strip_list. rewrite (lstrip_spaces ws1 _ H1).
  assert (Hr : forallb PyStr.is_space (rev ws2) = true).
  { rewrite forallb_forall in *. intros c Hc. apply H2.
    now apply in_rev. }
  pose proof (lstrip_head l) as Hh.
  destruct (PyStr.lstrip_list l) as [|c a] eqn:Ea.
  - (* the label is all white space *)
    assert (E : PyStr.lstrip_list (l ++ ws2) = []).
    { clear Hh. revert Ea. induction l as [|x l IH]; simpl.
      - intros _. rewrite <- (app_nil_r ws2). now apply lstrip_spaces.
      - destruct (PyStr.is_space x); [exact IH | discriminate]. }
    now rewrite E.
  - assert (E : PyStr.lstrip_list (l ++ ws2) = (c :: a) ++ ws2).
    { clear Hr. revert Ea. induction l as [|x l IH]; simpl.
      - discriminate.
      - destruct (PyStr.is_space x); [exact IH|].
        intros E. injection E as <- <-. reflexivity. }
    rewrite E, rev_app_distr. now rewrite (lstrip_spaces (rev ws2) _ Hr).
Qed.

Lemma normalize_label_padding_witness :
  normalize_label
    (string_of_list_ascii
       ([" "; " "]%char ++ list_ascii_of_string "Close" ++ [" "]%char))
  = normalize_label "Close".
Proof.
  apply (normalize_label_padding [" "; " "]%char [" "]%char "Close");
    reflexivity.
Defined.

(** ** Splitting a text (lines 46 and 148) *)

Lemma split_list_nonempty :
  forall sep s cur, PyStr.split_list sep s cur <> [].
Proof.
  intros sep s. induction s as [|c s IH]; intros cur; simpl.
  - discriminate.
  - destruct (Ascii.eqb c sep); [discriminate | apply IH].
Qed.

Lemma join_list_cons :
  forall sep p ps,
    ps <> [] ->
    Props.join_list sep (p :: ps) = p ++ sep :: Props.join_list sep ps.
Proof.
  intros sep p [|q ps] H; [contradiction | reflexivity].
Qed.

Lemma join_split_list :
  forall sep s cur,
    Props.join_list sep (PyStr.split_list sep s cur) = rev cur ++ s.
Proof.
  intros sep s. induction s as [|c s IH]; intros cur; simpl.
  - now rewrite app_nil_r.
  - destruct (Ascii.eqb c sep) eqn:E.
    + apply Ascii.eqb_eq in E. subst c.
      rewrite join_list_cons by apply split_list_nonempty.
      now rewrite IH.
    + rewrite IH. simpl. now rewrite <- app_assoc.
Qed.

Lemma split_list_pieces :
  forall sep s cur,
    ~ In sep cur ->
    Forall (fun p => ~ In sep p) (PyStr.split_list sep s cur).
Proof.
  intros sep s. induction s as [|c s IH]; intros cur Hc; simpl.
  - constructor; [|constructor]. now rewrite <- in_rev.
  - destruct (Ascii.eqb c sep) eqn:E.
    + constructor; [now rewrite <- in_rev | apply IH; intros []].
    + apply IH. intros [H|H]; [|contradiction].
      subst c. now rewrite Ascii.eqb_refl in E.
Qed.

Lemma split_list_length :
  forall sep s cur,
    List.length (PyStr.split_list sep s cur)
    = S (List.length (filter (fun c => Ascii.eqb c sep) s)).
Proof.
  intros sep s. induction s as [|c s IH]; intros cur; simpl.
  - reflexivity.
  - destruct (Ascii.eqb c sep); simpl; now rewrite IH.
Qed.

Lemma string_of_list_ascii_app :
  forall a b,
    string_of_list_ascii (a ++ b)
    = String.append (string_of_list_ascii a) (string_of_list_ascii b).
Proof.
  induction a as [|c a IH]; intros b; simpl; [reflexivity|].
  now rewrite IH.
Qed.

Lemma concat_join_list :
  forall sep ps,
    String.concat (String sep EmptyString) (map string_of_list_ascii ps)
    = string_of_list_ascii (Props.join_list sep ps).
Proof.
  intros sep ps. induction ps as [|p ps IH]; [reflexivity|].
  destruct ps as [|q ps]; [reflexivity|].
  change (String.concat (String sep EmptyString)
            (map string_of_list_ascii (p :: q :: ps)))
    with (String.append (string_of_list_ascii p)
            (String.append (String sep EmptyString)
               (String.concat (String sep EmptyString)
                  (map string_of_list_ascii (q :: ps))))).
  rewrite IH.
  change (Props.join_list sep (p :: q :: ps))
    with (p ++ sep :: Props.join_list sep (q :: ps)).
  now rewrite string_of_list_ascii_app.
Qed.

(** X7.  [s.split(sep)] loses nothing: joining the pieces with [sep] gives
    [s] back; there is always a first piece (so [..split(sep)[0]] never
    fails); no piece holds [sep]; and there is one piece more than there
    are separators in [s]. *)
Theorem split_join_round_trip :
  forall (sep : ascii) (s : string),
    String.concat (String sep EmptyString) (PyStr.split sep s) = s /\
    (exists first, PyStr.item (PyStr.split sep s) 0 = Ok first) /\
    Forall (fun p => ~ In sep (list_ascii_of_string p)) (PyStr.split sep s) /\
    List.length (PyStr.split sep s)
    = S (List.length
           (filter (fun c => Ascii.eqb c sep) (list_ascii_of_string s))).
Proof.
  intros sep s. unfold PyStr.split. split; [|split; [|split]].
  - rewrite concat_join_list, join_split_list. simpl.
    apply string_of_list_ascii_of_string.
  - pose proof (split_list_nonempty sep (list_ascii_of_string s) []) as H.
    destruct (PyStr.split_list sep (list_ascii_of_string s) []) as [|p ps];
      [contradiction|].
    eexists. reflexivity.
  - apply Forall_forall. intros p Hp. apply in_map_iff in Hp.
    destruct Hp as [l [<- Hl]].
    rewrite list_ascii_of_string_of_list_ascii.
    pose proof (split_list_pieces sep (list_ascii_of_string s) []
                  (fun H => H)) as Hall.
    rewrite Forall_forall in Hall. now apply Hall.
  - rewrite length_map. apply split_list_length.
Qed.

(** ** The ticker symbol (line 46) *)

Lemma split_list_first :
  forall sep s cur,
    exists rest,
      PyStr.split_list sep s cur
      = (rev cur ++ Props.take_until sep s) :: rest.
Proof.
  intros sep s. induction s as [|c s IH]; intros cur; simpl.
  - exists []. now rewrite app_nil_r.
  - destruct (Ascii.eqb c sep).
    + eexists. now rewrite app_nil_r.
    + destruct (IH (c :: cur)) as [rest ->]. exists rest.
      simpl. now rewrite <- app_assoc.
Qed.

Lemma split_list_at_sep :
  forall sep a b cur,
    ~ In sep a ->
    PyStr.split_list sep (a ++ sep :: b) cur
    = (rev cur ++ a) :: PyStr.split_list sep b [].
Proof.
  intros sep a. induction a as [|c a IH]; intros b cur Ha; simpl.
  - rewrite Ascii.eqb_refl. now rewrite app_nil_r.
  - destruct (Ascii.eqb c sep) eqn:E.
    + apply Ascii.eqb_eq in E. subst c. exfalso. apply Ha. now left.
    + rewrite IH by (intros H; apply Ha; now right).
      simpl. now rewrite <- app_assoc.
Qed.

Lemma split_list_no_sep :
  forall sep s cur,
    ~ In sep s -> PyStr.split_list sep s cur = [rev cur ++ s].
Proof.
  intros sep s. induction s as [|c s IH]; intros cur Hs; simpl.
  - now rewrite app_nil_r.
  - destruct (Ascii.eqb c sep) eqn:E.
    + apply Ascii.eqb_eq in E. subst c. exfalso. apply Hs. now left.
    + rewrite IH by (intros H; apply Hs; now right).
      simpl. now rewrite <- app_assoc.
Qed.

Lemma take_until_app :
  forall sep t x,
    ~ In sep t ->
    Props.take_until sep (t ++ x) = t ++ Props.take_until sep x.
Proof.
  intros sep t. induction t as [|c t IH]; intros x Ht; simpl.
  - reflexivity.
  - destruct (Ascii.eqb c sep) eqn:E.
    + apply Ascii.eqb_eq in E. subst c. exfalso. apply Ht. now left.
    + now rewrite IH by (intros H; apply Ht; now right).
Qed.

(** X8.  The ticker symbol of a file name is the text between its first
    underscore and the dot that follows: for a name [a_t.rest] where [a]
    holds no underscore and [t] neither underscore nor dot, the symbol is
    [t], whatever [rest] is.  A file name without an underscore has no
    symbol: the derivation stops with IndexError. *)
Theorem symbol_of_file_name :
  (forall a t rest : list ascii,
      ~ In "_"%char a ->
      ~ In "_"%char t ->
      ~ In "."%char t ->
      Dashboard.symbol_of
        (string_of_list_ascii (a ++ "_"%char :: t ++ "."%char :: rest))
      = Ok (string_of_list_ascii t)) /\
  (forall name : string,
      ~ In "_"%char (list_ascii_of_string name) ->
      Dashboard.symbol_of name = Raise IndexError).
Proof.
  split.
  - intros a t rest Ha Ht Hd. unfold Dashboard.symbol_of, PyStr.split.
    rewrite list_ascii_of_string_of_list_ascii.
    rewrite (split_list_at_sep "_" a _ [] Ha).
    destruct (split_list_first "_" (t ++ "."%char :: rest) []) as [ps ->].
    cbn [map PyStr.item nth_error bind rev app].
    rewrite list_ascii_of_string_of_list_ascii.
    rewrite (take_until_app "_" t _ Ht).
    change (Props.take_until "_" ("."%char :: rest))
      with ("."%char :: Props.take_until "_" rest).
    rewrite (split_list_at_sep "." t _ [] Hd). reflexivity.
  - intros name Hn. unfold Dashboard.symbol_of, PyStr.split.
    now rewrite (split_list_no_sep "_" _ [] Hn).
Qed.

Lemma symbol_of_file_name_witness :
  Dashboard.symbol_of
    (string_of_list_ascii
       (list_ascii_of_string "df" ++ "_"%char
          :: list_ascii_of_string "AAPL" ++ "."%char
          :: list_ascii_of_string "csv"))
  = Ok (string_of_list_ascii (list_ascii_of_string "AAPL")).
Proof.
  apply (proj1 symbol_of_file_name).
  - simpl. intros [H|[H|[]]]; discriminate.
  - simpl. intros [H|[H|[H|[H|[]]]]]; discriminate.
  - simpl. intros [H|[H|[H|[H|[]]]]]; discriminate.
Defined.

(** ** The two tables (lines 11-28) *)

(** X9.  The table of files and the table of descriptions agree: the
    names offered by the selector are pairwise different, and each of them
    has a file, a ticker symbol derived from the file name (the file is
    [df_<symbol>.csv]) and a description.  So no company that can be
    selected makes the look-ups of lines 34, 46 and 149 fail. *)
Theorem every_company_resolves :
  NoDup (keys files) /\
  (forall k,
      In k (keys files) ->
      exists file symbol text,
        dict_get files k = Ok file /\
        symbol_of file = Ok symbol /\
        file = String.append "df_" (String.append symbol ".csv") /\
        dict_get descriptions k = Ok text).
Proof.
  split.
  - repeat (constructor;
            [simpl; intuition discriminate|]). constructor.
  - intros k Hk. simpl in Hk.
    repeat (destruct Hk as [<-|Hk];
            [eexists; eexists; eexists;
             repeat split; vm_compute; reflexivity|]).
    contradiction.
Qed.

Lemma every_company_resolves_witness :
  exists file symbol text,
    dict_get files "Boeing (BA)" = Ok file /\
    symbol_of file = Ok symbol /\
    file = String.append "df_" (String.append symbol ".csv") /\
    dict_get descriptions "Boeing (BA)" = Ok text.
Proof.
  apply (proj2 every_company_resolves "Boeing (BA)"%string).
  simpl. tauto.
Defined.

(** ** The range filter, again (lines 63-64 and 96-97) *)

Lemma forallb_time_col_inv :
  forall i rs,
    forallb is_time (map (cell_at i) rs) = true ->
    Forall (fun r => is_time (cell_at i r) = true) rs.
Proof.
  intros i rs. induction rs as [|r rs IH]; simpl; intros H; [constructor|].
  apply andb_true_iff in H. destruct H as [Hr Hrs].
  constructor; [assumption | now apply IH].
Qed.

(** When the filter succeeds, the date column is of datetime type and the
    result is the frame with the rows within the range. *)
Lemma filter_by_date_Ok :
  forall df lo hi d,
    filter_by_date df (lo, hi) = Ok d ->
    exists i,
      column_index df "date" = Ok i /\
      Forall (fun r => is_time (cell_at i r) = true) (rows df) /\
      d = {| columns := columns df;
             rows := filter (Props.between_midnights i lo hi) (rows df) |}.
Proof.
  intros df lo hi d H.
  destruct (column_index df "date") as [i|e] eqn:Hi.
  - assert (Ht : Forall (fun r => is_time (cell_at i r) = true) (rows df)).
    { apply forallb_time_col_inv.
      unfold filter_by_date, get_series in H. rewrite Hi in H.
      cbn [bind] in H. unfold series_ge, cmp_series in H.
      destruct (forallb is_time (map (cell_at i) (rows df)));
        [reflexivity | discriminate H]. }
    exists i. split; [reflexivity|]. split; [exact Ht|].
    rewrite (filter_by_date_rows df i lo hi Hi Ht) in H.
    now injection H as <-.
  - unfold filter_by_date, get_series in H. rewrite Hi in H.
    discriminate H.
Qed.

Lemma filter_filter :
  forall (A : Type) (p q : A -> bool) (l : list A),
    filter p (filter q l) = filter (fun x => q x && p x) l.
Proof.
  intros A p q l. induction l as [|x l IH]; simpl; [reflexivity|].
  destruct (q x); simpl; [|exact IH].
  destruct (p x); now rewrite IH.
Qed.

Lemma of_date_le :
  forall a b, (a <= b)%Z <-> (Time.of_date a <= Time.of_date b)%Z.
Proof.
  intros a b. unfold Time.of_date, Time.ns_per_day. lia.
Qed.

Lemma in_range_meet :
  forall i r1 r2 row,
    Props.between_midnights i (fst (Props.meet r1 r2)) (snd (Props.meet r1 r2)) row
    = Props.between_midnights i (fst r1) (snd r1) row
      && Props.between_midnights i (fst r2) (snd r2) row.
Proof.
  intros i [lo1 hi1] [lo2 hi2] row. unfold Props.between_midnights, Props.meet.
  cbn [fst snd].
  destruct (date_at i row) as [d|]; [|reflexivity].
  pose proof (of_date_le lo1 lo2). pose proof (of_date_le lo2 lo1).
  pose proof (of_date_le hi1 hi2). pose proof (of_date_le hi2 hi1).
  destruct (Z.max_spec lo1 lo2) as [[? ->]|[? ->]];
    destruct (Z.min_spec hi1 hi2) as [[? ->]|[? ->]];
    repeat match goal with
           | |- context [(?x <=? ?y)%Z] =>
               destruct (Z.leb_spec x y)
           end; simpl; try reflexivity; lia.
Qed.

(** X10.  Filtering composes: filtering a filtered frame by a second range
    is filtering the original frame by the intersection of the two ranges.
    In particular filtering twice by the same range changes nothing, and a
    range whose first day is after its last day leaves no row. *)
Theorem filter_by_date_compose :
  forall (df f1 : DataFrame) (r1 : Z * Z),
    filter_by_date df r1 = Ok f1 ->
    (forall r2, filter_by_date f1 r2 = filter_by_date df (Props.meet r1 r2)) /\
    filter_by_date f1 r1 = Ok f1 /\
    ((snd r1 < fst r1)%Z -> rows f1 = []).
Proof.
  intros df f1 [lo1 hi1] H.
  destruct (filter_by_date_Ok df lo1 hi1 f1 H) as [i [Hi [Ht ->]]].
  assert (Hi' : column_index
                  {| columns := columns df;
                     rows := filter (Props.between_midnights i lo1 hi1) (rows df) |}
                  "date" = Ok i).
  { rewrite <- Hi. now apply column_index_columns. }
  assert (Ht' : Forall (fun r => is_time (cell_at i r) = true)
                  (filter (Props.between_midnights i lo1 hi1) (rows df))).
  { rewrite Forall_forall in *. intros r Hr. apply filter_In in Hr.
    now apply Ht. }
  assert (Hcomp : forall r2,
             filter_by_date
               {| columns := columns df;
                  rows := filter (Props.between_midnights i lo1 hi1) (rows df) |} r2
             = filter_by_date df (Props.meet (lo1, hi1) r2)).
  { intros [lo2 hi2].
    rewrite (filter_by_date_rows _ i lo2 hi2 Hi' Ht'). cbn [columns rows].
    unfold Props.meet at 1. cbn [fst snd].
    rewrite (filter_by_date_rows df i _ _ Hi Ht).
    rewrite filter_filter. do 2 f_equal. apply filter_ext. intros row.
    symmetry. apply (in_range_meet i (lo1, hi1) (lo2, hi2) row). }
  split; [exact Hcomp|]. split.
  - rewrite Hcomp. unfold Props.meet. cbn [fst snd].
    rewrite Z.max_id, Z.min_id. exact H.
  - cbn [fst snd rows]. intros Hlt.
    destruct (filter (Props.between_midnights i lo1 hi1) (rows df)) as [|row l] eqn:E;
      [reflexivity|].
    assert (Hin : In row (filter (Props.between_midnights i lo1 hi1) (rows df))).
    { rewrite E. now left. }
    apply filter_In in Hin. destruct Hin as [_ Hin].
    apply in_range_spec in Hin. destruct Hin as [d [_ Hd]].
    assert (Hle : (Time.of_date lo1 <= Time.of_date hi1)%Z) by lia.
    apply of_date_le in Hle. lia.
Qed.

Lemma filter_by_date_compose_witness :
  (forall r2,
      filter_by_date
        {| columns := ["date"; "close"]%string;
           rows := [ [Samples.midnight 2024 1 3; Samples.num 185];
                     [Samples.midnight 2024 1 4; Samples.num 182] ] |} r2
      = filter_by_date Samples.aapl_loaded
          (Props.meet (Samples.day 2024 1 3, Samples.day 2024 1 4) r2)) /\
  filter_by_date
    {| columns := ["date"; "close"]%string;
       rows := [ [Samples.midnight 2024 1 3; Samples.num 185];
                 [Samples.midnight 2024 1 4; Samples.num 182] ] |}
    (Samples.day 2024 1 3, Samples.day 2024 1 4)
  = Ok {| columns := ["date"; "close"]%string;
          rows := [ [Samples.midnight 2024 1 3; Samples.num 185];
                    [Samples.midnight 2024 1 4; Samples.num 182] ] |} /\
  ((snd (Samples.day 2024 1 3, Samples.day 2024 1 4)
    < fst (Samples.day 2024 1 3, Samples.day 2024 1 4))%Z ->
   rows {| columns := ["date"; "close"]%string;
           rows := [ [Samples.midnight 2024 1 3; Samples.num 185];
                     [Samples.midnight 2024 1 4; Samples.num 182] ] |}
   = []).
Proof.
  apply (filter_by_date_compose Samples.aapl_loaded).
  vm_compute. reflexivity.
Defined.

Lemma sorted_filter :
  forall (key : row -> Time.timestamp) (p : row -> bool) (l : list row),
    StronglySorted ts_le (map key l) ->
    StronglySorted ts_le (map key (filter p l)).
Proof.
  intros key p l. induction l as [|x l IH]; simpl; intros H; [constructor|].
  inversion H as [|? ? Hs Hall]; subst.
  destruct (p x); simpl; [|now apply IH].
  constructor; [now apply IH|].
  rewrite Forall_forall in *. intros t Ht.
  apply in_map_iff in Ht. destruct Ht as [y [<- Hy]].
  apply filter_In in Hy. apply Hall. apply in_map. tauto.
Qed.

(** X11.  Filtering keeps the series in order: for every series the loader
    produced and every range, the filtered frame's dates are still
    monotonically non-decreasing, and none of them is missing (a row
    without a date never passes the filter), so the line drawn from it runs
    from left to right. *)
Theorem filtered_series_sorted :
  forall (to_datetime : list cell -> result (list Time.timestamp))
         (sort_rows : (row -> Time.timestamp) -> list row -> list row)
         (fs : string -> file) (path : string) (df : DataFrame) (r : Z * Z),
    (forall key rs, Permutation (sort_rows key rs) rs) ->
    (forall key rs, StronglySorted ts_le (map key (sort_rows key rs))) ->
    load_prices to_datetime sort_rows fs path = Ok (Some df) ->
    exists i f,
      column_index df "date" = Ok i /\
      filter_by_date df r = Ok f /\
      StronglySorted ts_le (Spec.dates i f) /\
      Forall (fun t => exists d, t = Some d) (Spec.dates i f).
Proof.
  intros to_datetime sort_rows fs path df [lo hi] Hperm Hsorted Hload.
  destruct (loaded_date_column to_datetime sort_rows Hperm fs path df Hload)
    as [i [Hi Ht]].
  exists i. eexists. split; [exact Hi|].
  split; [apply (filter_by_date_rows df i lo hi Hi Ht)|].
  unfold Spec.dates. cbn [rows]. split.
  - apply sorted_filter.
    apply load_prices_Some in Hload.
    destruct Hload as [tbl [i' [ts [_ [_ [Hi' [_ ->]]]]]]].
    assert (i' = i).
    { rewrite (column_index_columns _ (normalize_columns tbl) "date")
        in Hi by reflexivity.
      rewrite Hi' in Hi. now injection Hi. }
    subst i'. cbn [rows]. apply Hsorted.
  - apply Forall_forall. intros t Hin. apply in_map_iff in Hin.
    destruct Hin as [row [<- Hrow]]. apply filter_In in Hrow.
    destruct Hrow as [_ Hrow]. apply in_range_spec in Hrow.
    destruct Hrow as [d [Hd _]]. now exists d.
Qed.

Lemma filtered_series_sorted_witness :
  exists i f,
    column_index Samples.aapl_loaded "date" = Ok i /\
    filter_by_date Samples.aapl_loaded
      (Samples.day 2024 1 3, Samples.day 2024 1 4) = Ok f /\
    StronglySorted ts_le (Spec.dates i f) /\
    Forall (fun t => exists d, t = Some d) (Spec.dates i f).
Proof.
  apply (filtered_series_sorted iso_to_datetime insertion_sort
           Samples.folder "df_AAPL.csv" Samples.aapl_loaded
           (Samples.day 2024 1 3, Samples.day 2024 1 4)).
  - exact insertion_sort_perm.
  - exact insertion_sort_sorted.
  - vm_compute. reflexivity.
Defined.

(** ** What the charts plot (lines 70-100) *)

Lemma filtered_dates_within :
  forall df r f x,
    filter_by_date df r = Ok f ->
    get_series f "date" = Ok x ->
    Forall (Props.cell_within r) x.
Proof.
  intros df [lo hi] f x Hf Hx.
  destruct (filter_by_date_Ok df lo hi f Hf) as [i [Hi [_ ->]]].
  unfold get_series in Hx.
  rewrite (column_index_columns _ df "date") in Hx by reflexivity.
  rewrite Hi in Hx. cbn [bind rows] in Hx. injection Hx as <-.
  apply Forall_forall. intros c Hc. apply in_map_iff in Hc.
  destruct Hc as [row [<- Hrow]]. apply filter_In in Hrow.
  destruct Hrow as [_ Hrow]. apply in_range_spec in Hrow.
  destruct Hrow as [d [Hd Hb]]. exists d. split; [|exact Hb].
  unfold date_at in Hd. destruct (cell_at i row); try discriminate.
  simpl in Hd. now subst.
Qed.

Lemma filtered_column_within :
  forall df r f,
    filter_by_date df r = Ok f ->
    Forall (Props.cell_within r) (Plotly.column_or_nil f "date").
Proof.
  intros df r f Hf. unfold Plotly.column_or_nil.
  destruct (get_series f "date") as [x|e] eqn:Hx; [|constructor].
  exact (filtered_dates_within df r f x Hf Hx).
Qed.

Lemma overlays_within :
  forall load r others traces,
    Spec.overlays load r others traces ->
    Forall (Props.cell_within r) (List.concat (map Plotly.sc_x traces)).
Proof.
  intros load r others traces H.
  induction H as [|other others name df filtered x y traces
                    _ _ Hf Hx _ _ IH
                  |other others name traces _ _ _ IH]; simpl.
  - constructor.
  - apply Forall_app. split; [|exact IH].
    exact (filtered_dates_within df r filtered x Hf Hx).
  - exact IH.
Qed.

Section ChartsShown.

Variable to_datetime : list cell -> result (list Time.timestamp).
Variable sort_rows : (row -> Time.timestamp) -> list row -> list row.
Variable fs : string -> file.

Lemma bar_view_shown :
  forall d,
    map snd (fst (bar_view d))
    = Subheader "Interactive Bar Chart"
      :: match Plotly.px Plotly.BarChart d "date" "close" None
                 (Some "Closing Price Bar Chart"%string) [] with
         | Ok fig => [PlotlyChart fig]
         | Raise _ => []
         end.
Proof.
  intros d. unfold bar_view. ui_cases; reflexivity.
Qed.

Lemma line_view_chart :
  forall d,
    map snd (fst (line_view d))
    = Subheader "Interactive Line Chart"
      :: match Plotly.px Plotly.LineChart d "date" "close" None
                 (Some "Closing Price Over Time"%string) [] with
         | Ok fig => [PlotlyChart fig]
         | Raise _ => []
         end.
Proof.
  intros d. unfold line_view. ui_cases; reflexivity.
Qed.

Lemma views_bar_tab :
  forall sel symbol others r d,
    shown_in (Tab 2)
      (fst (views to_datetime sort_rows fs sel symbol others r d))
    = match snd (line_view d) with
      | Ok _ => map snd (fst (bar_view d))
      | Raise _ => []
      end.
Proof.
  intros sel symbol others r d. rewrite views_shown.
  rewrite (shown_in_elsewhere (Tab 1) (Tab 2) _ (line_view_in d))
    by discriminate.
  rewrite (shown_in_same (Tab 2) _ (bar_view_in d)).
  rewrite (shown_in_elsewhere (Tab 3) (Tab 2) _
             (compare_view_in to_datetime sort_rows fs sel r others d))
    by discriminate.
  rewrite (shown_in_elsewhere (Tab 4) (Tab 2) _
             (forecast_view_in to_datetime fs symbol)) by discriminate.
  rewrite (shown_in_elsewhere (Expander " About this Dashboard") (Tab 2) _
             (about_view_in sel d)) by discriminate.
  change (shown_in (Tab 2) [(Main, Tabs _)]) with (@nil element).
  cbn [app].
  repeat break_match; cbn [app]; now rewrite ?app_nil_r.
Qed.

(** The range the prelude returns is the one set on the slider. *)
Lemma prelude_picked :
  forall sel v symbol r d,
    snd (prelude to_datetime sort_rows fs sel (Some v))
    = Ok (Some (symbol, r, d)) ->
    r = v.
Proof.
  intros sel v symbol r d. unfold prelude. snd_norm.
  destruct (dict_get files sel) as [name|e]; [|discriminate]. snd_norm.
  destruct (read_csv fs name) as [tbl|e]; [|discriminate]. snd_norm.
  destruct (has_price_columns (normalize_columns tbl)); [|discriminate].
  snd_norm.
  destruct (parse_dates to_datetime (normalize_columns tbl) "date")
    as [df|e]; [|discriminate]. snd_norm.
  destruct (sort_values sort_rows df "date") as [df'|e]; [|discriminate].
  snd_norm.
  destruct (symbol_of name) as [symbol'|e]; [|discriminate]. snd_norm.
  destruct (snd (header fs sel symbol')) as [[]|e]; [|discriminate].
  snd_norm.
  unfold select_range, st_slider. snd_norm.
  destruct (get_series df' "date") as [s|e]; [|discriminate].
  destruct (option_map Time.date (series_min s)) as [lo|];
    [|snd_norm; discriminate].
  destruct (option_map Time.date (series_max s)) as [hi|];
    [|snd_norm; discriminate].
  destruct (lo <? hi)%Z; [|snd_norm; discriminate].
  snd_norm.
  destruct (filter_by_date df' v) as [g|e]; [|discriminate].
  cbn [fst snd]. intros H. now injection H as _ <- _.
Qed.

End ChartsShown.

(** X12.  With the slider set to the days [(lo, hi)], every date plotted
    by a chart of the line, bar or comparison tab, for the company chosen
    and for every company compared with, is an instant from midnight of
    [lo] to midnight of [hi]. *)
Theorem charts_plot_within_range :
  forall (to_datetime : list cell -> result (list Time.timestamp))
         (sort_rows : (row -> Time.timestamp) -> list row -> list row)
         (fs : string -> file) (selected_company : string)
         (v : Z * Z) (others : list string) (n : nat) (fig : Plotly.figure),
    (n = 1 \/ n = 2 \/ n = 3)%nat ->
    In (PlotlyChart fig)
       (shown_in (Tab n)
          (fst (run to_datetime sort_rows fs selected_company (Some v)
                  others))) ->
    Forall (Props.cell_within v) (Plotly.plotted_x fig).
Proof.
  intros to_datetime sort_rows fs sel v others n fig Hn.
  rewrite run_tab.
  destruct (snd (prelude to_datetime sort_rows fs sel (Some v)))
    as [[[[symbol r] d]|]|e] eqn:Hp; try (intros []).
  pose proof (prelude_picked to_datetime sort_rows fs sel v symbol r d Hp)
    as ->.
  destruct (prelude_filtered to_datetime sort_rows fs sel (Some v) symbol v d
              Hp) as [name [df [_ [_ Hf]]]].
  pose proof (filtered_column_within df v d Hf) as Hcol.
  destruct Hn as [->|[->| ->]].
  - rewrite views_line_tab, line_view_chart.
    destruct (Plotly.px Plotly.LineChart d "date" "close" None
                (Some "Closing Price Over Time"%string) []) as [g|e] eqn:E.
    2:{ intros [H|[]]; discriminate H. }
    intros [H|[H|[]]]; try discriminate H. injection H as <-.
    apply px_Ok in E. subst g. unfold Plotly.plotted_x. cbn.
    now rewrite app_nil_r.
  - rewrite views_bar_tab, bar_view_shown.
    destruct (snd (line_view d)) as [[]|]; [|intros []].
    destruct (Plotly.px Plotly.BarChart d "date" "close" None
                (Some "Closing Price Bar Chart"%string) []) as [g|e] eqn:E.
    2:{ intros [H|[]]; discriminate H. }
    intros [H|[H|[]]]; try discriminate H. injection H as <-.
    apply px_Ok in E. subst g. unfold Plotly.plotted_x. cbn.
    now rewrite app_nil_r.
  - rewrite views_compare_tab.
    destruct (snd (line_view d)) as [[]|]; [|intros []].
    destruct (snd (bar_view d)) as [[]|]; [|intros []].
    rewrite compare_view_shown.
    destruct (Plotly.px Plotly.LineChart d "date" "close" None None
                [("close"%string, sel)]) as [g|e] eqn:E.
    2:{ intros [H|[H|[]]]; discriminate H. }
    destruct (add_others to_datetime sort_rows fs v g others)
      as [g'|e] eqn:Ea.
    2:{ intros [H|[H|[]]]; discriminate H. }
    intros [H|[H|[H|[]]]]; try discriminate H. injection H as <-.
    destruct (add_others_overlays to_datetime sort_rows fs others v g g' Ea)
      as [traces [Ho ->]].
    apply px_Ok in E. subst g. unfold Plotly.plotted_x. cbn.
    apply Forall_app. split; [exact Hcol|].
    exact (overlays_within _ v others traces Ho).
Qed.

Lemma charts_plot_within_range_witness :
  Forall (Props.cell_within (Samples.day 2024 1 2, Samples.day 2024 1 5))
    (Plotly.plotted_x Samples.aapl_goog_fig).
Proof.
  apply (charts_plot_within_range iso_to_datetime insertion_sort
           Samples.folder "Apple (AAPL)"
           (Samples.day 2024 1 2, Samples.day 2024 1 5)
           ["Google (GOOG)"; "Amazon (AMZN)"]%string 3
           Samples.aapl_goog_fig).
  - right. right. reflexivity.
  - vm_compute. right. right. left. reflexivity.
Defined.

(** X13.  The bar chart draws the data the line chart draws: on every
    filtered frame the two views either both show, after their heading, one
    chart of that frame, one as a line and one as bars, each plotting the
    column "date" of the frame against its column "close", value for
    value, or both stop with the same exception right after their
    heading. *)
Theorem bar_view_plots_line_data :
  forall d : DataFrame,
    (exists fig1 fig2,
        line_view d
        = ([(Tab 1, Subheader "Interactive Line Chart");
            (Tab 1, PlotlyChart fig1)], Ok tt) /\
        bar_view d
        = ([(Tab 2, Subheader "Interactive Bar Chart");
            (Tab 2, PlotlyChart fig2)], Ok tt) /\
        Plotly.fig_kind fig1 = Plotly.LineChart /\
        Plotly.fig_kind fig2 = Plotly.BarChart /\
        Plotly.fig_frame fig1 = d /\
        Plotly.fig_frame fig2 = d /\
        get_series d "date" = Ok (Plotly.plotted_x fig1) /\
        get_series d "close" = Ok (Plotly.plotted_y fig1) /\
        Plotly.plotted_x fig2 = Plotly.plotted_x fig1 /\
        Plotly.plotted_y fig2 = Plotly.plotted_y fig1)
    \/
    (exists e,
        line_view d
        = ([(Tab 1, Subheader "Interactive Line Chart")], Raise e) /\
        bar_view d
        = ([(Tab 2, Subheader "Interactive Bar Chart")], Raise e)).
Proof.
  intros d. unfold line_view, bar_view, Plotly.px.
  destruct (get_series d "date") as [x|e] eqn:Ex; cbn [bind].
  - destruct (get_series d "close") as [y|e] eqn:Ey; cbn [bind].
    + left. eexists. eexists. ui_step.
      split; [reflexivity|]. split; [reflexivity|].
      unfold Plotly.plotted_x, Plotly.plotted_y, Plotly.column_or_nil.
      cbn [Plotly.fig_frame Plotly.fig_x Plotly.fig_y Plotly.fig_scatters
           Plotly.fig_kind map List.concat].
      rewrite Ex, Ey, !app_nil_r.
      repeat (split; [reflexivity|]). reflexivity.
    + right. exists e. ui_step. split; reflexivity.
  - right. exists e. ui_step. split; reflexivity.
Qed.

(** ** The forecast view on a well-formed file (lines 102-135) *)

Lemma cell_at_set_cell_other :
  forall i j v r, i <> j -> cell_at j (set_cell i v r) = cell_at j r.
Proof.
  unfold cell_at. induction i as [|i IH]; intros [|j] v [|c r] H; simpl;
    try reflexivity; try contradiction.
  - now destruct j.
  - rewrite IH by congruence. now destruct j.
  - apply IH. congruence.
Qed.

Lemma assign_other_column :
  forall i j ts rs,
    i <> j ->
    map (cell_at j) (assign i ts rs) = map (cell_at j) rs.
Proof.
  intros i j ts rs H. revert ts.
  induction rs as [|r rs IH]; intros ts; simpl; [reflexivity|].
  now rewrite cell_at_set_cell_other, IH.
Qed.

Lemma index_label :
  forall label cols i,
    PyStr.index label cols = Some i -> nth_error cols i = Some label.
Proof.
  intros label cols. induction cols as [|c cols IH]; intros i; simpl.
  - discriminate.
  - destruct (String.eqb label c) eqn:E.
    + intros H. injection H as <-. apply String.eqb_eq in E. now subst.
    + destruct (PyStr.index label cols) as [k|]; simpl; [|discriminate].
      intros H. injection H as <-. now apply IH.
Qed.

Lemma column_index_distinct :
  forall df l1 l2 i j,
    column_index df l1 = Ok i ->
    column_index df l2 = Ok j ->
    l1 <> l2 ->
    i <> j.
Proof.
  intros df l1 l2 i j H1 H2 Hne ->.
  apply column_index_Ok in H1. apply column_index_Ok in H2.
  destruct H1 as [_ H1]. destruct H2 as [_ H2].
  apply index_label in H1. apply index_label in H2. congruence.
Qed.

Lemma column_index_mem :
  forall df label i,
    column_index df label = Ok i -> PyStr.mem label (columns df) = true.
Proof.
  intros df label i H. apply column_index_Ok in H. destruct H as [Hc _].
  destruct (PyStr.mem label (columns df)) eqn:E; [reflexivity|].
  apply mem_count in E. congruence.
Qed.

Lemma get_series_index :
  forall df label s,
    get_series df label = Ok s ->
    exists j, column_index df label = Ok j /\ s = map (cell_at j) (rows df).
Proof.
  intros df label s. unfold get_series.
  destruct (column_index df label) as [j|e]; cbn [bind]; [|discriminate].
  intros H. injection H as <-. now exists j.
Qed.

Lemma map_fst_combine_eq :
  forall (A B : Type) (l : list A) (l' : list B),
    List.length l = List.length l' -> map fst (combine l l') = l.
Proof.
  intros A B l. induction l as [|x l IH]; intros [|y l'] H; simpl in *;
    try discriminate; [reflexivity|].
  f_equal. apply IH. lia.
Qed.

Lemma map_snd_combine_eq :
  forall (A B : Type) (l : list A) (l' : list B),
    List.length l = List.length l' -> map snd (combine l l') = l'.
Proof.
  intros A B l. induction l as [|x l IH]; intros [|y l'] H; simpl in *;
    try discriminate; [reflexivity|].
  f_equal. apply IH. lia.
Qed.

Lemma map_const_repeat :
  forall (A B : Type) (b : B) (l : list A),
    map (fun _ => b) l = repeat b (List.length l).
Proof.
  intros A B b l. induction l as [|x l IH]; simpl; [reflexivity|].
  now rewrite IH.
Qed.

(** What [melt] makes of a frame with the three columns. *)
Lemma melt_long_series :
  forall (df : DataFrame) (ids real predicted : list cell),
    get_series df "date" = Ok ids ->
    get_series df "real_close" = Ok real ->
    get_series df "predicted_close" = Ok predicted ->
    exists long,
      melt df "date" ["real_close"; "predicted_close"]%string "Type" "Price"
      = Ok long /\
      columns long = ["date"; "Type"; "Price"]%string /\
      List.length (rows long) = (2 * List.length (rows df))%nat /\
      get_series long "date" = Ok (ids ++ ids) /\
      get_series long "Type"
      = Ok (repeat (CStr "real_close") (List.length (rows df))
            ++ repeat (CStr "predicted_close") (List.length (rows df))) /\
      get_series long "Price" = Ok (real ++ predicted).
Proof.
  intros df ids real predicted Hi Hr Hp.
  pose proof (get_series_length _ _ _ Hi) as Li.
  pose proof (get_series_length _ _ _ Hr) as Lr.
  pose proof (get_series_length _ _ _ Hp) as Lp.
  unfold melt. rewrite Hi. cbn [bind melt_rows]. rewrite Hr. cbn [bind].
  rewrite Hp. cbn [bind]. eexists. split; [reflexivity|].
  cbn [columns rows]. split; [reflexivity|]. split.
  { rewrite !length_app, !length_map, !length_combine. simpl. lia. }
  unfold get_series, column_index. cbn [columns rows].
  split; [|split].
  - cbn. rewrite !map_app, !map_map, app_nil_r. cbn.
    change (fun x : cell * cell => fst x) with (@fst cell cell).
    now rewrite !map_fst_combine_eq by lia.
  - cbn. rewrite !map_app, !map_map, app_nil_r. cbn.
    rewrite !map_const_repeat, !length_combine.
    do 2 f_equal; f_equal; lia.
  - cbn. rewrite !map_app, !map_map, app_nil_r. cbn.
    change (fun x : cell * cell => snd x) with (@snd cell cell).
    now rewrite !map_snd_combine_eq by lia.
Qed.

(** X14.  The long table of the forecast chart holds the file's values and
    nothing else: for a frame with the three columns, [melt] gives a frame
    with the columns "date", "Type", "Price" and twice as many rows, whose
    prices are the real closes followed by the predicted closes, each in
    the order of the frame, whose dates are the frame's dates twice, and
    whose types are "real_close" on the first half and "predicted_close" on
    the second. *)
Theorem melt_forecast_long :
  forall (df : DataFrame) (ids real predicted : list cell),
    get_series df "date" = Ok ids ->
    get_series df "real_close" = Ok real ->
    get_series df "predicted_close" = Ok predicted ->
    exists long,
      melt df "date" ["real_close"; "predicted_close"]%string "Type" "Price"
      = Ok long /\
      columns long = ["date"; "Type"; "Price"]%string /\
      List.length (rows long) = (2 * List.length (rows df))%nat /\
      get_series long "date" = Ok (ids ++ ids) /\
      get_series long "Type"
      = Ok (repeat (CStr "real_close") (List.length (rows df))
            ++ repeat (CStr "predicted_close") (List.length (rows df))) /\
      get_series long "Price" = Ok (real ++ predicted).
Proof.
  intros df ids real predicted Hi Hr Hp.
  exact (melt_long_series df ids real predicted Hi Hr Hp).
Qed.

Lemma melt_forecast_long_witness :
  exists long,
    melt Samples.forecast_parsed "date"
      ["real_close"; "predicted_close"]%string "Type" "Price" = Ok long /\
    columns long = ["date"; "Type"; "Price"]%string /\
    List.length (rows long)
    = (2 * List.length (rows Samples.forecast_parsed))%nat /\
    get_series long "date"
    = Ok ([Samples.midnight 2024 1 2; Samples.midnight 2024 1 3]
          ++ [Samples.midnight 2024 1 2; Samples.midnight 2024 1 3]) /\
    get_series long "Type"
    = Ok (repeat (CStr "real_close")
            (List.length (rows Samples.forecast_parsed))
          ++ repeat (CStr "predicted_close")
               (List.length (rows Samples.forecast_parsed))) /\
    get_series long "Price"
    = Ok ([Samples.num 10; Samples.num 20]
          ++ [Samples.num 12; Samples.num 18]).
Proof.
  apply (melt_forecast_long Samples.forecast_parsed);
    vm_compute; reflexivity.
Defined.

Section ForecastPath.

Variable to_datetime : list cell -> result (list Time.timestamp).
Variable fs : string -> file.

(** On a forecast file with the three columns and dates that parse, the
    view shows the chart of the long table and the whole table, then
    computes the metric on the two value columns of the file. *)
Lemma forecast_view_reaches_metric :
  forall symbol tbl i ts real predicted,
    fs (forecast_path symbol) = Csv tbl ->
    column_index (normalize_columns tbl) "date" = Ok i ->
    to_datetime (map (cell_at i) (rows tbl)) = Ok ts ->
    get_series (normalize_columns tbl) "real_close" = Ok real ->
    get_series (normalize_columns tbl) "predicted_close" = Ok predicted ->
    let parsed := {| columns := map normalize_label (columns tbl);
                     rows := assign i ts (rows tbl) |} in
    get_series parsed "real_close" = Ok real /\
    get_series parsed "predicted_close" = Ok predicted /\
    exists fig,
      Plotly.plotted_y fig = real ++ predicted /\
      Plotly.fig_mode fig = Some "lines"%string /\
      Plotly.fig_color fig = Some "Type"%string /\
      forecast_view to_datetime fs symbol
      = ([(Tab 4, Subheader "Forecasted vs Real Prices (RNN Model)");
          (Tab 4, PlotlyChart fig);
          (Tab 4, Markdown "**Forecast Table:**");
          (Tab 4, Dataframe parsed)]
         ++ fst (report_mae parsed)
         ++ match snd (report_mae parsed) with
            | Ok _ =>
                [(Tab 4, Caption "Forecast generated by an RNN model trained on past 7-day windows of closing prices.")]
            | Raise _ => []
            end,
         snd (report_mae parsed)).
Proof.
  intros symbol tbl i ts real predicted Hfs Hi Ht Hr Hp parsed.
  destruct (get_series_index _ _ _ Hr) as [j [Hj Ej]].
  destruct (get_series_index _ _ _ Hp) as [k [Hk Ek]].
  assert (Hij : i <> j)
    by (apply (column_index_distinct _ _ _ _ _ Hi Hj); discriminate).
  assert (Hik : i <> k)
    by (apply (column_index_distinct _ _ _ _ _ Hi Hk); discriminate).
  assert (Pi : column_index parsed "date" = Ok i)
    by (rewrite <- Hi; now apply column_index_columns).
  assert (Pj : column_index parsed "real_close" = Ok j)
    by (rewrite <- Hj; now apply column_index_columns).
  assert (Pk : column_index parsed "predicted_close" = Ok k)
    by (rewrite <- Hk; now apply column_index_columns).
  assert (Pr : get_series parsed "real_close" = Ok real).
  { unfold get_series. rewrite Pj. cbn [bind rows parsed].
    rewrite (assign_other_column i j ts (rows tbl) Hij). now rewrite Ej. }
  assert (Pp : get_series parsed "predicted_close" = Ok predicted).
  { unfold get_series. rewrite Pk. cbn [bind rows parsed].
    rewrite (assign_other_column i k ts (rows tbl) Hik). now rewrite Ek. }
  assert (Pd : get_series parsed "date"
               = Ok (map (cell_at i) (assign i ts (rows tbl)))).
  { unfold get_series. now rewrite Pi. }
  split; [exact Pr|]. split; [exact Pp|].
  destruct (melt_long_series parsed _ real predicted Pd Pr Pp)
    as [long [Hm [Hc [_ [Ld [Lt Lp]]]]]].
  eexists. split; [|split; [|split]].
  4:{ assert (Hparse : parse_dates to_datetime (normalize_columns tbl) "date"
                       = Ok parsed).
      { unfold parse_dates, get_series. rewrite Hi. cbn [bind].
        change (rows (normalize_columns tbl)) with (rows tbl).
        rewrite Ht. reflexivity. }
      assert (E : forallb (fun c => PyStr.mem c (columns parsed))
                    expected_cols = true).
      { unfold expected_cols. cbn [forallb].
        rewrite (column_index_mem parsed _ _ Pj),
                (column_index_mem parsed _ _ Pk),
                (column_index_mem parsed _ _ Pi). reflexivity. }
      assert (Hpx : Plotly.px Plotly.LineChart long "date" "Price"
                      (Some "Type"%string)
                      (Some "Real vs Predicted Closing Prices"%string)
                      [("date"%string, "Date"%string);
                       ("Price"%string, "Price"%string);
                       ("Type"%string, "Legend"%string)]
                    = Ok {| Plotly.fig_kind := Plotly.LineChart;
                            Plotly.fig_frame := long;
                            Plotly.fig_x := "date";
                            Plotly.fig_y := "Price";
                            Plotly.fig_color := Some "Type"%string;
                            Plotly.fig_title :=
                              Some "Real vs Predicted Closing Prices"%string;
                            Plotly.fig_labels :=
                              [("date"%string, "Date"%string);
                               ("Price"%string, "Price"%string);
                               ("Type"%string, "Legend"%string)];
                            Plotly.fig_mode := None;
                            Plotly.fig_scatters := [] |}).
      { unfold Plotly.px. rewrite Ld, Lp, Lt. reflexivity. }
      unfold forecast_view, exists_, read_csv.
      ui_step. rewrite Hfs. ui_step. rewrite Hparse. ui_step.
      rewrite E. ui_step. rewrite Hm. ui_step. rewrite Hpx. ui_step.
      destruct (report_mae parsed) as [evs [[]|e]]; ui_step;
        rewrite ?app_nil_r; reflexivity. }
  - unfold Plotly.plotted_y, Plotly.update_traces, Plotly.column_or_nil.
    cbn [Plotly.fig_frame Plotly.fig_y Plotly.fig_scatters map List.concat].
    rewrite Lp. now rewrite app_nil_r.
  - reflexivity.
  - reflexivity.
Qed.


Lemma report_mae_Raise :
  forall df real predicted e,
    get_series df "real_close" = Ok real ->
    get_series df "predicted_close" = Ok predicted ->
    Sklearn.mean_absolute_error real predicted = Raise e ->
    report_mae df = ([], Raise e).
Proof.
  intros df real predicted e Hr Hp Hm.
  unfold report_mae. ui_step. rewrite Hr. ui_step. rewrite Hp. ui_step.
  rewrite Hm. reflexivity.
Qed.

Lemma check_array_missing :
  forall s, In CNaN s -> Sklearn.check_array s = None.
Proof.
  induction s as [|c s IH]; intros H; [destruct H|].
  cbn [Sklearn.check_array].
  destruct H as [-> | H]; [reflexivity|].
  rewrite (IH H).
  destruct (Float64.of_cell c) as [[q| |]|]; reflexivity.
Qed.


(** X16.  On a forecast file that has the three columns and dates that
    parse, but a missing value in one of the two value columns, the
    forecast tab still shows its heading, the chart, the table heading and
    the whole table; the metric then raises a [ValueError], so neither the
    error value nor the caption is shown and the run stops there. *)
Theorem forecast_view_metric_fails :
  forall symbol tbl i ts real predicted,
    fs (forecast_path symbol) = Csv tbl ->
    column_index (normalize_columns tbl) "date" = Ok i ->
    to_datetime (map (cell_at i) (rows tbl)) = Ok ts ->
    get_series (normalize_columns tbl) "real_close" = Ok real ->
    get_series (normalize_columns tbl) "predicted_close" = Ok predicted ->
    In CNaN real \/ In CNaN predicted ->
    exists fig msg,
      Plotly.plotted_y fig = real ++ predicted /\
      forecast_view to_datetime fs symbol
      = ([(Tab 4, Subheader "Forecasted vs Real Prices (RNN Model)");
          (Tab 4, PlotlyChart fig);
          (Tab 4, Markdown "**Forecast Table:**");
          (Tab 4, Dataframe
                    {| columns := map normalize_label (columns tbl);
                       rows := assign i ts (rows tbl) |})],
         Raise (ValueError msg)).
Proof.
  intros symbol tbl i ts real predicted Hfs Hi Ht Hr Hp Hbad.
  destruct (forecast_view_reaches_metric symbol tbl i ts _ _ Hfs Hi Ht Hr Hp)
    as [Pr [Pp [fig [Hy [_ [_ Hrun]]]]]].
  assert (Lr : List.length real = List.length (rows tbl))
    by exact (get_series_length _ _ _ Hr).
  assert (Lp : List.length predicted = List.length (rows tbl))
    by exact (get_series_length _ _ _ Hp).
  assert (Hm : exists msg,
             Sklearn.mean_absolute_error real predicted
             = Raise (ValueError msg)).
  { unfold Sklearn.mean_absolute_error.
    rewrite Lr, Lp, Nat.eqb_refl. cbn [negb].
    destruct Hbad as [Hc | Hc]; rewrite (check_array_missing _ Hc).
    - eexists. reflexivity.
    - destruct (Sklearn.check_array real); eexists; reflexivity. }
  destruct Hm as [msg Hm].
  exists fig, msg. split; [exact Hy|].
  rewrite Hrun. rewrite (report_mae_Raise _ _ _ _ Pr Pp Hm). reflexivity.
Qed.

End ForecastPath.


Lemma forecast_view_metric_fails_witness :
  exists fig msg,
    Plotly.plotted_y fig
    = [Samples.num 10; Samples.num 20] ++ [Samples.num 12; CNaN] /\
    forecast_view iso_to_datetime
      (Samples.folder_with Samples.aapl_csv Samples.forecast_gap_csv) "AAPL"
    = ([(Tab 4, Subheader "Forecasted vs Real Prices (RNN Model)");
        (Tab 4, PlotlyChart fig);
        (Tab 4, Markdown "**Forecast Table:**");
        (Tab 4, Dataframe
                  {| columns :=
                       map normalize_label (columns Samples.forecast_gap_csv);
                     rows :=
                       assign 0
                         [Some (Time.of_date (Samples.day 2024 1 2));
                          Some (Time.of_date (Samples.day 2024 1 3))]
                         (rows Samples.forecast_gap_csv) |})],
       Raise (ValueError msg)).
Proof.
  apply (forecast_view_metric_fails iso_to_datetime
           (Samples.folder_with Samples.aapl_csv Samples.forecast_gap_csv)
           "AAPL" Samples.forecast_gap_csv 0).
  - reflexivity.
  - reflexivity.
  - reflexivity.
  - reflexivity.
  - reflexivity.
  - right. right. left. reflexivity.
Defined.

(** ** Data files that are not there *)

Section MissingFiles.

Variable to_datetime : list cell -> result (list Time.timestamp).
Variable sort_rows : (row -> Time.timestamp) -> list row -> list row.
Variable fs : string -> file.

(** One company ticked whose file is absent stops the loop of the
    comparison view, wherever it stands among the companies ticked. *)
Lemma add_others_absent :
  forall others o name r fig,
    In o others ->
    dict_get files o = Ok name ->
    fs name = Absent ->
    exists e, add_others to_datetime sort_rows fs r fig others = Raise e.
Proof.
  induction others as [|other others IH]; intros o name r fig Hin Hd Hfs;
    [destruct Hin|].
  cbn [add_others].
  destruct (add_other to_datetime sort_rows fs r fig other) as [fig'|e] eqn:E;
    cbn [bind]; [|now exists e].
  destruct Hin as [-> | Hin]; [|exact (IH o name r fig' Hin Hd Hfs)].
  exfalso. revert E. unfold add_other, load_prices, read_csv.
  rewrite Hd. cbn [bind]. rewrite Hfs. discriminate.
Qed.

Lemma prelude_no_expander :
  forall sel picked label,
    shown_in (Expander label)
      (fst (prelude to_datetime sort_rows fs sel picked)) = [].
Proof.
  intros sel picked label.
  unfold prelude, header, st_image, select_range, st_slider.
  ui_cases; reflexivity.
Qed.

Lemma views_stop_at_compare :
  forall sel symbol others r d e,
    snd (compare_view to_datetime sort_rows fs sel r others d) = Raise e ->
    (exists e',
        snd (views to_datetime sort_rows fs sel symbol others r d)
        = Raise e') /\
    shown_in (Expander " About this Dashboard")
      (fst (views to_datetime sort_rows fs sel symbol others r d)) = [].
Proof.
  intros sel symbol others r d e Hc. split.
  - unfold views. snd_norm.
    destruct (snd (line_view d)) as [[]|e1]; [|now exists e1].
    snd_norm.
    destruct (snd (bar_view d)) as [[]|e2]; [|now exists e2].
    snd_norm. rewrite Hc. now exists e.
  - rewrite views_shown, Hc.
    rewrite (shown_in_elsewhere (Tab 1) _ _ (line_view_in d))
      by discriminate.
    rewrite (shown_in_elsewhere (Tab 2) _ _ (bar_view_in d))
      by discriminate.
    rewrite (shown_in_elsewhere (Tab 3) _ _
               (compare_view_in to_datetime sort_rows fs sel r others d))
      by discriminate.
    change (shown_in (Expander " About this Dashboard") [(Main, Tabs _)])
      with (@nil element).
    cbn [app]. repeat break_match; reflexivity.
Qed.

(** X17.  When the data file of the company chosen is absent, the run
    shows the company selector and nothing else, and stops with
    [FileNotFoundError] on that file: the message of the last branch of the
    script, for a file without its "date" or "close" column, is not
    shown. *)
Theorem primary_file_absent :
  forall sel picked others name,
    dict_get files sel = Ok name ->
    fs name = Absent ->
    run to_datetime sort_rows fs sel picked others
    = ([(Sidebar, Selectbox "📈 Select a company" (keys files))],
       Raise (FileNotFoundError name)).
Proof.
  intros sel picked others name Hd Hfs.
  unfold run, prelude, read_csv. ui_step. rewrite Hd. ui_step.
  rewrite Hfs. reflexivity.
Qed.

(** X18.  The comparison view reads the file of a company ticked without
    looking whether it is there.  When the dashboard has got to its tabs
    and one of the companies ticked has no file, the run stops with an
    exception: the comparison tab shows no chart, and the forecast tab and
    the description panel show nothing at all. *)
Theorem compared_file_absent :
  forall sel picked others o name symbol r d,
    snd (prelude to_datetime sort_rows fs sel picked)
    = Ok (Some (symbol, r, d)) ->
    In o others ->
    dict_get files o = Ok name ->
    fs name = Absent ->
    (exists e,
        snd (run to_datetime sort_rows fs sel picked others) = Raise e) /\
    (forall fig,
        ~ In (PlotlyChart fig)
            (shown_in (Tab 3)
               (fst (run to_datetime sort_rows fs sel picked others)))) /\
    shown_in (Tab 4)
      (fst (run to_datetime sort_rows fs sel picked others)) = [] /\
    shown_in (Expander " About this Dashboard")
      (fst (run to_datetime sort_rows fs sel picked others)) = [].
Proof.
  intros sel picked others o name symbol r d Hp Hin Hd Hfs.
  assert (Hc : exists e,
             snd (compare_view to_datetime sort_rows fs sel r others d)
             = Raise e).
  { unfold compare_view. snd_norm.
    destruct (Plotly.px Plotly.LineChart d "date" "close" None None
                [("close"%string, sel)]) as [g|e]; [|now exists e].
    snd_norm.
    destruct (add_others_absent others o name r g Hin Hd Hfs) as [e E].
    rewrite E. now exists e. }
  destruct Hc as [e Hc].
  destruct (views_stop_at_compare sel symbol others r d e Hc) as [[e' Hv] Hx].
  split; [|split; [|split]].
  - exists e'. unfold run. rewrite snd_mbind, Hp. exact Hv.
  - intros fig. rewrite run_tab, Hp, views_compare_tab.
    destruct (snd (line_view d)) as [[]|]; [|intros []].
    destruct (snd (bar_view d)) as [[]|]; [|intros []].
    rewrite compare_view_shown.
    destruct (Plotly.px Plotly.LineChart d "date" "close" None None
                [("close"%string, sel)]) as [g|e0].
    2:{ intros [H|[H|[]]]; discriminate H. }
    destruct (add_others_absent others o name r g Hin Hd Hfs) as [e1 E].
    rewrite E. intros [H|[H|[]]]; discriminate H.
  - rewrite run_tab, Hp, views_forecast_tab, Hc.
    repeat break_match; reflexivity.
  - unfold run. rewrite fst_mbind, shown_in_app, prelude_no_expander, Hp.
    exact Hx.
Qed.

End MissingFiles.

Lemma primary_file_absent_witness :
  Samples.run_sample Samples.folder "Boeing (BA)" None []
  = ([(Sidebar, Selectbox "📈 Select a company" (keys files))],
     Raise (FileNotFoundError "df_BA.csv")).
Proof.
  apply (primary_file_absent iso_to_datetime insertion_sort Samples.folder
           "Boeing (BA)" None [] "df_BA.csv").
  - reflexivity.
  - reflexivity.
Defined.

Lemma compared_file_absent_witness :
  (exists e,
      snd (Samples.run_sample Samples.folder "Apple (AAPL)" None
             ["Google (GOOG)"; "Boeing (BA)"]%string) = Raise e) /\
  (forall fig,
      ~ In (PlotlyChart fig)
          (shown_in (Tab 3)
             (fst (Samples.run_sample Samples.folder "Apple (AAPL)" None
                     ["Google (GOOG)"; "Boeing (BA)"]%string)))) /\
  shown_in (Tab 4)
    (fst (Samples.run_sample Samples.folder "Apple (AAPL)" None
            ["Google (GOOG)"; "Boeing (BA)"]%string)) = [] /\
  shown_in (Expander " About this Dashboard")
    (fst (Samples.run_sample Samples.folder "Apple (AAPL)" None
            ["Google (GOOG)"; "Boeing (BA)"]%string)) = [].
Proof.
  apply (compared_file_absent iso_to_datetime insertion_sort Samples.folder
           "Apple (AAPL)" None ["Google (GOOG)"; "Boeing (BA)"]%string
           "Boeing (BA)" "df_BA.csv" "AAPL"
           (Samples.day 2024 1 2, Samples.day 2024 1 5) Samples.aapl_loaded).
  - reflexivity.
  - right. left. reflexivity.
  - reflexivity.
  - reflexivity.
Defined.

(** ** The description panel (lines 144-151) *)

Lemma item_split_first :
  forall sep s,
    PyStr.item (PyStr.split sep s) 0
    = Ok (string_of_list_ascii
            (Props.take_until sep (list_ascii_of_string s))).
Proof.
  intros sep s. unfold PyStr.split.
  destruct (split_list_first sep (list_ascii_of_string s) []) as [rest ->].
  reflexivity.
Qed.

Lemma about_view_total :
  forall sel d close text total,
    get_series d "close" = Ok close ->
    series_sum close = Ok total ->
    dict_get descriptions sel = Ok text ->
    about_view sel d
    = ([(Expander " About this Dashboard",
         Markdown
           (String.append "###  About "
              (PyStr.strip
                 (string_of_list_ascii
                    (Props.take_until "(" (list_ascii_of_string sel))))));
        (Expander " About this Dashboard", Write text []);
        (Expander " About this Dashboard",
         Info
           (String.append "**Total closing value in selected period:** "
              (String.append "$" (PyNum.format_number true 2 total))))],
       Ok tt).
Proof.
  intros sel d close text total Hc Hs Hd. unfold about_view.
  rewrite Hc. ui_step. rewrite Hs. ui_step.
  rewrite item_split_first. ui_step. rewrite Hd. reflexivity.
Qed.



(** X21.  The total of the description panel is the total of what the
    line chart draws: when the line tab shows a chart whose plotted values
    can be added up, the panel of the same filtered frame ends normally
    and shows the total of exactly those plotted values, as [sum] returns
    it for them, with thousands separators and two decimals. *)
Theorem total_is_sum_of_plotted :
  forall sel d fig text total,
    In (Tab 1, PlotlyChart fig) (fst (line_view d)) ->
    series_sum (Plotly.plotted_y fig) = Ok total ->
    dict_get descriptions sel = Ok text ->
    In (Expander " About this Dashboard",
        Info
          (String.append "**Total closing value in selected period:** "
             (String.append "$" (PyNum.format_number true 2 total))))
       (fst (about_view sel d)) /\
    snd (about_view sel d) = Ok tt.
Proof.
  intros sel d fig text total Hin Hs Hd. revert Hin. unfold line_view.
  ui_step.
  destruct (Plotly.px Plotly.LineChart d "date" "close" None
              (Some "Closing Price Over Time"%string) []) as [g|e] eqn:E;
    ui_step.
  2:{ intros [H|[]]; discriminate H. }
  intros [H|[H|[]]]; [discriminate H|]. injection H as <-.
  pose proof (px_Ok _ _ _ _ _ _ _ _ E) as ->.
  revert E Hs. unfold Plotly.px, Plotly.plotted_y, Plotly.column_or_nil.
  cbn [Plotly.fig_frame Plotly.fig_y Plotly.fig_scatters map List.concat].
  destruct (get_series d "date") as [dates|e]; [|discriminate].
  destruct (get_series d "close") as [close|e] eqn:Hc; [|discriminate].
  intros _. rewrite app_nil_r. intros Hs.
  rewrite (about_view_total sel d close text total Hc Hs Hd).
  split; [right; right; left|]; reflexivity.
Qed.

Lemma total_is_sum_of_plotted_witness :
  In (Expander " About this Dashboard",
      Info "**Total closing value in selected period:** $735.00")
     (fst (about_view "Apple (AAPL)" Samples.aapl_loaded)) /\
  snd (about_view "Apple (AAPL)" Samples.aapl_loaded) = Ok tt.
Proof.
  apply (total_is_sum_of_plotted "Apple (AAPL)"%string Samples.aapl_loaded
           {| Plotly.fig_kind := Plotly.LineChart;
              Plotly.fig_frame := Samples.aapl_loaded;
              Plotly.fig_x := "date";
              Plotly.fig_y := "close";
              Plotly.fig_color := None;
              Plotly.fig_title := Some "Closing Price Over Time"%string;
              Plotly.fig_labels := [];
              Plotly.fig_mode := None;
              Plotly.fig_scatters := [] |}
           "Apple Inc. is a global technology company known for the iPhone, Mac, and innovative software services."%string
           (PyNum.NFloat (Float64.Finite 735))).
  - right. left. reflexivity.
  - reflexivity.
  - reflexivity.
Defined.

(** ** Numbers as the page shows them (lines 132 and 146) *)

Lemma digits_of_uint :
  forall d acc,
    fold_left (fun acc c => 10 * acc + (Z.of_nat (nat_of_ascii c) - 48))%Z
      (list_ascii_of_string (NilEmpty.string_of_uint d)) acc
    = Props.uint_value acc d.
Proof.
  induction d; intros acc;
    cbn [NilEmpty.string_of_uint list_ascii_of_string fold_left
         Props.uint_value];
    [reflexivity | rewrite IHd; reflexivity ..].
Qed.

Lemma uint_value_pos :
  forall d acc,
    Props.uint_value (Z.pos acc) d = Z.pos (Pos.of_uint_acc d acc).
Proof.
  induction d; intros acc; cbn [Props.uint_value Pos.of_uint_acc];
    [reflexivity | ..];
    match goal with
    | |- Props.uint_value ?a _ = Z.pos (Pos.of_uint_acc _ ?b) =>
        replace a with (Z.pos b) by lia; apply IHd
    end.
Qed.

Lemma uint_value_zero :
  forall d, Props.uint_value 0 d = Z.of_N (Pos.of_uint d).
Proof.
  induction d; cbn [Props.uint_value Pos.of_uint];
    [reflexivity | exact IHd | ..];
    cbn [Z.mul Z.add Z.of_N]; apply uint_value_pos.
Qed.

(** The digits of a natural number write that number. *)
Lemma digits_value_int_digits :
  forall m, (0 <= m)%Z -> Props.digits_value (PyFmt.int_digits m) = m.
Proof.
  intros m Hm.
  unfold Props.digits_value, PyFmt.int_digits, NilZero.string_of_uint.
  assert (E : Props.uint_value 0 (N.to_uint (Z.to_N m)) = m).
  { rewrite uint_value_zero.
    change (Pos.of_uint (N.to_uint (Z.to_N m)))
      with (N.of_uint (N.to_uint (Z.to_N m))).
    rewrite DecimalN.Unsigned.of_to. lia. }
  destruct (N.to_uint (Z.to_N m)) eqn:Eu;
    try (rewrite digits_of_uint; exact E).
  cbn. cbn in E. exact E.
Qed.

Lemma filter_reversed :
  forall (A : Type) (f : A -> bool) l, filter f (rev l) = rev (filter f l).
Proof.
  intros A f l. induction l as [|c l IH]; [reflexivity|].
  simpl. rewrite filter_app, IH. simpl. destruct (f c); simpl;
    [reflexivity | now rewrite app_nil_r].
Qed.

Lemma digit_not_comma :
  forall c, Spec.is_digit c = true -> Props.not_comma c = true.
Proof.
  intros c H. unfold Props.not_comma.
  destruct (Ascii.eqb c ","%char) eqn:E; [|reflexivity].
  apply Ascii.eqb_eq in E. subst c. discriminate H.
Qed.

Lemma digit_not_point :
  forall c, Spec.is_digit c = true -> Ascii.eqb c "."%char = false.
Proof.
  intros c H.
  destruct (Ascii.eqb c "."%char) eqn:E; [|reflexivity].
  apply Ascii.eqb_eq in E. subst c. discriminate H.
Qed.

Lemma digits_not_comma :
  forall l,
    Forall (fun c => Spec.is_digit c = true) l ->
    Forall (fun c => Props.not_comma c = true) l.
Proof.
  intros l H. eapply Forall_impl; [|exact H]. exact digit_not_comma.
Qed.

Lemma uint_digits :
  forall d,
    Forall (fun c => Spec.is_digit c = true)
      (list_ascii_of_string (NilEmpty.string_of_uint d)).
Proof.
  induction d; cbn [NilEmpty.string_of_uint list_ascii_of_string];
    [constructor | constructor; [reflexivity | exact IHd] ..].
Qed.

Lemma int_digits_digits :
  forall m, Forall (fun c => Spec.is_digit c = true) (PyFmt.int_digits m).
Proof.
  intros m. unfold PyFmt.int_digits, NilZero.string_of_uint.
  destruct (N.to_uint (Z.to_N m)) eqn:E;
    try (rewrite <- E; apply uint_digits).
  repeat constructor.
Qed.

(** Grouping adds commas and nothing else. *)
Lemma group3_rev_digits :
  forall l k,
    Forall (fun c => Spec.is_digit c = true) l ->
    filter Props.not_comma (PyFmt.group3_rev l k) = l.
Proof.
  induction l as [|c l IH]; intros k H; [reflexivity|].
  inversion H as [|? ? Hc Hl]; subst.
  destruct k as [|k]; cbn [PyFmt.group3_rev filter];
    rewrite (digit_not_comma c Hc);
    [change (Props.not_comma ","%char) with false; cbv iota|];
    now rewrite IH.
Qed.

Lemma group3_digits :
  forall l,
    Forall (fun c => Spec.is_digit c = true) l ->
    filter Props.not_comma (PyFmt.group3 l) = l.
Proof.
  intros l H. unfold PyFmt.group3.
  rewrite filter_reversed, group3_rev_digits, rev_involutive;
    [reflexivity|].
  now apply Forall_rev.
Qed.

Lemma digit_char_value :
  forall k, (0 <= k < 10)%Z ->
    (Z.of_nat (nat_of_ascii (PyFmt.digit_char k)) - 48 = k)%Z.
Proof.
  intros k Hk. unfold PyFmt.digit_char.
  rewrite nat_ascii_embedding by lia. lia.
Qed.

Lemma digits_value_frac :
  forall d m acc,
    fold_left (fun acc c => 10 * acc + (Z.of_nat (nat_of_ascii c) - 48))%Z
      (PyFmt.frac_digits d m) acc
    = (acc * 10 ^ Z.of_nat d + m mod 10 ^ Z.of_nat d)%Z.
Proof.
  induction d as [|d IH]; intros m acc.
  - cbn [PyFmt.frac_digits fold_left]. change (10 ^ Z.of_nat 0)%Z with 1%Z.
    rewrite Z.mod_1_r. lia.
  - cbn [PyFmt.frac_digits]. rewrite fold_left_app, IH. cbn [fold_left].
    rewrite digit_char_value by (apply Z.mod_pos_bound; lia).
    rewrite Nat2Z.inj_succ, Z.pow_succ_r by lia.
    assert (Hp : (0 < 10 ^ Z.of_nat d)%Z) by (apply Z.pow_pos_nonneg; lia).
    rewrite (Z.rem_mul_r m 10 (10 ^ Z.of_nat d)) by lia.
    lia.
Qed.

(** The whole part followed by the decimals writes the scaled number. *)
Lemma digits_value_number :
  forall d n, (0 <= n)%Z ->
    Props.digits_value
      (PyFmt.int_digits (n / 10 ^ Z.of_nat d) ++ PyFmt.frac_digits d n) = n.
Proof.
  intros d n Hn.
  assert (Hp : (0 < 10 ^ Z.of_nat d)%Z) by (apply Z.pow_pos_nonneg; lia).
  unfold Props.digits_value. rewrite fold_left_app.
  pose proof (digits_value_int_digits (n / 10 ^ Z.of_nat d)
                (Z.div_pos _ _ Hn Hp)) as E.
  unfold Props.digits_value in E. rewrite E, digits_value_frac.
  pose proof (Z.div_mod n (10 ^ Z.of_nat d)). lia.
Qed.

Lemma after_point_digits :
  forall l rest,
    Forall (fun c => Spec.is_digit c = true) l ->
    Props.after_point (l ++ rest) = Props.after_point rest.
Proof.
  intros l rest H. induction H as [|c l Hc _ IH]; [reflexivity|].
  cbn [app Props.after_point]. now rewrite (digit_not_point c Hc).
Qed.

Lemma round_half_even_near :
  forall x, Qabs (inject_Z (PyFmt.round_half_even x) - x) <= 1 # 2.
Proof.
  intros x. unfold PyFmt.round_half_even.
  pose proof (Qfloor_le x) as Hlo. pose proof (Qlt_floor x) as Hhi.
  rewrite inject_Z_plus in Hhi. change (inject_Z 1) with 1 in Hhi.
  apply Qabs_Qle_condition.
  destruct (Qcompare_spec (x - inject_Z (Qfloor x)) (1 # 2)) as [E|E|E].
  - destruct (Z.even (Qfloor x));
      [|rewrite inject_Z_plus; change (inject_Z 1) with 1]; lra.
  - lra.
  - rewrite inject_Z_plus. change (inject_Z 1) with 1. lra.
Qed.

Lemma round_half_even_sign :
  forall x,
    (x < 0 -> (PyFmt.round_half_even x <= 0)%Z) /\
    (0 <= x -> (0 <= PyFmt.round_half_even x)%Z).
Proof.
  intros x. unfold PyFmt.round_half_even.
  pose proof (Qfloor_le x) as Hlo. pose proof (Qlt_floor x) as Hhi.
  rewrite inject_Z_plus in Hhi. change (inject_Z 1) with 1 in Hhi.
  split; intros Hx.
  - assert (Hf : (Qfloor x < 0)%Z).
    { rewrite Zlt_Qlt. change (inject_Z 0) with 0. lra. }
    destruct (Qcompare (x - inject_Z (Qfloor x)) (1 # 2));
      [destruct (Z.even (Qfloor x))| |]; lia.
  - assert (Hf : (0 <= Qfloor x)%Z).
    { change 0%Z with (Qfloor 0). now apply Qfloor_resp_le. }
    destruct (Qcompare (x - inject_Z (Qfloor x)) (1 # 2));
      [destruct (Z.even (Qfloor x))| |]; lia.
Qed.

(** The text of a formatted number, thousands separators dropped: the
    sign, the digits of the whole part, and the point and the decimals when
    decimals are asked for. *)
Lemma format_fixed_text :
  forall commas d q,
    filter Props.not_comma
      (list_ascii_of_string (PyFmt.format_fixed commas d q))
    = (match Qcompare q 0 with Lt => ["-"%char] | _ => [] end)
      ++ PyFmt.int_digits
           (Z.abs (PyFmt.round_half_even (q * inject_Z (10 ^ Z.of_nat d)))
            / 10 ^ Z.of_nat d)
      ++ (if (d =? 0)%nat then []
          else "."%char
               :: PyFmt.frac_digits d
                    (Z.abs (PyFmt.round_half_even
                              (q * inject_Z (10 ^ Z.of_nat d))))).
Proof.
  intros commas d q. unfold PyFmt.format_fixed. cbv zeta.
  rewrite list_ascii_of_string_of_list_ascii, !filter_app.
  f_equal; [destruct (Qcompare q 0); reflexivity|].
  f_equal.
  - destruct commas.
    + apply group3_digits, int_digits_digits.
    + apply filter_all, digits_not_comma, int_digits_digits.
  - destruct (d =? 0)%nat; [reflexivity|].
    cbn [filter]. change (Props.not_comma "."%char) with true. cbv iota.
    f_equal. apply filter_all, digits_not_comma, frac_digits_digits.
Qed.

Lemma no_minus_head :
  forall l rest (a b : Q),
    Forall (fun c => Spec.is_digit c = true) l ->
    rest = [] \/ (exists t, rest = "."%char :: t) ->
    match l ++ rest with
    | "-"%char :: _ => a
    | _ => b
    end = b.
Proof.
  intros l rest a b Hl Hr. destruct Hl as [|c l Hc _]; cbn [app].
  - destruct Hr as [-> | [t ->]]; reflexivity.
  - revert Hc. destruct c as [[] [] [] [] [] [] [] []];
      solve [reflexivity | discriminate].
Qed.

(** Reading back an unsigned text of [d] decimals gives the number scaled
    down; a minus sign in front negates it. *)
Lemma read_digits_number :
  forall d n,
    (0 <= n)%Z ->
    let body := PyFmt.int_digits (n / 10 ^ Z.of_nat d)
                ++ (if (d =? 0)%nat then []
                    else "."%char :: PyFmt.frac_digits d n) in
    Props.read_digits body = inject_Z n / inject_Z (10 ^ Z.of_nat d) /\
    Props.read_digits ("-"%char :: body)
    = - (inject_Z n / inject_Z (10 ^ Z.of_nat d)).
Proof.
  intros d n Hn body.
  pose proof (int_digits_digits (n / 10 ^ Z.of_nat d)) as Hw.
  pose proof (frac_digits_digits d n) as Hf.
  assert (Hv : filter Spec.is_digit body
               = PyFmt.int_digits (n / 10 ^ Z.of_nat d)
                 ++ PyFmt.frac_digits d n).
  { unfold body. rewrite filter_app, (filter_all _ _ _ Hw). f_equal.
    destruct d; [reflexivity|].
    cbn [Nat.eqb filter]. change (Spec.is_digit "."%char) with false.
    cbv iota. now apply filter_all. }
  assert (Hl : List.length (Props.after_point body) = d).
  { unfold body. rewrite (after_point_digits _ _ Hw).
    destruct d; [reflexivity|].
    cbn [Nat.eqb Props.after_point]. rewrite Ascii.eqb_refl.
    apply frac_digits_length. }
  assert (Ht : (if (d =? 0)%nat then []
                else "."%char :: PyFmt.frac_digits d n) = []
               \/ exists t,
                   (if (d =? 0)%nat then []
                    else "."%char :: PyFmt.frac_digits d n)
                   = "."%char :: t).
  { destruct (d =? 0)%nat; [now left | right; now eexists]. }
  split.
  - unfold Props.read_digits. cbv zeta. rewrite Hv, Hl.
    rewrite (digits_value_number d n Hn).
    unfold body. exact (no_minus_head _ _ _ _ Hw Ht).
  - unfold Props.read_digits. cbv zeta.
    change (filter Spec.is_digit ("-"%char :: body))
      with (filter Spec.is_digit body).
    change (Props.after_point ("-"%char :: body))
      with (Props.after_point body).
    rewrite Hv, Hl, (digits_value_number d n Hn). reflexivity.
Qed.

Lemma format_fixed_near :
  forall commas d q,
    Qabs (Props.read_fixed (PyFmt.format_fixed commas d q) - q)
    <= (1 # 2) / inject_Z (10 ^ Z.of_nat d).
Proof.
  intros commas d q. unfold Props.read_fixed.
  rewrite format_fixed_text.
  set (P := (10 ^ Z.of_nat d)%Z).
  assert (HP : (0 < P)%Z) by (apply Z.pow_pos_nonneg; lia).
  assert (HQ : 0 < inject_Z P)
    by (change 0 with (inject_Z 0); now rewrite <- Zlt_Qlt).
  set (r := PyFmt.round_half_even (q * inject_Z P)).
  pose proof (round_half_even_near (q * inject_Z P)) as Hnear.
  fold r in Hnear.
  destruct (round_half_even_sign (q * inject_Z P)) as [Hneg Hpos].
  fold r in Hneg, Hpos.
  destruct (read_digits_number d (Z.abs r) (Z.abs_nonneg r)) as [Hu Hs].
  fold P in Hu, Hs.
  assert (Hbound : forall s, s == inject_Z r / inject_Z P ->
                     Qabs (s - q) <= (1 # 2) / inject_Z P).
  { intros s ->.
    assert (E : inject_Z r / inject_Z P - q
                == (inject_Z r - q * inject_Z P) / inject_Z P)
      by (field; lra).
    rewrite E. unfold Qdiv. rewrite Qabs_Qmult.
    rewrite (Qabs_pos (/ inject_Z P))
      by (apply Qlt_le_weak, Qinv_lt_0_compat, HQ).
    apply Qmult_le_compat_r; [exact Hnear|].
    apply Qlt_le_weak, Qinv_lt_0_compat, HQ. }
  assert (Hplain : 0 <= q ->
            Qabs (Props.read_digits
                    (PyFmt.int_digits (Z.abs r / P)
                     ++ (if (d =? 0)%nat then []
                         else "."%char :: PyFmt.frac_digits d (Z.abs r)))
                  - q) <= (1 # 2) / inject_Z P).
  { intros Hq. rewrite Hu. apply Hbound.
    assert (Hr : (0 <= r)%Z)
      by (apply Hpos; apply Qmult_le_0_compat; lra).
    rewrite Z.abs_eq by exact Hr. reflexivity. }
  destruct (Qcompare_spec q 0) as [E|E|E].
  - apply Hplain. rewrite E. lra.
  - cbn [app]. rewrite Hs. apply Hbound.
    assert (Hr : (r <= 0)%Z).
    { apply Hneg. setoid_replace 0 with (0 * inject_Z P) by ring.
      apply Qmult_lt_compat_r; assumption. }
    rewrite Z.abs_neq by exact Hr. rewrite inject_Z_opp. field. lra.
  - apply Hplain. lra.
Qed.

(** X20.  A number formatted with [d] decimals, with or without thousands
    separators ([.4f] for the metric, [,.2f] for the total), reads back as
    the number itself to within half a unit of the last decimal shown:
    0.00005 for the metric, half a cent for the total. *)
Theorem format_fixed_read_back :
  forall commas d q,
    Qabs (Props.read_fixed (PyFmt.format_fixed commas d q) - q)
    <= (1 # 2) / inject_Z (10 ^ Z.of_nat d).
Proof. exact format_fixed_near. Qed.

(** ** The metric and its display (lines 130-132) *)




